(** * Tracing instrumentation of the LibreChat / Opik integration

    A shallow embedding of the JavaScript tracing helpers of the repository:

    - [backend/otel.js]: the enable flag and the disabled stubs, the
      tool-call wrapper [traceMCPToolCall], the model-call wrapper
      [traceLLMCall] and the cost function [calculateLLMCost];
    - mcp-tracing: the MCP client proxy [instrumentMCPClient], the
      connection and batch wrappers, the request middleware and handler;
    - the browser helpers [instrumentConsole], [instrumentErrors] and
      [traceUserAction];
    - the configuration route [GET /otel];
    - the bounded span buffer of the batch exporter.

    JavaScript values are an inductive type, Numbers are IEEE-754 binary64
    (Rocq's primitive floats), objects used as dictionaries are finite maps,
    and effects (the span store, the active context, the clock, the console)
    are threaded through a state-and-exception monad. *)

From Stdlib Require Import ZArith QArith Qround Bool List Ascii String DecimalString.
From Stdlib Require Import Floats.
From stdpp Require Import base option list gmap strings.

Local Open Scope Z_scope.

(* ===================================================================== *)
(** * 1. JavaScript values and the built-ins the code relies on          *)
(* ===================================================================== *)

(** The values the instrumented code handles.  A string is a sequence of
    code units (one [ascii] each); the fields of [JObj] are the object's own
    enumerable string-keyed properties in enumeration order; [JErr] is an
    instance of an Error class, with the name of its constructor and its
    message (own, non-enumerable). *)
#[warnings="-register-all"]
Inductive JsValue : Type :=
| JUndefined
| JNull
| JBool (b : bool)
| JNum (x : float)
| JStr (s : string)
| JArr (elems : list JsValue)
| JObj (fields : list (string * JsValue))
| JErr (ctor : string) (message : string).

(** The completion of a call: a normal return, or a thrown value.  An async
    function is modelled by the completion its promise settles with. *)
Inductive Outcome (A : Type) : Type :=
| Returned (a : A)
| Thrown (e : JsValue).
Arguments Returned {A} a.
Arguments Thrown {A} e.

(** ** Numbers *)

(** The Number of a mathematical integer (correctly rounded). *)
Definition Number_of_Z (z : Z) : float :=
  SF2Prim (binary_normalize prec emax z 0 false).

Definition Number_of_nat (n : nat) : float := Number_of_Z (Z.of_nat n).

(** [m * 2^e ?= s * 10^p], exactly. *)
Definition cmp_bin_dec (m e s p : Z) : comparison :=
  (m * 2 ^ Z.max e 0 * 10 ^ Z.max (- p) 0) ?= (s * 10 ^ Z.max p 0 * 2 ^ Z.max (- e) 0).

(** [floor (m * 2^e / 10^p)]. *)
Definition floor_bin_dec (m e p : Z) : Z :=
  (m * 2 ^ Z.max e 0 * 10 ^ Z.max (- p) 0) / (10 ^ Z.max p 0 * 2 ^ Z.max (- e) 0).

(** The [n] with [10^(n-1) <= m * 2^e < 10^n], searched from an estimate. *)
Fixpoint adjust_n (fuel : nat) (m e n : Z) : Z :=
  match fuel with
  | O => n
  | S fuel' =>
      match cmp_bin_dec m e 1 n with
      | Lt =>
          match cmp_bin_dec m e 1 (n - 1) with
          | Lt => adjust_n fuel' m e (n - 1)
          | _ => n
          end
      | _ => adjust_n fuel' m e (n + 1)
      end
  end.

Definition decimal_exponent (m e : Z) : Z :=
  adjust_n 8 m e ((Z.log2 m + e) * 30103 / 100000 + 1).

(** Does the decimal [s * 10^p] round (to nearest, ties to even) to the
    binary64 value [m * 2^e]?  The interval is bounded by the midpoints to
    the neighbouring values; its ends belong to it when [m] is even. *)
Definition rounds_to (m e s p : Z) : bool :=
  let upper := cmp_bin_dec (2 * m + 1) (e - 1) s p in
  let lower :=
    if (m =? 2 ^ 52) && (-1074 <? e)
    then cmp_bin_dec (4 * m - 1) (e - 2) s p
    else cmp_bin_dec (2 * m - 1) (e - 1) s p in
  let closed := Z.even m in
  match lower, upper with
  | Lt, Gt => true
  | Eq, Gt => closed
  | Lt, Eq => closed
  | _, _ => false
  end.

(** The shortest decimal [s * 10^(n-k)] that rounds to [m * 2^e]: the
    digits [s] (with [k] of them) and [n], as Number::toString wants them;
    among the decimals of that length, the one closest to the value. *)
Fixpoint shortest_decimal (fuel : nat) (m e n k : Z) : Z * Z * Z :=
  let p := n - k in
  let lo := floor_bin_dec m e p in
  let hi := lo + 1 in
  let pick (s : Z) := if s =? 10 ^ k then (1, 1, n + 1) else (s, k, n) in
  match fuel with
  | O => pick lo
  | S fuel' =>
      match rounds_to m e lo p, rounds_to m e hi p with
      | true, true =>
          match cmp_bin_dec (2 * m) e (2 * lo + 1) p with
          | Lt => pick lo
          | Gt => pick hi
          | Eq => if Z.even lo then pick lo else pick hi
          end
      | true, false => pick lo
      | false, true => pick hi
      | false, false => shortest_decimal fuel' m e n (k + 1)
      end
  end.

Definition digits_of_Z (z : Z) : string :=
  NilZero.string_of_uint (N.to_uint (Z.to_N z)).

Fixpoint zeros (n : nat) : string :=
  match n with
  | O => ""
  | S n' => String "0" (zeros n')
  end.

Definition string_take (n : nat) (s : string) : string := substring 0 n s.
Definition string_drop (n : nat) (s : string) : string :=
  substring n (String.length s - n) s.

(** Number::toString for a positive finite value [m * 2^e]. *)
Definition format_positive (m e : Z) : string :=
  let '(s, k, n) := shortest_decimal 17 m e (decimal_exponent m e) 1 in
  let ds := digits_of_Z s in
  if (k <=? n) && (n <=? 21) then
    ds +:+ zeros (Z.to_nat (n - k))
  else if (0 <? n) && (n <=? 21) then
    string_take (Z.to_nat n) ds +:+ "." +:+ string_drop (Z.to_nat n) ds
  else if (-6 <? n) && (n <=? 0) then
    "0." +:+ zeros (Z.to_nat (- n)) +:+ ds
  else
    let ex := (if n - 1 <? 0 then "-" else "+") +:+ digits_of_Z (Z.abs (n - 1)) in
    if k =? 1 then ds +:+ "e" +:+ ex
    else string_take 1 ds +:+ "." +:+ string_drop 1 ds +:+ "e" +:+ ex.

(** Number::toString (radix 10). *)
Definition Number_toString (x : float) : string :=
  match Prim2SF x with
  | S754_nan => "NaN"
  | S754_zero _ => "0"
  | S754_infinity sign => if sign then "-Infinity" else "Infinity"
  | S754_finite sign m e =>
      (if sign then "-" else "") +:+ format_positive (Zpos m) e
  end.

(** Number.prototype.toFixed(fractionDigits), for 0 <= fractionDigits. *)
Definition Number_toFixed (x : float) (fractionDigits : nat) : string :=
  match Prim2SF x with
  | S754_finite sign m e =>
      if cmp_bin_dec (Zpos m) e 1 21 is Lt then
        let f := Z.of_nat fractionDigits in
        (* the integer closest to x * 10^f, the larger one on a tie *)
        let n := (floor_bin_dec (2 * Zpos m) e (- f) + 1) / 2 in
        let ds := digits_of_Z n in
        let ds := zeros (S fractionDigits - String.length ds) +:+ ds in
        let int_len := (String.length ds - fractionDigits)%nat in
        (if sign then "-" else "") +:+ string_take int_len ds +:+
        (if fractionDigits is O then "" else "." +:+ string_drop int_len ds)
      else Number_toString x
  | S754_zero _ =>
      "0" +:+ (if fractionDigits is O then "" else "." +:+ zeros fractionDigits)
  | _ => Number_toString x
  end.

(** ** Conversions and operators on values *)

(** ToBoolean: the falsy values are undefined, null, false, +0, -0, NaN and
    the empty string. *)
Definition ToBoolean (v : JsValue) : bool :=
  match v with
  | JUndefined | JNull => false
  | JBool b => b
  | JNum x => negb (is_zero x || is_nan x)
  | JStr s => negb (String.eqb s "")
  | JArr _ | JObj _ | JErr _ _ => true
  end.

(** The [typeof] operator. *)
Definition typeof (v : JsValue) : string :=
  match v with
  | JUndefined => "undefined"
  | JBool _ => "boolean"
  | JNum _ => "number"
  | JStr _ => "string"
  | JNull | JArr _ | JObj _ | JErr _ _ => "object"
  end.

(** [a || b] on values. *)
Definition js_or (a b : JsValue) : JsValue := if ToBoolean a then a else b.

(** [a || b] where [a] is a Number or missing. *)
Definition num_or (a : option float) (b : float) : float :=
  match a with
  | Some x => if ToBoolean (JNum x) then x else b
  | None => b
  end.

Definition is_nullish (v : JsValue) : bool :=
  match v with
  | JUndefined | JNull => true
  | _ => false
  end.

(** ToString, as applied by [String(v)] and by template literals.  An array
    joins its elements with a comma, a plain object prints as
    [[object Object]], an error as its name and message. *)
Fixpoint ToString (v : JsValue) : string :=
  match v with
  | JUndefined => "undefined"
  | JNull => "null"
  | JBool b => if b then "true" else "false"
  | JNum x => Number_toString x
  | JStr s => s
  | JArr elems =>
      String.concat ","
        (map (λ el, if is_nullish el then "" else ToString el) elems)
  | JObj _ => "[object Object]"
  | JErr ctor message =>
      if String.eqb ctor "" then message
      else if String.eqb message "" then ctor
      else ctor +:+ ": " +:+ message
  end.

Definition double_quote : ascii := ascii_of_N 34.

(** [elems.join(sep)]: null and undefined elements print as nothing. *)
Definition Array_join (sep : string) (elems : list JsValue) : string :=
  String.concat sep (map (λ el, if is_nullish el then "" else ToString el) elems).

Definition hex_digit (n : N) : ascii :=
  ascii_of_N (if (n <? 10)%N then 48 + n else 87 + n).

(** The escape of one code unit inside a JSON string. *)
Definition quote_code_unit (c : ascii) : string :=
  let n := N_of_ascii c in
  if (n =? 8)%N then "\b"
  else if (n =? 9)%N then "\t"
  else if (n =? 10)%N then "\n"
  else if (n =? 12)%N then "\f"
  else if (n =? 13)%N then "\r"
  else if (n =? 34)%N then String "\" (String c "")
  else if (n =? 92)%N then "\\"
  else if (n <? 32)%N then
    "\u00" +:+ String (hex_digit (n / 16)) (String (hex_digit (n mod 16)) "")
  else String c "".

Fixpoint quote_code_units (s : string) : string :=
  match s with
  | EmptyString => ""
  | String c rest => quote_code_unit c +:+ quote_code_units rest
  end.

Definition QuoteJSONString (s : string) : string :=
  String double_quote (quote_code_units s) +:+ String double_quote "".

(** JSON.stringify(v), without replacer or indentation: [None] is the
    result [undefined].  A property whose value serializes to undefined is
    left out of an object and printed as null in an array; a Number that is
    not finite prints as null; an error has no enumerable property. *)
Fixpoint JSON_stringify (v : JsValue) : option string :=
  match v with
  | JUndefined => None
  | JNull => Some "null"
  | JBool b => Some (if b then "true" else "false")
  | JNum x => Some (if is_finite x then Number_toString x else "null")
  | JStr s => Some (QuoteJSONString s)
  | JArr elems =>
      Some ("[" +:+
            String.concat "," (map (fun el => default "null" (JSON_stringify el)) elems)
            +:+ "]")
  | JObj fields =>
      Some ("{" +:+
            String.concat ","
              (omap (fun kv => (fun s => QuoteJSONString kv.1 +:+ ":" +:+ s)
                                 <$> JSON_stringify kv.2) fields)
            +:+ "}")
  | JErr _ _ => Some "{}"
  end.

(** [s.substring(0, n)]: the first [n] code units of [s]. *)
Definition String_substring (s : string) (n : nat) : string := substring 0 n s.

Fixpoint assoc (key : string) (fields : list (string * JsValue)) : option JsValue :=
  match fields with
  | [] => None
  | (k, v) :: rest => if String.eqb k key then Some v else assoc key rest
  end.

(** Reading a named data property [v.key] of a value that is neither null
    nor undefined: an own property of an object, [message] and [name] of an
    error, undefined otherwise (the built-in properties of strings, arrays
    and prototypes are not among the names the code reads). *)
Definition property (v : JsValue) (key : string) : JsValue :=
  match v with
  | JObj fields => default JUndefined (assoc key fields)
  | JErr ctor message =>
      if String.eqb key "message" then JStr message
      else if String.eqb key "name" then JStr ctor
      else JUndefined
  | _ => JUndefined
  end.

Definition TypeError (message : string) : JsValue := JErr "TypeError" message.

(** [v.key]: throws a TypeError when [v] is null or undefined. *)
Definition get_prop (v : JsValue) (key : string) : Outcome JsValue :=
  if is_nullish v
  then Thrown (TypeError ("Cannot read properties of " +:+ ToString v +:+
                          " (reading '" +:+ key +:+ "')"))
  else Returned (property v key).

(** [error.constructor.name] of a value. *)
Definition constructor_name (v : JsValue) : Outcome JsValue :=
  match v with
  | JUndefined | JNull => get_prop v "constructor"
  | JBool _ => Returned (JStr "Boolean")
  | JNum _ => Returned (JStr "Number")
  | JStr _ => Returned (JStr "String")
  | JArr _ => Returned (JStr "Array")
  | JObj fields =>
      match assoc "constructor" fields with
      | Some c => get_prop c "name"
      | None => Returned (JStr "Object")
      end
  | JErr ctor _ => Returned (JStr ctor)
  end.

(** [args[i]]. *)
Definition arg (args : list JsValue) (i : nat) : JsValue := nth i args JUndefined.

(* ===================================================================== *)
(** * 2. Spans, the active context and the effects of a call             *)
(* ===================================================================== *)

(** The tracing API ([@opentelemetry/api] and its SDK) is a dependency of
    the repository; the part of it the wrappers call is modelled here after
    the data model and the span life cycle of the specification. *)

Inductive SpanStatusCode : Type := UNSET | OK | ERROR.

(** The causality token of a span. *)
Record SpanContext : Type := mkSpanContext {
  trace_id : N;
  span_id : N
}.

(** Modelled from the spec: the Span of the data model (the SDK's span
    object is not part of the repository): ids, parent, name, timestamps,
    attributes, status with its message, the recorded exceptions.
    [end_calls] counts the calls of [end()]; the span is closed once it is
    positive. *)
Record Span : Type := mkSpan {
  span_context : SpanContext;
  parent_span_id : option N;
  span_name : string;
  start_time : float;
  end_time : option float;
  attributes : gmap string JsValue;
  status : SpanStatusCode;
  status_message : JsValue;
  exceptions : list JsValue;
  end_calls : nat
}.

Definition is_ended (s : Span) : bool := negb (Nat.eqb (end_calls s) 0).

(** A call of a console method, as the console received it. *)
Record ConsoleCall : Type := mkConsoleCall {
  console_method : string;
  console_args : list JsValue
}.

(** What a call can read and change: the spans created so far (by span
    id), the id generator, the span of the active context, the clock behind
    [Date.now()], and the output of the console. *)
Record World : Type := mkWorld {
  spans : gmap N Span;
  next_id : N;
  active : option SpanContext;
  clock : float;
  console_out : list ConsoleCall
}.

Definition set_spans (f : gmap N Span → gmap N Span) (w : World) : World :=
  mkWorld (f (spans w)) (next_id w) (active w) (clock w) (console_out w).
Definition set_next_id (n : N) (w : World) : World :=
  mkWorld (spans w) n (active w) (clock w) (console_out w).
Definition set_active (a : option SpanContext) (w : World) : World :=
  mkWorld (spans w) (next_id w) a (clock w) (console_out w).
Definition set_console_out (c : list ConsoleCall) (w : World) : World :=
  mkWorld (spans w) (next_id w) (active w) (clock w) c.

(** ** The monad of calls: state and exceptions *)

Definition M (A : Type) : Type := World → Outcome A * World.

#[global] Instance M_ret : MRet M := λ A a w, (Returned a, w).

#[global] Instance M_bind : MBind M := λ A B k m w,
  match m w with
  | (Returned a, w') => k a w'
  | (Thrown e, w') => (Thrown e, w')
  end.

#[global] Instance M_fmap : FMap M := λ A B f m, a ← m; mret (f a).

(** [throw e]. *)
Definition throw {A : Type} (e : JsValue) : M A := λ w, (Thrown e, w).

(** A pure step that may throw. *)
Definition lift {A : Type} (o : Outcome A) : M A := λ w, (o, w).

(** [try { body } catch (error) { handler error }]. *)
Definition try_catch {A : Type} (body : M A) (handler : JsValue → M A) : M A :=
  λ w,
    match body w with
    | (Returned a, w') => (Returned a, w')
    | (Thrown e, w') => handler e w'
    end.

(** [try { body } finally { final }]: [final] runs on both exits; the
    completion of [body] stands unless [final] throws. *)
Definition try_finally {A : Type} (body : M A) (final : M unit) : M A :=
  λ w,
    match body w with
    | (o, w') =>
        match final w' with
        | (Returned _, w'') => (o, w'')
        | (Thrown e, w'') => (Thrown e, w'')
        end
    end.

(** [if (c) { body }]. *)
Definition when (c : bool) (body : M unit) : M unit :=
  if c then body else mret ().

(** ** The clock and the console *)

Definition Date_now : M float := λ w, (Returned (clock w), w).

(** The console's own method: the call reaches the console output. *)
Definition console_call (method : string) (args : list JsValue) : M unit :=
  λ w, (Returned (), set_console_out (console_out w ++ [mkConsoleCall method args]) w).

Definition console_log := console_call "log".
Definition console_error := console_call "error".

(** ** Context *)

(** Modelled from the spec: [context.active()] of the tracing API (not part
    of the repository): the span of the currently active context, if any. *)
Definition context_active : M (option SpanContext) := λ w, (Returned (active w), w).

(** Modelled from the spec: [trace.setSpan(context, span)] of the tracing
    API: the context with [span] as its span. *)
Definition trace_setSpan (ctx : option SpanContext) (span : SpanContext)
  : option SpanContext := Some span.

(** Modelled from the spec: [context.with(context, fn)] of the tracing API
    (with_active): [fn] runs with [context] active, across its suspension
    points; on return, normal or exceptional, the previous context is
    active again. *)
Definition context_with {A : Type} (ctx : option SpanContext) (fn : M A) : M A :=
  λ w,
    match fn (set_active ctx w) with
    | (o, w') => (o, set_active (active w) w')
    end.

(** Modelled from the spec: [trace.getActiveSpan()] of the tracing API. *)
Definition trace_getActiveSpan : M (option SpanContext) := context_active.

(** ** Spans *)

(** [{ k1: v1, ... }] written into a map, later keys winning. *)
Definition set_all (kvs : list (string * JsValue)) (m : gmap string JsValue)
  : gmap string JsValue :=
  foldl (λ acc kv, <[kv.1 := kv.2]> acc) m kvs.

(** The context of the next span: the trace of the active span, or a fresh
    trace when no span is active. *)
Definition fresh_context (w : World) : SpanContext :=
  match active w with
  | Some parent => mkSpanContext (trace_id parent) (next_id w)
  | None => mkSpanContext (next_id w) (next_id w)
  end.

Definition new_span (name : string) (attrs : list (string * JsValue)) (w : World)
  : Span :=
  mkSpan (fresh_context w) (span_id <$> active w) name (clock w) None
         (set_all attrs ∅) UNSET JUndefined [] 0.

(** Modelled from the spec: [tracer.startSpan(name, { attributes })] of the
    tracing SDK (start_span): reads the active context, allocates a new
    span id, takes the trace id and the parent span id from the active span
    (a fresh trace and no parent when none is active); the new span is open
    and does not become active. *)
Definition tracer_startSpan (name : string) (attrs : list (string * JsValue))
  : M SpanContext :=
  λ w,
    (Returned (fresh_context w),
     set_next_id (next_id w + 1)%N
       (set_spans (insert (next_id w) (new_span name attrs w)) w)).

(** Modelled from the spec: a change of a span through its handle (the
    span object of the tracing SDK); a closed span is immutable. *)
Definition update_span (span : SpanContext) (f : Span → Span) : M unit :=
  λ w,
    (Returned (),
     set_spans (alter (λ s, if is_ended s then s else f s) (span_id span)) w).

Definition with_attributes (f : gmap string JsValue → gmap string JsValue)
    (s : Span) : Span :=
  mkSpan (span_context s) (parent_span_id s) (span_name s) (start_time s)
         (end_time s) (f (attributes s)) (status s) (status_message s)
         (exceptions s) (end_calls s).

Definition with_status (code : SpanStatusCode) (message : JsValue) (s : Span) : Span :=
  mkSpan (span_context s) (parent_span_id s) (span_name s) (start_time s)
         (end_time s) (attributes s) code message (exceptions s) (end_calls s).

Definition with_exception (e : JsValue) (s : Span) : Span :=
  mkSpan (span_context s) (parent_span_id s) (span_name s) (start_time s)
         (end_time s) (attributes s) (status s) (status_message s)
         (exceptions s ++ [e]) (end_calls s).

(** Modelled from the spec: [span.end()]: the first call records the end
    time and closes the span, later calls change nothing but the count. *)
Definition with_end (now : float) (s : Span) : Span :=
  mkSpan (span_context s) (parent_span_id s) (span_name s) (start_time s)
         (if is_ended s then end_time s else Some now)
         (attributes s) (status s) (status_message s) (exceptions s)
         (S (end_calls s)).

(** Modelled from the spec: the values an attribute can hold are strings,
    numbers and booleans. *)
Definition is_attribute_value (v : JsValue) : bool :=
  match v with
  | JBool _ | JNum _ | JStr _ => true
  | _ => false
  end.

(** Modelled from the spec: the methods of a span of the tracing SDK.  The
    store keeps the value it is given; what the SDK does with a value that
    is not an attribute value (an object, undefined) is not modelled, so
    what is said below of a stored value is said of attribute values. *)
Definition span_setAttribute (span : SpanContext) (key : string) (v : JsValue) : M unit :=
  update_span span (with_attributes (insert key v)).

Definition span_setAttributes (span : SpanContext) (kvs : list (string * JsValue)) : M unit :=
  update_span span (with_attributes (set_all kvs)).

Definition span_setStatus (span : SpanContext) (code : SpanStatusCode)
    (message : JsValue) : M unit :=
  update_span span (with_status code message).

Definition span_recordException (span : SpanContext) (e : JsValue) : M unit :=
  update_span span (with_exception e).

Definition span_end (span : SpanContext) : M unit :=
  λ w, (Returned (), set_spans (alter (with_end (clock w)) (span_id span)) w).

(* ===================================================================== *)
(** * 3. backend/otel.js                                                 *)
(* ===================================================================== *)

(** ** calculateLLMCost *)

(** The Number a decimal literal denotes: the double closest to it, which
    the correctly rounded quotient of its (exactly representable) numerator
    and denominator is. *)
Definition Number_of_literal (q : Q) : float :=
  (Number_of_Z (Qnum q) / Number_of_Z (Zpos (Qden q)))%float.

Record ModelPricing : Type := mkPricing {
  prompt : Q;
  completion : Q
}.

(** The static price table, per 1M tokens: the own properties of the
    object literal and of its three inner object literals. *)
Definition pricing : gmap string (gmap string ModelPricing) :=
  {[ "openai" :=
       {[ "gpt-4" := mkPricing 30 60;
          "gpt-4-turbo" := mkPricing 10 30;
          "gpt-3.5-turbo" := mkPricing 0.5 1.5 ]};
     "anthropic" :=
       {[ "claude-3-opus" := mkPricing 15 75;
          "claude-3-sonnet" := mkPricing 3 15;
          "claude-3-haiku" := mkPricing 0.25 1.25 ]};
     "google" :=
       {[ "gemini-pro" := mkPricing 0.5 1.5 ]} ]}.

Definition default_pricing : ModelPricing := mkPricing 1 2.

(** An object literal inherits from [Object.prototype], and [o[key]] also
    finds what it inherits.  The string-keyed properties of
    [Object.prototype] (ECMAScript 2023, Annex B included) are the accessor
    [__proto__] and these functions, listed with their [length]. *)
Definition Object_prototype_functions : list (string * nat) :=
  [("constructor", 1%nat); ("__defineGetter__", 2%nat); ("__defineSetter__", 2%nat);
   ("hasOwnProperty", 1%nat); ("__lookupGetter__", 1%nat); ("__lookupSetter__", 1%nat);
   ("isPrototypeOf", 1%nat); ("propertyIsEnumerable", 1%nat); ("toString", 0%nat);
   ("valueOf", 0%nat); ("toLocaleString", 0%nat)].

(** These functions have the own properties [length] and [name], and
    inherit from [Function.prototype]: its function-valued properties, and
    the accessors [arguments] and [caller], whose getter throws a
    TypeError. *)
Definition Function_prototype_functions : list string :=
  ["apply"; "bind"; "call"; "constructor"; "toString"].

Definition restricted_function_properties : list string := ["arguments"; "caller"].

(** [Object.prototype.constructor] is [Object], with these own properties
    besides [length] and [name]. *)
Definition Object_constructor_properties : list string :=
  ["prototype"; "assign"; "create"; "defineProperties"; "defineProperty"; "entries";
   "freeze"; "fromEntries"; "getOwnPropertyDescriptor"; "getOwnPropertyDescriptors";
   "getOwnPropertyNames"; "getOwnPropertySymbols"; "getPrototypeOf"; "hasOwn"; "is";
   "isExtensible"; "isFrozen"; "isSealed"; "keys"; "preventExtensions"; "seal";
   "setPrototypeOf"; "values"].

Definition member (key : string) (keys : list string) : bool :=
  existsb (String.eqb key) keys.

(** The [length] of the function of [Object.prototype] that [key] names. *)
Definition Object_prototype_function (key : string) : option nat :=
  snd <$> List.find (λ kv, String.eqb kv.1 key) Object_prototype_functions.

(** [key] names a function of [Object.prototype]. *)
Definition inherited_from_Object (key : string) : bool :=
  bool_decide (is_Some (Object_prototype_function key)).

(** What [pricing[provider]] is. *)
Inductive ProviderValue : Type :=
| ProviderTable (models : gmap string ModelPricing)
| InheritedFunction (arity : nat) (own : list string)
| InheritedPrototype
| NoProvider.

Definition lookup_provider (provider : string) : ProviderValue :=
  match pricing !! provider with
  | Some models => ProviderTable models
  | None =>
      if String.eqb provider "__proto__" then InheritedPrototype
      else
        match Object_prototype_function provider with
        | Some arity =>
            InheritedFunction arity
              (if String.eqb provider "constructor"
               then Object_constructor_properties else [])
        | None => NoProvider
        end
  end.

(** What [modelPricing] is: an entry of the table or the default pair; or
    a truthy value that is not a price (a function, an object of the
    language, a name, a [length] other than 0), whose [prompt] and
    [completion] are undefined; or nothing, when the lookup throws. *)
Inductive PricingValue : Type :=
| PriceObject (mp : ModelPricing)
| NotAPrice
| Restricted.

Coercion PriceObject : ModelPricing >-> PricingValue.

(** [pricing[provider]?.[model] || { prompt: 1, completion: 2 }]. *)
Definition lookup_pricing (provider model : string) : PricingValue :=
  match lookup_provider provider with
  | ProviderTable models =>
      match models !! model with
      | Some mp => PriceObject mp
      | None =>
          if String.eqb model "__proto__" || inherited_from_Object model
          then NotAPrice
          else default_pricing
      end
  | InheritedFunction arity own =>
      if String.eqb model "length"
      then (if Nat.eqb arity 0 then PriceObject default_pricing else NotAPrice)
      else if String.eqb model "name" || member model own then NotAPrice
      else if member model restricted_function_properties then Restricted
      else if member model Function_prototype_functions
              || String.eqb model "__proto__" || inherited_from_Object model
      then NotAPrice
      else default_pricing
  | InheritedPrototype =>
      (* the [__proto__] of [Object.prototype] is null *)
      if inherited_from_Object model then NotAPrice else default_pricing
  | NoProvider => default_pricing
  end.

(** [modelPricing.prompt] and [modelPricing.completion], as Numbers:
    undefined converts to NaN. *)
Definition price (modelPricing : PricingValue) (field : ModelPricing → Q) : float :=
  match modelPricing with
  | PriceObject mp => Number_of_literal (field mp)
  | _ => nan
  end.

Definition calculateLLMCost (provider model : string)
    (promptTokens completionTokens : float) : Outcome float :=
  match lookup_pricing provider model with
  | Restricted =>
      Thrown (TypeError "'caller', 'callee', and 'arguments' properties may not be accessed on strict mode functions or the arguments objects for calls to them")
  | modelPricing =>
      let promptCost := (promptTokens / 1000000 * price modelPricing prompt)%float in
      let completionCost :=
        (completionTokens / 1000000 * price modelPricing completion)%float in
      Returned (promptCost + completionCost)%float
  end.

(** ** Arguments and results of the wrappers *)

(** The [metadata] object of a wrapper call; a missing field is undefined. *)
Record Metadata : Type := mkMetadata {
  conversationId : JsValue;
  userId : JsValue;
  mcpServerName : JsValue;
  endpoint : JsValue
}.

(** [metadata = {}]. *)
Definition no_metadata : Metadata :=
  mkMetadata JUndefined JUndefined JUndefined JUndefined.

(** [...(v && { key: v })] inside an object literal. *)
Definition spread_if (v : JsValue) (key : string) : list (string * JsValue) :=
  if ToBoolean v then [(key, v)] else [].

(** The request of a model call, as far as the wrapper reads it. *)
Record LLMRequest : Type := mkRequest {
  messages : option (list JsValue);
  temperature : JsValue;
  max_tokens : JsValue;
  stream : JsValue
}.

(** The token counts of a response; a count is a Number or missing. *)
Record Usage : Type := mkUsage {
  prompt_tokens : option float;
  completion_tokens : option float;
  total_tokens : option float
}.

(** The response of a model call, as far as the wrapper reads it. *)
Record LLMResponse : Type := mkResponse {
  usage : option Usage;
  choices : option (list JsValue)
}.

(** [JSON.stringify(v)] as a value. *)
Definition JSON_stringify_value (v : JsValue) : JsValue :=
  match JSON_stringify v with
  | Some s => JStr s
  | None => JUndefined
  end.

(** [v.substring(0, n)] where [v] is a string or undefined. *)
Definition substring_method (v : JsValue) (n : nat) : Outcome JsValue :=
  match v with
  | JStr s => Returned (JStr (String_substring s n))
  | _ => Thrown (TypeError ("Cannot read properties of " +:+ ToString v +:+
                            " (reading 'substring')"))
  end.

(** [result.choices?.[0]?.finish_reason]. *)
Definition first_finish_reason (result : LLMResponse) : JsValue :=
  match choices result with
  | Some cs =>
      let c := arg cs 0 in
      if is_nullish c then JUndefined else property c "finish_reason"
  | None => JUndefined
  end.

(** The [attributes] literal of the span [traceMCPToolCall] starts. *)
Definition mcp_attributes (toolName toolInput : JsValue) (metadata : Metadata)
  : list (string * JsValue) :=
  [("mcp.tool.name", toolName);
   ("mcp.tool.input", JSON_stringify_value toolInput);
   ("span.kind", JStr "internal");
   ("component", JStr "mcp-client")]
  (* Add conversation context *)
  ++ spread_if (conversationId metadata) "conversation.id"
  ++ spread_if (userId metadata) "user.id"
  ++ spread_if (mcpServerName metadata) "mcp.server.name".

(** The [attributes] literal of the span [traceLLMCall] starts. *)
Definition llm_attributes (provider model : string) (request : LLMRequest)
    (metadata : Metadata) : list (string * JsValue) :=
  [("llm.provider", JStr provider);
   ("llm.model", JStr model);
   ("llm.request.messages_count",
    JNum (num_or (Number_of_nat ∘ length <$> messages request) 0));
   ("llm.request.temperature", temperature request);
   ("llm.request.max_tokens", max_tokens request);
   ("llm.request.stream", js_or (stream request) (JBool false));
   ("span.kind", JStr "client");
   ("component", JStr "llm-client")]
  (* Add conversation context *)
  ++ spread_if (conversationId metadata) "conversation.id"
  ++ spread_if (userId metadata) "user.id"
  ++ spread_if (endpoint metadata) "llm.endpoint".

Section Backend.

(** [process.env]. *)
Variable env : gmap string string.

(** [process.env.KEY || fallback]. *)
Definition env_or (key fallback : string) : string :=
  match env !! key with
  | Some v => if String.eqb v "" then fallback else v
  | None => fallback
  end.

Definition ENABLE_OTEL : bool := bool_decide (env !! "ENABLE_OTEL" = Some "true").
Definition DEBUG_LOGGING : bool := bool_decide (env !! "DEBUG_LOGGING" = Some "true").

Definition OPIK_URL : string := env_or "OPIK_URL" "http://localhost:8080".
Definition OPIK_PROJECT_NAME : string := env_or "OPIK_PROJECT_NAME" "librechat".
Definition OPIK_WORKSPACE_NAME : string := env_or "OPIK_WORKSPACE_NAME" "default".
Definition OTEL_SERVICE_NAME : string := env_or "OTEL_SERVICE_NAME" "librechat-backend".

(** The options of the batch span processor. *)
Definition maxQueueSize : nat := 2048.
Definition maxExportBatchSize : nat := 512.

Definition getActiveSpan : M (option SpanContext) := trace_getActiveSpan.

(** [startSpan(name, attributes = {}, options = {})]: an [attributes] entry
    of [options] replaces the argument. *)
Definition startSpan (name : string) (attrs : list (string * JsValue))
    (options_attributes : option (list (string * JsValue))) : M SpanContext :=
  tracer_startSpan name (default attrs options_attributes).

Definition traceMCPToolCall (toolName toolInput : JsValue)
    (executeFn : M JsValue) (metadata : Metadata) : M JsValue :=
  span ← tracer_startSpan ("MCP Tool: " +:+ ToString toolName)
            (mcp_attributes toolName toolInput metadata);
  startTime ← Date_now;
  try_finally
    (try_catch
       (when DEBUG_LOGGING
          (console_log [JStr ("[OTEL] Starting MCP tool call: " +:+ ToString toolName)]);;
        (* Execute the tool within the span context *)
        ctx ← context_active;
        result ← context_with (trace_setSpan ctx span) executeFn;
        now ← Date_now;
        let executionTime := (now - startTime)%float in
        (* Update span with successful result *)
        output ← lift (substring_method (JSON_stringify_value result) 1000);
        span_setAttributes span
          [("mcp.tool.success", JBool true);
           ("mcp.tool.execution_time_ms", JNum executionTime);
           ("mcp.tool.output", output)];;
        (* Add result metadata if available *)
        when (ToBoolean result && String.eqb (typeof result) "object")
          (when (negb (String.eqb (typeof (property result "count")) "undefined"))
             (span_setAttribute span "mcp.tool.results_count" (property result "count"));;
           when (ToBoolean (property result "error"))
             (span_setAttribute span "mcp.tool.error" (property result "error")));;
        span_setStatus span OK JUndefined;;
        when DEBUG_LOGGING
          (console_log [JStr ("[OTEL] MCP tool call completed: " +:+ ToString toolName +:+
                              " (" +:+ Number_toString executionTime +:+ "ms)")]);;
        mret result)
       (λ error,
          now ← Date_now;
          let executionTime := (now - startTime)%float in
          (* Record error in span *)
          message ← lift (get_prop error "message");
          span_setAttributes span
            [("mcp.tool.success", JBool false);
             ("mcp.tool.execution_time_ms", JNum executionTime);
             ("mcp.tool.error", message);
             ("error", JBool true)];;
          message ← lift (get_prop error "message");
          span_setStatus span ERROR message;;
          span_recordException span error;;
          console_error [JStr ("[OTEL] MCP tool call failed: " +:+ ToString toolName); error];;
          throw error))
    (span_end span).

Definition traceLLMCall (provider model : string) (request : LLMRequest)
    (executeFn : M LLMResponse) (metadata : Metadata) : M LLMResponse :=
  span ← tracer_startSpan ("LLM Call: " +:+ provider +:+ "/" +:+ model)
            (llm_attributes provider model request metadata);
  startTime ← Date_now;
  try_finally
    (try_catch
       (when DEBUG_LOGGING
          (console_log [JStr ("[OTEL] Starting LLM call: " +:+ provider +:+ "/" +:+ model)]);;
        (* Execute the LLM call within the span context *)
        ctx ← context_active;
        result ← context_with (trace_setSpan ctx span) executeFn;
        now ← Date_now;
        let executionTime := (now - startTime)%float in
        (* Extract token usage from result *)
        let usage := default (mkUsage None None None) (usage result) in
        let promptTokens := num_or (prompt_tokens usage) 0 in
        let completionTokens := num_or (completion_tokens usage) 0 in
        let totalTokens := num_or (total_tokens usage) (promptTokens + completionTokens) in
        (* Calculate cost *)
        estimatedCost ← lift (calculateLLMCost provider model promptTokens
                                completionTokens);
        (* Update span with result metadata *)
        span_setAttributes span
          [("llm.response.prompt_tokens", JNum promptTokens);
           ("llm.response.completion_tokens", JNum completionTokens);
           ("llm.response.total_tokens", JNum totalTokens);
           ("llm.response.finish_reason", js_or (first_finish_reason result) (JStr "unknown"));
           ("llm.response.latency_ms", JNum executionTime);
           ("llm.response.estimated_cost", JNum estimatedCost)];;
        span_setStatus span OK JUndefined;;
        when DEBUG_LOGGING
          (console_log [JStr ("[OTEL] LLM call completed: " +:+ provider +:+ "/" +:+ model +:+
                              " (" +:+ Number_toString executionTime +:+ "ms, " +:+
                              Number_toString totalTokens +:+ " tokens, $" +:+
                              Number_toFixed estimatedCost 4 +:+ ")")]);;
        mret result)
       (λ error,
          now ← Date_now;
          let executionTime := (now - startTime)%float in
          (* Record error in span *)
          message ← lift (get_prop error "message");
          type ← lift (constructor_name error);
          span_setAttributes span
            [("llm.response.latency_ms", JNum executionTime);
             ("error", JBool true);
             ("error.message", message);
             ("error.type", type)];;
          message ← lift (get_prop error "message");
          span_setStatus span ERROR message;;
          span_recordException span error;;
          console_error [JStr ("[OTEL] LLM call failed: " +:+ provider +:+ "/" +:+ model); error];;
          throw error))
    (span_end span).

(** ** module.exports *)

(** What [startSpan] hands back: a span of the tracer, or the stub
    [{ end: () => {} }] of the disabled module. *)
Inductive SpanHandle : Type :=
| TracerSpan (span : SpanContext)
| StubSpan.

(** The exported tracing utilities.  A wrapper returns what the call
    returned; the stubs return undefined ([JUndefined], [None]). *)
Record Exports : Type := mkExports {
  exported_traceMCPToolCall : JsValue → JsValue → M JsValue → Metadata → M JsValue;
  exported_traceLLMCall :
    string → string → LLMRequest → M LLMResponse → Metadata → M (option LLMResponse);
  exported_getActiveSpan : M (option SpanContext);
  exported_startSpan :
    string → list (string * JsValue) → option (list (string * JsValue)) → M SpanHandle
}.

(** The exports when [ENABLE_OTEL] is not ['true']:
    [traceMCPToolCall: () => {}], [traceLLMCall: () => {}],
    [getActiveSpan: () => null], [startSpan: () => ({ end: () => {} })]. *)
Definition disabled_exports : Exports := {|
  exported_traceMCPToolCall := λ _ _ _ _, mret JUndefined;
  exported_traceLLMCall := λ _ _ _ _ _, mret None;
  exported_getActiveSpan := mret None;
  exported_startSpan := λ _ _ _, mret StubSpan
|}.

Definition enabled_exports : Exports := {|
  exported_traceMCPToolCall := traceMCPToolCall;
  exported_traceLLMCall := λ provider model request executeFn metadata,
    Some <$> traceLLMCall provider model request executeFn metadata;
  exported_getActiveSpan := getActiveSpan;
  exported_startSpan := λ name attrs options,
    TracerSpan <$> startSpan name attrs options
|}.

(** Loading the module: the early return with the stubs when tracing is
    disabled, the helpers otherwise (the construction and the asynchronous
    start of the SDK are outside the model). *)
Definition otel_module : M Exports :=
  if negb ENABLE_OTEL then
    console_log [JStr "[OTEL] OpenTelemetry disabled (ENABLE_OTEL=false)"];;
    mret disabled_exports
  else
    console_log [JStr ("[OTEL] Initializing OpenTelemetry for " +:+ OTEL_SERVICE_NAME)];;
    console_log [JStr ("[OTEL] Opik URL: " +:+ OPIK_URL)];;
    console_log [JStr ("[OTEL] Opik Project: " +:+ OPIK_PROJECT_NAME)];;
    console_log [JStr ("[OTEL] Opik Workspace: " +:+ OPIK_WORKSPACE_NAME)];;
    console_log [JStr "[OTEL] Tracing utilities exported"];;
    mret enabled_exports.

End Backend.

(* ===================================================================== *)
(** * 4. mcp-tracing: the MCP client proxy                               *)
(* ===================================================================== *)

(** What a call returns: a value, or a promise, given by the completion
    it settles with.  A call that throws is a [Thrown] outcome of the
    call itself. *)
Inductive Result : Type :=
| Immediate (v : JsValue)
| Promise (settlement : Outcome JsValue).

(** A property key: a string or a symbol. *)
Inductive PropertyKey : Type :=
| StringKey (name : string)
| SymbolKey (description : string).

Coercion StringKey : string >-> PropertyKey.

(** A property of the client object: a function (called with the client
    as [this] and a list of arguments) or any other value. *)
Inductive Property : Type :=
| Method (f : list JsValue → M Result)
| Value (v : JsValue).

(** A client object: [target[prop]]. *)
Definition Client : Type := PropertyKey → Property.

(** [await r]. *)
Definition await (r : Result) : M JsValue :=
  match r with
  | Immediate v => mret v
  | Promise settlement => lift settlement
  end.

(** [await call()], also the completion of [async () => call()]. *)
Definition awaited (call : M Result) : M JsValue := r ← call; await r.

(** The call of [async function (...) { body }]: the body runs, and the
    call returns a promise, also when the body returns a value that is not
    a promise or throws; the promise of a returned promise settles as that
    promise does. *)
Definition async_function (body : M Result) : M Result :=
  λ w,
    match body w with
    | (Returned (Immediate v), w') => (Returned (Promise (Returned v)), w')
    | (Returned (Promise settlement), w') => (Returned (Promise settlement), w')
    | (Thrown e, w') => (Returned (Promise (Thrown e)), w')
    end.

(** The options of [instrumentMCPClient]. *)
Record InstrumentOptions : Type := mkOptions {
  serverName : string;
  getConversationId : M JsValue;
  getUserId : M JsValue
}.

(** [options = {}]: the defaults of the destructuring. *)
Definition default_options : InstrumentOptions :=
  mkOptions "MCP Server" (mret JNull) (mret JNull).

Section McpTracing.

(** The [traceMCPToolCall] this module imports from [./otel]. *)
Variable otel_traceMCPToolCall : JsValue → JsValue → M JsValue → Metadata → M JsValue.

(** [prop === 'callTool' || prop === 'call_tool' || prop.startsWith('tool_')]
    for a string [prop]. *)
Definition isToolCall (prop : string) : bool :=
  String.eqb prop "callTool" || String.eqb prop "call_tool" || String.prefix "tool_" prop.

(** The [get] trap of the proxy. *)
Definition proxy_get (options : InstrumentOptions) (target : Client) (prop : PropertyKey)
  : Property :=
  let originalMethod := target prop in
  match originalMethod with
  | Method f =>
      (* Only intercept async methods (likely tool calls) *)
      Method (λ args,
        async_function
          match prop with
          | SymbolKey _ =>
              (* a symbol has no [startsWith] *)
              throw (TypeError "prop.startsWith is not a function")
          | StringKey name =>
              if negb (isToolCall name) then
                (* Not a tool call, execute normally *)
                f args
              else
                (* Extract tool name and input *)
                let '(toolName, toolInput) :=
                  if String.eqb name "callTool" || String.eqb name "call_tool"
                  then (arg args 0, js_or (arg args 1) (JObj []))
                  else (JStr name, js_or (arg args 0) (JObj [])) in
                (* Get context metadata *)
                conversation ← getConversationId options;
                user ← getUserId options;
                let metadata :=
                  mkMetadata conversation user (JStr (serverName options)) JUndefined in
                (* Trace the tool call *)
                result ← otel_traceMCPToolCall toolName toolInput (awaited (f args))
                           metadata;
                mret (Immediate result)
          end)
  | Value _ => originalMethod
  end.

(** [instrumentMCPClient(mcpClient, options)]: the proxy, after the log
    line. *)
Definition instrumentMCPClient (mcpClient : Client) (options : InstrumentOptions)
  : M Client :=
  console_log [JStr ("[MCP-OTEL] Instrumenting MCP client for server: " +:+
                     serverName options)];;
  mret (proxy_get options mcpClient).

(** [traceMCPTool(serverName, toolName, toolInput, executeFn, context)]. *)
Definition traceMCPTool (serverName : JsValue) (toolName toolInput : JsValue)
    (executeFn : M JsValue) (context : Metadata) : M JsValue :=
  let metadata :=
    mkMetadata (conversationId context) (userId context) serverName JUndefined in
  otel_traceMCPToolCall toolName toolInput executeFn metadata.

End McpTracing.

(* ===================================================================== *)
(** * 5. The browser: instrumentConsole                                  *)
(* ===================================================================== *)

(** The console object: its method of a given name, called on a list of
    arguments. *)
Definition Console : Type := string → list JsValue → M unit.

Section Frontend.

(** [window.location.href]. *)
Variable location_href : string.

(** The message of a log span: every argument as text, joined by a space. *)
Definition console_message (args : list JsValue) : string :=
  Array_join " "
    (map (λ a, if String.eqb (typeof a) "object"
               then JSON_stringify_value a
               else JStr (ToString a)) args).

(** The function [instrumentConsole] installs as [console[method]]. *)
Definition instrumented_method (originalConsole : Console) (method : string)
  : list JsValue → M unit :=
  λ args,
    (* Call original console method *)
    originalConsole method args;;
    (* Create span for log event (only for warn and error to reduce noise) *)
    when (String.eqb method "warn" || String.eqb method "error")
      (let message := console_message args in
       span ← tracer_startSpan ("console." +:+ method)
                [("log.level", JStr method);
                 ("log.message", JStr (String_substring message 500));
                 ("browser.url", JStr location_href)];
       span_end span).

Definition intercepted_methods : list string := ["log"; "info"; "warn"; "error"; "debug"].

(** [instrumentConsole(tracer)]: the console after the five assignments
    (the other methods stay), then the log line through the new
    [console.log]. *)
Definition instrumentConsole (console : Console) : M Console :=
  let originalConsole := console in
  let console' : Console := λ method,
    if bool_decide (method ∈ intercepted_methods)
    then instrumented_method originalConsole method
    else console method in
  console' "log" [JStr "[OTEL] Console instrumentation enabled"];;
  mret console'.

End Frontend.

(* ===================================================================== *)
(** * 6. The span buffer of the batch exporter                           *)
(* ===================================================================== *)

Section Exporter.

Context {SpanT : Type}.

(** [max_queue_size]. *)
Variable max_queue_size : nat.

(** Modelled from the spec: the [enqueue] of the exporter's bounded
    buffer (the batch span processor is a dependency, the code only sets
    its options): when the queue is full, the oldest entry is dropped to
    admit the new one. *)
Definition enqueue (buffer : list SpanT) (span : SpanT) : list SpanT :=
  if (max_queue_size <=? length buffer)%nat
  then tail buffer ++ [span]
  else buffer ++ [span].

(** Enqueuing a sequence of spans, in order. *)
Definition enqueue_all (buffer : list SpanT) (new : list SpanT) : list SpanT :=
  foldl enqueue buffer new.

End Exporter.

(* ===================================================================== *)
(** * 7. The state in which a wrapper runs [executeFn]                   *)
(* ===================================================================== *)

(** The span a wrapper starts when it is called in [w] has the context
    [fresh_context w].  By the time it calls [executeFn] the span is started,
    the debug line is logged, and the span is the active one. *)
Definition mcp_entry (env : gmap string string) (toolName toolInput : JsValue)
    (metadata : Metadata) (w : World) : World :=
  let started :=
    (tracer_startSpan ("MCP Tool: " +:+ ToString toolName)
       (mcp_attributes toolName toolInput metadata) w).2 in
  let logged :=
    (when (DEBUG_LOGGING env)
       (console_log [JStr ("[OTEL] Starting MCP tool call: " +:+ ToString toolName)])
       started).2 in
  set_active (Some (fresh_context w)) logged.

Definition llm_entry (env : gmap string string) (provider model : string)
    (request : LLMRequest) (metadata : Metadata) (w : World) : World :=
  let started :=
    (tracer_startSpan ("LLM Call: " +:+ provider +:+ "/" +:+ model)
       (llm_attributes provider model request metadata) w).2 in
  let logged :=
    (when (DEBUG_LOGGING env)
       (console_log [JStr ("[OTEL] Starting LLM call: " +:+ provider +:+ "/" +:+ model)])
       started).2 in
  set_active (Some (fresh_context w)) logged.

(** The span behind a handle is open in [w]. *)
Definition span_open (span : SpanContext) (w : World) : Prop :=
  ∃ s, spans w !! span_id span = Some s ∧ end_calls s = 0%nat.

(** The length of a string attribute of a span. *)
Definition attribute_length (key : string) (s : Span) : option nat :=
  match attributes s !! key with
  | Some (JStr text) => Some (String.length text)
  | _ => None
  end.

(** The first world of the examples: no span, nothing active. *)
Definition empty_world : World := mkWorld ∅ 1 None 0 [].


(** ** Spans *)

(** What the wrapper's span looks like after [executeFn] threw [E]: status
    ERROR with the message of [E], [E] recorded as an exception, and one
    call of [end()]; [s] is the span as [executeFn] left it. *)
Definition failed_with (E : JsValue) (message : JsValue) (s s' : Span) : Prop :=
  status s' = ERROR
  ∧ status_message s' = message
  ∧ exceptions s' = exceptions s ++ [E]
  ∧ attributes s' !! "error" = Some (JBool true)
  ∧ end_calls s' = 1%nat.

(** The identity of the span with the given id: its context, its parent
    and its name. *)
Definition identity_of (id : N) (w : World)
  : option (SpanContext * option N * string) :=
  (λ s, (span_context s, parent_span_id s, span_name s)) <$> spans w !! id.

(** A span is the child of [A]: it continues the trace of [A] and names
    [A] as its parent. *)
Definition child_of (A : SpanContext) (s : Span) : Prop :=
  parent_span_id s = Some (span_id A) ∧ trace_id (span_context s) = trace_id A.

(** The span [console.warn] and [console.error] leave behind: started
    after the original method returned in [w1], and ended at once. *)
Definition console_span (location_href method : string) (args : list JsValue)
    (w1 : World) : Span :=
  with_end (clock w1)
    (new_span ("console." +:+ method)
       [("log.level", JStr method);
        ("log.message", JStr (String_substring (console_message args) 500));
        ("browser.url", JStr location_href)]
       w1).

(** ** The proxy *)

(** The call the proxy makes for a tool call: the metadata is read first,
    then the awaited call is traced under [toolName]. *)
Definition traced_call (trace : JsValue → JsValue → M JsValue → Metadata → M JsValue)
    (options : InstrumentOptions) (toolName toolInput : JsValue)
    (call : M Result) : M Result :=
  conversation ← getConversationId options;
  user ← getUserId options;
  result ← trace toolName toolInput (awaited call)
             (mkMetadata conversation user (JStr (serverName options)) JUndefined);
  mret (Immediate result).

(** A client with the asynchronous method [callTool], the synchronous
    method [ping] and the property [name]. *)
Definition example_client : Client :=
  λ prop,
    match prop with
    | StringKey name =>
        if String.eqb name "callTool"
        then Method (λ args, mret (Promise (Returned (JObj [("count", JNum 3)]))))
        else if String.eqb name "ping" then Method (λ args, mret (Immediate (JStr "pong")))
        else if String.eqb name "name" then Value (JStr "pi-server")
        else Value JUndefined
    | SymbolKey _ => Value JUndefined
    end.

(** [await client[prop](...args)]. *)
Definition call_method (client : Client) (prop : string) (args : list JsValue)
  : M JsValue :=
  match client prop with
  | Method f => awaited (f args)
  | Value v => throw (TypeError ("client." +:+ prop +:+ " is not a function"))
  end.

(** ** Examples *)

(** A query of 2000 characters. *)
Definition oversized_input : JsValue := JObj [("query", JStr (zeros 2000))].

(** ** Frames *)

(** A call that leaves the active context as it found it. *)
Definition keeps_active {A : Type} (m : M A) : Prop :=
  ∀ w, active (m w).2 = active w.

(** An attribute of the span with the given id. *)
Definition attribute_of (id : N) (key : string) (w : World) : option (option JsValue) :=
  (λ s, attributes s !! key) <$> spans w !! id.

(** The keys under which the wrappers record the outcome of a call. *)
Definition result_attribute (key : string) : bool :=
  member key
    ["mcp.tool.success"; "mcp.tool.execution_time_ms"; "mcp.tool.output";
     "mcp.tool.results_count"; "mcp.tool.error"; "error";
     "llm.response.prompt_tokens"; "llm.response.completion_tokens";
     "llm.response.total_tokens"; "llm.response.finish_reason";
     "llm.response.latency_ms"; "llm.response.estimated_cost";
     "error.message"; "error.type"].

(** A correlation field that, when it is truthy, is an attribute value. *)
Definition correlation_value (v : JsValue) : bool :=
  is_attribute_value v || negb (ToBoolean v).

(** The number of calls of [end()] on the span with the given id. *)
Definition end_calls_of (id : N) (w : World) : option nat :=
  end_calls <$> spans w !! id.

(** ** The price table as a list *)

(** The entries of the price table, with the default pair. *)
Definition known_pricings : list ModelPricing :=
  [mkPricing 30 60; mkPricing 10 30; mkPricing 0.5 1.5; mkPricing 15 75;
   mkPricing 3 15; mkPricing 0.25 1.25; mkPricing 1 2].

Definition pricing_eqb (a b : ModelPricing) : bool :=
  (Qnum (prompt a) =? Qnum (prompt b))%Z && (Qden (prompt a) =? Qden (prompt b))%positive
  && (Qnum (completion a) =? Qnum (completion b))%Z
  && (Qden (completion a) =? Qden (completion b))%positive.


(* ===================================================================== *)
(** * 7a. mcp-tracing: connections, batches, request handlers            *)
(* ===================================================================== *)

(** ** The span [startSpan] hands back *)

(** The stub of the disabled module is [{ end: () => {} }]: [end] is its
    only method, and calling another one throws a TypeError. *)
Definition not_a_function (what : string) : JsValue :=
  TypeError (what +:+ " is not a function").

Definition handle_setAttributes (span : SpanHandle) (kvs : list (string * JsValue))
  : M unit :=
  match span with
  | TracerSpan s => span_setAttributes s kvs
  | StubSpan => throw (not_a_function "span.setAttributes")
  end.

Definition handle_setStatus (span : SpanHandle) (code : SpanStatusCode)
    (message : JsValue) : M unit :=
  match span with
  | TracerSpan s => span_setStatus s code message
  | StubSpan => throw (not_a_function "span.setStatus")
  end.

Definition handle_recordException (span : SpanHandle) (e : JsValue) : M unit :=
  match span with
  | TracerSpan s => span_recordException s e
  | StubSpan => throw (not_a_function "span.recordException")
  end.

Definition handle_end (span : SpanHandle) : M unit :=
  match span with
  | TracerSpan s => span_end s
  | StubSpan => mret ()
  end.

(** The status codes written as numbers: [{ code: 1 }] is OK and
    [{ code: 2 }] is ERROR. *)
Definition status_code (code : nat) : SpanStatusCode :=
  match code with
  | 1%nat => OK
  | 2%nat => ERROR
  | _ => UNSET
  end.

(** [Promise.all(calls)] over calls that are started in order, as run on
    one call chain: each call runs to its completion before the next one
    starts.  Every call runs, also after a failure; the result is the list
    of the results, or the first rejection. *)
Fixpoint Promise_all {A : Type} (calls : list (M A)) : M (list A) :=
  match calls with
  | [] => mret []
  | call :: rest =>
      λ w,
        match call w with
        | (Returned a, w1) =>
            match Promise_all rest w1 with
            | (Returned results, w2) => (Returned (a :: results), w2)
            | (Thrown e, w2) => (Thrown e, w2)
            end
        | (Thrown e, w1) => (Thrown e, (Promise_all rest w1).2)
        end
  end.

(** [items.map(f)] where [f] may throw. *)
Fixpoint map_M {A B : Type} (f : A → M B) (items : list A) : M (list B) :=
  match items with
  | [] => mret []
  | item :: rest => b ← f item; bs ← map_M f rest; mret (b :: bs)
  end.

(** An entry of the [toolCalls] array of a batch. *)
Record ToolCall : Type := mkToolCall {
  tc_serverName : JsValue;
  tc_toolName : JsValue;
  tc_input : JsValue;
  tc_executeFn : M JsValue
}.

(** [v?.key]. *)
Definition optional_chain (v : JsValue) (key : string) : JsValue :=
  if is_nullish v then JUndefined else property v key.

(** An Express request, as far as the handlers read and write it. *)
Record Request : Type := mkRequest' {
  req_body : JsValue;
  req_headers : gmap string string;
  req_user : JsValue;
  req_mcpContext : option (JsValue * JsValue);
  req_mcpToolResults : option JsValue
}.

(** [req.headers[name]]. *)
Definition header (req : Request) (name : string) : JsValue :=
  match req_headers req !! name with
  | Some v => JStr v
  | None => JUndefined
  end.

(** [next], called with the request as the handler leaves it and with its
    argument (undefined for [next()]). *)
Definition Next : Type := Request → JsValue → M unit.

Section McpTracingOperations.

(** The module [./otel], as loaded. *)
Variable otel : Exports.

Definition traceMCPConnection (serverName serverUrl : JsValue) (connectFn : M JsValue)
  : M JsValue :=
  span ← exported_startSpan otel ("MCP Connection: " +:+ ToString serverName)
            [("mcp.server.name", serverName);
             ("mcp.server.url", serverUrl);
             ("span.kind", JStr "client")] None;
  startTime ← Date_now;
  try_finally
    (try_catch
       (result ← connectFn;
        now ← Date_now;
        let connectionTime := (now - startTime)%float in
        handle_setAttributes span
          [("mcp.connection.success", JBool true);
           ("mcp.connection.time_ms", JNum connectionTime)];;
        handle_setStatus span (status_code 1) JUndefined;;
        console_log [JStr ("[MCP-OTEL] Connected to " +:+ ToString serverName +:+
                           " (" +:+ Number_toString connectionTime +:+ "ms)")];;
        mret result)
       (λ error,
          message ← lift (get_prop error "message");
          handle_setAttributes span
            [("mcp.connection.success", JBool false);
             ("mcp.connection.error", message)];;
          message ← lift (get_prop error "message");
          handle_setStatus span (status_code 2) message;;
          handle_recordException span error;;
          console_error [JStr ("[MCP-OTEL] Failed to connect to " +:+
                               ToString serverName +:+ ":"); error];;
          throw error))
    (handle_end span).

(** The calls a batch makes: [traceMCPTool] for every entry. *)
Definition batch_calls (toolCalls : list ToolCall) (context : Metadata)
  : list (M JsValue) :=
  map (λ tc, traceMCPTool (exported_traceMCPToolCall otel)
               (tc_serverName tc) (tc_toolName tc) (tc_input tc) (tc_executeFn tc)
               context)
      toolCalls.

Definition traceBatchMCPCalls (operationName : JsValue) (toolCalls : list ToolCall)
    (context : Metadata) : M JsValue :=
  span ← exported_startSpan otel ("MCP Batch: " +:+ ToString operationName)
            ([("mcp.batch.tool_count", JNum (Number_of_nat (length toolCalls)));
              ("mcp.batch.operation", operationName)]
             ++ spread_if (conversationId context) "conversation.id"
             ++ spread_if (userId context) "user.id") None;
  startTime ← Date_now;
  try_finally
    (try_catch
       ((* Execute all tool calls (can be parallel or sequential) *)
        results ← Promise_all (batch_calls toolCalls context);
        now ← Date_now;
        let executionTime := (now - startTime)%float in
        handle_setAttributes span
          [("mcp.batch.success", JBool true);
           ("mcp.batch.execution_time_ms", JNum executionTime);
           ("mcp.batch.completed_count", JNum (Number_of_nat (length results)))];;
        handle_setStatus span (status_code 1) JUndefined;;
        console_log [JStr ("[MCP-OTEL] Batch operation completed: " +:+
                           ToString operationName +:+ " (" +:+
                           Number_toString executionTime +:+ "ms, " +:+
                           Number_toString (Number_of_nat (length results)) +:+
                           " tools)")];;
        mret (JArr results))
       (λ error,
          message ← lift (get_prop error "message");
          handle_setAttributes span
            [("mcp.batch.success", JBool false);
             ("mcp.batch.error", message)];;
          message ← lift (get_prop error "message");
          handle_setStatus span (status_code 2) message;;
          handle_recordException span error;;
          console_error [JStr ("[MCP-OTEL] Batch operation failed: " +:+
                               ToString operationName); error];;
          throw error))
    (handle_end span).

(** [mcpTracingMiddleware(req, res, next)]. *)
Definition mcpTracingMiddleware (req : Request) (next : Next) : M Request :=
  (* Extract context from request *)
  let conversationId :=
    js_or (optional_chain (req_body req) "conversationId")
          (header req "x-conversation-id") in
  let userId :=
    js_or (optional_chain (req_user req) "id") (header req "x-user-id") in
  (* Store in request for later use *)
  let req' :=
    mkRequest' (req_body req) (req_headers req) (req_user req)
               (Some (conversationId, userId)) (req_mcpToolResults req) in
  next req' JUndefined;;
  mret req'.

(** [extractToolCalls(message)]: the placeholder of the source. *)
Definition extractToolCalls (message : JsValue) : list JsValue := [].

(** The [executeFn] the handler builds for a tool call [tc]. *)
Definition client_call (mcpClients : string → option Client) (tc : JsValue)
  : M JsValue :=
  server ← lift (get_prop tc "server");
  match mcpClients (ToString server) with
  | None => throw (JErr "Error" ("MCP server not found: " +:+ ToString server))
  | Some client =>
      tool ← lift (get_prop tc "tool");
      input ← lift (get_prop tc "input");
      call_method client "callTool" [tool; input]
  end.

(** The handler [createLibreChatMCPHandler(mcpClients)] returns. *)
Definition handleMCPTools (mcpClients : string → option Client) (req : Request)
    (next : Next) : M Request :=
  (* const { message, conversationId } = req.body *)
  message ← lift (get_prop (req_body req) "message");
  conversationId ← lift (get_prop (req_body req) "conversationId");
  let userId := optional_chain (req_user req) "id" in
  let toolCalls := extractToolCalls message in
  if Nat.eqb (length toolCalls) 0 then
    next req JUndefined;; mret req
  else
    let context := mkMetadata conversationId userId JUndefined JUndefined in
    try_catch
      ((* Execute all tool calls with tracing *)
       calls ← map_M (λ tc,
                  server ← lift (get_prop tc "server");
                  tool ← lift (get_prop tc "tool");
                  input ← lift (get_prop tc "input");
                  mret (mkToolCall server tool input (client_call mcpClients tc)))
                toolCalls;
       toolResults ← traceBatchMCPCalls (JStr "LibreChat Tool Execution") calls context;
       (* Attach results to request for further processing *)
       let req' :=
         mkRequest' (req_body req) (req_headers req) (req_user req)
                    (req_mcpContext req) (Some toolResults) in
       next req' JUndefined;;
       mret req')
      (λ error,
         console_error [JStr "[MCP-OTEL] Error executing MCP tools:"; error];;
         next req error;;
         mret req).

End McpTracingOperations.

(** ** The states in which the mcp-tracing helpers run their callbacks *)

(** [traceMCPConnection] called in [w] with tracing enabled: the state in
    which [connectFn] starts.  The span is started; it is not made active. *)
Definition connection_entry (serverName serverUrl : JsValue) (w : World) : World :=
  (tracer_startSpan ("MCP Connection: " +:+ ToString serverName)
     [("mcp.server.name", serverName);
      ("mcp.server.url", serverUrl);
      ("span.kind", JStr "client")] w).2.

(** [traceBatchMCPCalls] called in [w] with tracing enabled: the state in
    which the first tool call starts. *)
Definition batch_entry (operationName : JsValue) (toolCalls : list ToolCall)
    (context : Metadata) (w : World) : World :=
  (tracer_startSpan ("MCP Batch: " +:+ ToString operationName)
     ([("mcp.batch.tool_count", JNum (Number_of_nat (length toolCalls)));
       ("mcp.batch.operation", operationName)]
      ++ spread_if (conversationId context) "conversation.id"
      ++ spread_if (userId context) "user.id") w).2.

(** A call that starts no span and does not replace one: the spans it
    finds keep their identity, and the id generator is where it was. *)
Definition starts_no_span {A : Type} (f : M A) : Prop :=
  ∀ w, next_id (f w).2 = next_id w ∧ ∀ id, identity_of id (f w).2 = identity_of id w.

(* ===================================================================== *)
(** * 7b. Frontend: error listeners and user actions                     *)
(* ===================================================================== *)

(** The fields of an [ErrorEvent] that the listener reads. *)
Record ErrorEvent : Type := mkErrorEvent {
  ev_message : JsValue;
  ev_filename : JsValue;
  ev_lineno : JsValue;
  ev_colno : JsValue;
  ev_error : JsValue
}.

(** The field of a [PromiseRejectionEvent] that the listener reads. *)
Record PromiseRejectionEvent : Type := mkPromiseRejectionEvent {
  ev_reason : JsValue
}.

(** [v instanceof Error]. *)
Definition instanceof_Error (v : JsValue) : bool :=
  match v with
  | JErr _ _ => true
  | _ => false
  end.

(** The listeners [instrumentErrors] adds to [window]. *)
Record ErrorListeners : Type := mkErrorListeners {
  on_error : ErrorEvent → M unit;
  on_unhandledrejection : PromiseRejectionEvent → M unit
}.

Section FrontendOperations.

(** [window.location.href]. *)
Variable location_href : string.

(** The module variable [otelInitialized]. *)
Variable otelInitialized : bool.

(** Global error handler *)
Definition error_listener (event : ErrorEvent) : M unit :=
  span ← tracer_startSpan "unhandled_error"
            [("error.message", ev_message event);
             ("error.filename", ev_filename event);
             ("error.lineno", ev_lineno event);
             ("error.colno", ev_colno event);
             ("browser.url", JStr location_href)];
  when (ToBoolean (ev_error event))
    (span_recordException span (ev_error event));;
  span_end span.

(** Promise rejection handler *)
Definition unhandledrejection_listener (event : PromiseRejectionEvent) : M unit :=
  span ← tracer_startSpan "unhandled_promise_rejection"
            [("error.message",
              js_or (optional_chain (ev_reason event) "message")
                    (JStr (ToString (ev_reason event))));
             ("browser.url", JStr location_href)];
  when (instanceof_Error (ev_reason event))
    (span_recordException span (ev_reason event));;
  span_end span.

Definition instrumentErrors : M ErrorListeners :=
  console_log [JStr "[OTEL] Error instrumentation enabled"];;
  mret (mkErrorListeners error_listener unhandledrejection_listener).

(** The attributes of the span of a user action: the caller's attributes
    are spread last. *)
Definition user_action_attributes (name : string)
    (attributes : list (string * JsValue)) : list (string * JsValue) :=
  [("user.action", JStr name); ("browser.url", JStr location_href)] ++ attributes.

(** [traceUserAction(name, fn, attributes = {})]; the dynamic import of
    the tracing API is taken to succeed. *)
Definition traceUserAction (name : string) (fn : M JsValue)
    (attributes : list (string * JsValue)) : M JsValue :=
  if negb otelInitialized then
    (* OTEL not initialized, execute without tracing *)
    fn
  else
    span ← tracer_startSpan name (user_action_attributes name attributes);
    try_finally
      (try_catch
         (result ← fn;
          span_setStatus span (status_code 1) JUndefined;;
          mret result)
         (λ error,
            span_recordException span error;;
            message ← lift (get_prop error "message");
            span_setStatus span (status_code 2) message;;
            throw error))
      (span_end span).

End FrontendOperations.

(** [traceUserAction] called in [w] after initialization: the state in
    which [fn] starts. *)
Definition action_entry (location_href name : string)
    (attributes : list (string * JsValue)) (w : World) : World :=
  (tracer_startSpan name (user_action_attributes location_href name attributes) w).2.

(* ===================================================================== *)
(** * 7c. backend/routes/otel-config.js                                  *)
(* ===================================================================== *)

(** The object that [GET /otel] sends with [res.json]. *)
Definition otel_config (env : gmap string string) : JsValue :=
  JObj [("enabled", JBool (bool_decide (env !! "ENABLE_OTEL" = Some "true")));
        ("opikUrl", JStr (env_or env "OPIK_URL" "http://localhost:8080"));
        ("apiKey", JStr (env_or env "OPIK_API_KEY" ""));
        ("projectName", JStr (env_or env "OPIK_PROJECT_NAME" "librechat"));
        ("workspaceName", JStr (env_or env "OPIK_WORKSPACE_NAME" "default"));
        ("serviceName", JStr "librechat-frontend");
        ("debugLogging", JBool (bool_decide (env !! "DEBUG_LOGGING" = Some "true")))].

(* ===================================================================== *)
(** * 8. Properties                                                      *)
(* ===================================================================== *)

Arguments calculateLLMCost : simpl never.
Arguments Number_toString : simpl never.
Arguments Number_toFixed : simpl never.
Arguments ToString : simpl never.
Arguments JSON_stringify : simpl never.
Arguments String.append : simpl never.

(** Unfolds the monadic steps of a wrapper. *)
Ltac run_monad :=
  unfold mbind, M_bind, mret, M_ret, fmap, M_fmap, try_finally, try_catch, throw, lift,
    when, context_with, context_active, Date_now, console_log, console_error,
    console_call, tracer_startSpan, span_setAttributes, span_setAttribute,
    span_setStatus, span_recordException, span_end, update_span, trace_setSpan.

(** Splits the goal along the conditions of a wrapper's body. *)
Ltac split_conditions :=
  repeat (simpl; match goal with
                 | |- context [if ?b then _ else _] => destruct b
                 end).

(** ** The built-ins on sample values *)

(** Number::toString prints the shortest decimal that reads back as the
    same Number; JSON.stringify escapes, drops undefined properties and
    prints null for undefined elements. *)
Example Number_toString_samples :
  map Number_toString
    [(1 / 10 + 2 / 10)%float; 225%float; (1 / 1000000)%float; (1 / 10000000)%float;
     (-3 / 2)%float; (1000000000000 * 1000000000)%float; (0 / 0)%float]
  = ["0.30000000000000004"; "225"; "0.000001"; "1e-7"; "-1.5"; "1e+21"; "NaN"].
Proof. vm_compute. reflexivity. Qed.

Example Number_toFixed_samples :
  map (λ x, Number_toFixed x 4)
    [(150 / 1000000 * 30 + 75 / 1000000 * 60)%float; (5 / 2)%float; 0%float]
  = ["0.0090"; "2.5000"; "0.0000"].
Proof. vm_compute. reflexivity. Qed.

Example JSON_stringify_sample :
  let quoted text := String double_quote text +:+ String double_quote "" in
  JSON_stringify
    (JObj [("path", JStr "a\b"); ("skip", JUndefined);
           ("hits", JArr [JNum 3; JUndefined; JNull; JBool true])])
  = Some ("{" +:+ quoted "path" +:+ ":" +:+ quoted "a\\b" +:+ ","
          +:+ quoted "hits" +:+ ":[3,null,null,true]}").
Proof. vm_compute. reflexivity. Qed.

(** ** The methods of a span *)

Section SpanMethods.

Variables (span : SpanContext) (w : World) (s : Span).
Hypothesis Hlookup : spans w !! span_id span = Some s.
Hypothesis Hopen : end_calls s = 0%nat.

Lemma update_span_open (f : Span → Span) :
  ∃ w', update_span span f w = (Returned (), w')
        ∧ spans w' !! span_id span = Some (f s).
Proof using Hlookup Hopen.
  eexists; split; [reflexivity|].
  simpl. rewrite lookup_alter_eq, Hlookup. simpl.
  unfold is_ended. now rewrite Hopen.
Qed.

Lemma span_end_open :
  ∃ w', span_end span w = (Returned (), w')
        ∧ spans w' !! span_id span = Some (with_end (clock w) s)
        ∧ end_calls (with_end (clock w) s) = 1%nat.
Proof using Hlookup Hopen.
  eexists; split; [reflexivity|]. split.
  - simpl. now rewrite lookup_alter_eq, Hlookup.
  - simpl. now rewrite Hopen.
Qed.

End SpanMethods.

(** A closed span ignores every change. *)
Lemma update_span_closed span w s f :
  spans w !! span_id span = Some s → is_ended s = true →
  spans (update_span span f w).2 !! span_id span = Some s.
Proof.
  intros Hs Hended. simpl. rewrite lookup_alter_eq, Hs. simpl. now rewrite Hended.
Qed.

(** Reads an attribute back from a chain of insertions. *)
Ltac attr_lookup :=
  repeat first [ apply lookup_insert_eq | rewrite lookup_insert_ne by discriminate ].

Lemma traceMCPToolCall_rethrows env toolName toolInput executeFn metadata w
    ctor message w2 s :
  let E := JErr ctor message in
  let span := fresh_context w in
  executeFn (mcp_entry env toolName toolInput metadata w) = (Thrown E, w2) →
  spans w2 !! span_id span = Some s → end_calls s = 0%nat →
  ∃ w' s',
    traceMCPToolCall env toolName toolInput executeFn metadata w = (Thrown E, w')
    ∧ spans w' !! span_id span = Some s'
    ∧ failed_with E (JStr message) s s'.
Proof.
  intros E span Hexec Hs Hopen. subst E span.
  destruct s as [sc sp sn st se sa ss sm sx n]; simpl in Hopen; subst n.
  unfold traceMCPToolCall, mcp_entry in *. run_monad.
  destruct (DEBUG_LOGGING env); simpl in *; rewrite Hexec; simpl;
    (eexists _, _; split; [reflexivity|]);
    (split; [simpl; rewrite !lookup_alter_eq, Hs; reflexivity|]);
    unfold failed_with; simpl; repeat split; attr_lookup.
Qed.

Lemma traceLLMCall_rethrows env provider model request executeFn metadata w
    ctor message w2 s :
  let E := JErr ctor message in
  let span := fresh_context w in
  executeFn (llm_entry env provider model request metadata w) = (Thrown E, w2) →
  spans w2 !! span_id span = Some s → end_calls s = 0%nat →
  ∃ w' s',
    traceLLMCall env provider model request executeFn metadata w = (Thrown E, w')
    ∧ spans w' !! span_id span = Some s'
    ∧ failed_with E (JStr message) s s'.
Proof.
  intros E span Hexec Hs Hopen. subst E span.
  destruct s as [sc sp sn st se sa ss sm sx n]; simpl in Hopen; subst n.
  unfold traceLLMCall, llm_entry in *. run_monad.
  destruct (DEBUG_LOGGING env); simpl in *; rewrite Hexec; simpl;
    (eexists _, _; split; [reflexivity|]);
    (split; [simpl; rewrite !lookup_alter_eq, Hs; reflexivity|]);
    unfold failed_with; simpl; repeat split; attr_lookup.
Qed.

(** C3.  When [executeFn] throws an error [E], [traceMCPToolCall] and
    [traceLLMCall] throw [E] again (the failure is not swallowed); the span
    of the call has status ERROR, [E] is recorded on it as an exception, and
    [end()] has been called on it exactly once, by the finally block. *)
Theorem wrappers_rethrow_and_end_span :
  (∀ env toolName toolInput executeFn metadata w ctor message w2,
     let E := JErr ctor message in
     let span := fresh_context w in
     executeFn (mcp_entry env toolName toolInput metadata w) = (Thrown E, w2) →
     span_open span w2 →
     ∃ w' s',
       traceMCPToolCall env toolName toolInput executeFn metadata w = (Thrown E, w')
       ∧ spans w' !! span_id span = Some s'
       ∧ status s' = ERROR
       ∧ last (exceptions s') = Some E
       ∧ end_calls s' = 1%nat)
  ∧
  (∀ env provider model request executeFn metadata w ctor message w2,
     let E := JErr ctor message in
     let span := fresh_context w in
     executeFn (llm_entry env provider model request metadata w) = (Thrown E, w2) →
     span_open span w2 →
     ∃ w' s',
       traceLLMCall env provider model request executeFn metadata w = (Thrown E, w')
       ∧ spans w' !! span_id span = Some s'
       ∧ status s' = ERROR
       ∧ last (exceptions s') = Some E
       ∧ end_calls s' = 1%nat).
Proof.
  split.
  - intros env toolName toolInput executeFn metadata w ctor message w2 E span
      Hexec (s & Hs & Hopen).
    destruct (traceMCPToolCall_rethrows env toolName toolInput executeFn metadata w
                ctor message w2 s Hexec Hs Hopen)
      as (w' & s' & Hrun & Hs' & Hst & _ & Hex & _ & Hend).
    exists w', s'. repeat split; try assumption.
    rewrite Hex. apply last_snoc.
  - intros env provider model request executeFn metadata w ctor message w2 E span
      Hexec (s & Hs & Hopen).
    destruct (traceLLMCall_rethrows env provider model request executeFn metadata w
                ctor message w2 s Hexec Hs Hopen)
      as (w' & s' & Hrun & Hs' & Hst & _ & Hex & _ & Hend).
    exists w', s'. repeat split; try assumption.
    rewrite Hex. apply last_snoc.
Qed.

(** The tool [search] fails with [new Error("boom")] in the empty world. *)
Lemma wrappers_rethrow_witness :
  ∃ w' s',
    traceMCPToolCall ∅ (JStr "search") (JObj []) (throw (JErr "Error" "boom"))
      no_metadata empty_world = (Thrown (JErr "Error" "boom"), w')
    ∧ spans w' !! 1%N = Some s'
    ∧ status s' = ERROR
    ∧ last (exceptions s') = Some (JErr "Error" "boom")
    ∧ end_calls s' = 1%nat.
Proof.
  apply (proj1 wrappers_rethrow_and_end_span ∅ (JStr "search") (JObj [])
           (throw (JErr "Error" "boom")) no_metadata empty_world "Error" "boom"
           (mcp_entry ∅ (JStr "search") (JObj []) no_metadata empty_world)).
  - reflexivity.
  - eexists. split; [vm_compute; reflexivity | reflexivity].
Defined.

(** ** Results of [executeFn] (C1, C4) *)

(** The success path of [traceMCPToolCall]: [executeFn] returned [result],
    whose serialization is [out], and left the span of the call open. *)
Lemma traceMCPToolCall_returns env toolName toolInput executeFn metadata w
    result out w2 s :
  let span := fresh_context w in
  executeFn (mcp_entry env toolName toolInput metadata w) = (Returned result, w2) →
  JSON_stringify result = Some out →
  spans w2 !! span_id span = Some s → end_calls s = 0%nat →
  ∃ w' s',
    traceMCPToolCall env toolName toolInput executeFn metadata w = (Returned result, w')
    ∧ spans w' !! span_id span = Some s'
    ∧ status s' = OK
    ∧ attributes s' !! "mcp.tool.success" = Some (JBool true)
    ∧ attributes s' !! "mcp.tool.output" = Some (JStr (String_substring out 1000))
    ∧ attributes s' !! "mcp.tool.input" = attributes s !! "mcp.tool.input"
    ∧ (ToBoolean result && String.eqb (typeof result) "object" = true →
       ToBoolean (property result "error") = true →
       attributes s' !! "mcp.tool.error" = Some (property result "error"))
    ∧ end_calls s' = 1%nat.
Proof.
  intros span Hexec Hjson Hs Hopen. subst span.
  destruct s as [sc sp sn st se sa ss sm sx n]; simpl in Hopen; subst n.
  unfold traceMCPToolCall, mcp_entry, JSON_stringify_value in *. run_monad.
  destruct (DEBUG_LOGGING env); simpl in *; rewrite Hexec; simpl;
    rewrite Hjson; simpl;
    destruct (ToBoolean result && String.eqb (typeof result) "object"); simpl;
    destruct (String.eqb (typeof (property result "count")) "undefined"); simpl;
    destruct (ToBoolean (property result "error")); simpl;
    (eexists _, _; split; [reflexivity|]);
    (split; [simpl; rewrite !lookup_alter_eq, Hs; reflexivity|]);
    simpl; repeat split; try discriminate; intros; attr_lookup; reflexivity.
Qed.

(** An object always has a serialization. *)
Lemma JSON_stringify_object fields : ∃ out, JSON_stringify (JObj fields) = Some out.
Proof. eexists. reflexivity. Qed.

Lemma property_own fields key v : assoc key fields = Some v → property (JObj fields) key = v.
Proof. intros H. simpl. now rewrite H. Qed.

(** C1, as the code has it.  When [executeFn] returns an object whose
    [error] property is not null, [traceMCPToolCall] returns that object
    and the span's status is OK, not ERROR; the span carries
    [mcp.tool.success = true] and the serialized result cut to 1000 code
    units, an [error] that is a non-empty string, a number other than 0
    and NaN, or [true] is copied to [mcp.tool.error], and [end()] has been
    called once. *)
Theorem application_error_keeps_status_OK env toolName toolInput executeFn metadata
    w fields error w2 :
  let result := JObj fields in
  let span := fresh_context w in
  assoc "error" fields = Some error → is_nullish error = false →
  executeFn (mcp_entry env toolName toolInput metadata w) = (Returned result, w2) →
  span_open span w2 →
  ∃ w' s' out,
    traceMCPToolCall env toolName toolInput executeFn metadata w = (Returned result, w')
    ∧ spans w' !! span_id span = Some s'
    ∧ status s' = OK
    ∧ attributes s' !! "mcp.tool.success" = Some (JBool true)
    ∧ JSON_stringify result = Some out
    ∧ attributes s' !! "mcp.tool.output" = Some (JStr (String_substring out 1000))
    ∧ (is_attribute_value error = true → ToBoolean error = true →
       attributes s' !! "mcp.tool.error" = Some error)
    ∧ end_calls s' = 1%nat.
Proof.
  intros result span Herror _ Hexec (s & Hs & Hopen). subst result.
  destruct (JSON_stringify_object fields) as [out Hout].
  destruct (traceMCPToolCall_returns env toolName toolInput executeFn metadata w
              (JObj fields) out w2 s Hexec Hout Hs Hopen)
    as (w' & s' & Hrun & Hs' & Hst & Hsucc & Hattr & _ & Herr & Hend).
  exists w', s', out. repeat split; try assumption.
  intros _ Htruthy. rewrite <- (property_own fields "error" error Herror).
  apply Herr; [reflexivity|].
  now rewrite (property_own fields "error" error Herror).
Qed.

(** The tool [search] returns [{ error: "not found" }]. *)
Lemma application_error_witness :
  ∃ w' s' out,
    traceMCPToolCall ∅ (JStr "search") (JObj [])
      (mret (JObj [("error", JStr "not found")])) no_metadata empty_world
    = (Returned (JObj [("error", JStr "not found")]), w')
    ∧ spans w' !! 1%N = Some s'
    ∧ status s' = OK
    ∧ attributes s' !! "mcp.tool.success" = Some (JBool true)
    ∧ JSON_stringify (JObj [("error", JStr "not found")]) = Some out
    ∧ attributes s' !! "mcp.tool.output" = Some (JStr (String_substring out 1000))
    ∧ (is_attribute_value (JStr "not found") = true →
       ToBoolean (JStr "not found") = true →
       attributes s' !! "mcp.tool.error" = Some (JStr "not found"))
    ∧ end_calls s' = 1%nat.
Proof.
  apply (application_error_keeps_status_OK ∅ (JStr "search") (JObj [])
           (mret (JObj [("error", JStr "not found")])) no_metadata empty_world
           [("error", JStr "not found")] (JStr "not found")
           (mcp_entry ∅ (JStr "search") (JObj []) no_metadata empty_world)).
  - reflexivity.
  - reflexivity.
  - reflexivity.
  - eexists. split; [vm_compute; reflexivity | reflexivity].
Defined.

(** C1 as stated fails: after a result with an [error] field the status of
    the span is OK. *)
Lemma application_error_status_is_OK :
  status <$>
    (spans (traceMCPToolCall ∅ (JStr "search") (JObj [])
              (mret (JObj [("error", JStr "not found")])) no_metadata
              empty_world).2 !! 1%N)
  = Some OK.
Proof. vm_compute. reflexivity. Qed.

(** ** The input attribute (C4) *)

Lemma substring_prefix_length n text :
  String.length (substring 0 n text) = Nat.min n (String.length text).
Proof.
  revert text. induction n as [|n IH]; intros [|c text]; simpl; try reflexivity.
  now rewrite IH.
Qed.

Lemma String_substring_bound text n : (String.length (String_substring text n) ≤ n)%nat.
Proof. unfold String_substring. rewrite substring_prefix_length. lia. Qed.

(** The span starts with the whole serialization of the input. *)
Lemma mcp_entry_input env toolName toolInput metadata w :
  ∃ s0,
    spans (mcp_entry env toolName toolInput metadata w) !! span_id (fresh_context w)
    = Some s0
    ∧ attributes s0 !! "mcp.tool.input" = Some (JSON_stringify_value toolInput)
    ∧ end_calls s0 = 0%nat.
Proof.
  eexists. split; [|split].
  - unfold mcp_entry. run_monad.
    assert (Hid : span_id (fresh_context w) = next_id w)
      by (unfold fresh_context; destruct (active w); reflexivity).
    rewrite Hid. destruct (DEBUG_LOGGING env); simpl; apply lookup_insert_eq.
  - unfold new_span, mcp_attributes, spread_if. simpl.
    destruct (ToBoolean (conversationId metadata)),
             (ToBoolean (userId metadata)),
             (ToBoolean (mcpServerName metadata)); simpl; attr_lookup.
  - reflexivity.
Qed.

(** C4, as the code has it.  [traceMCPToolCall] stores the serialized
    input as the attribute [mcp.tool.input] in full, whatever its length,
    and does not touch it afterwards; the attribute it cuts to 1000 code
    units is the serialized result, [mcp.tool.output]. *)
Theorem tool_input_stored_in_full env toolName toolInput executeFn metadata w :
  let span := fresh_context w in
  (∃ s0,
     spans (mcp_entry env toolName toolInput metadata w) !! span_id span = Some s0
     ∧ attributes s0 !! "mcp.tool.input" = Some (JSON_stringify_value toolInput))
  ∧
  (∀ result out w2 s,
     executeFn (mcp_entry env toolName toolInput metadata w) = (Returned result, w2) →
     JSON_stringify result = Some out →
     spans w2 !! span_id span = Some s → end_calls s = 0%nat →
     ∃ s' output,
       spans (traceMCPToolCall env toolName toolInput executeFn metadata w).2
         !! span_id span = Some s'
       ∧ attributes s' !! "mcp.tool.input" = attributes s !! "mcp.tool.input"
       ∧ attributes s' !! "mcp.tool.output" = Some (JStr output)
       ∧ output = String_substring out 1000
       ∧ (String.length output ≤ 1000)%nat).
Proof.
  intros span. split.
  - destruct (mcp_entry_input env toolName toolInput metadata w) as (s0 & H0 & Hin & _).
    exists s0. split; assumption.
  - intros result out w2 s Hexec Hjson Hs Hopen.
    destruct (traceMCPToolCall_returns env toolName toolInput executeFn metadata w
                result out w2 s Hexec Hjson Hs Hopen)
      as (w' & s' & Hrun & Hs' & _ & _ & Hout & Hin & _).
    exists s', (String_substring out 1000). rewrite Hrun. simpl.
    repeat split; try assumption. apply String_substring_bound.
Qed.


Lemma tool_input_witness :
  ∃ s' output,
    spans (traceMCPToolCall ∅ (JStr "search") oversized_input (mret oversized_input)
             no_metadata empty_world).2 !! 1%N = Some s'
    ∧ attributes s' !! "mcp.tool.input" = Some (JSON_stringify_value oversized_input)
    ∧ attributes s' !! "mcp.tool.output" = Some (JStr output)
    ∧ (String.length output ≤ 1000)%nat.
Proof.
  destruct (proj2 (tool_input_stored_in_full ∅ (JStr "search") oversized_input
                     (mret oversized_input : M JsValue) no_metadata empty_world)
              oversized_input
              (default "" (JSON_stringify oversized_input))
              (mcp_entry ∅ (JStr "search") oversized_input no_metadata empty_world)
              (new_span "MCP Tool: search"
                 (mcp_attributes (JStr "search") oversized_input no_metadata)
                 empty_world))
    as (s' & output & Hs' & Hin & Hout & _ & Hlen); try reflexivity.
  exists s', output. repeat split; assumption.
Defined.

(** C4 as stated fails: the input attribute of a call with the oversized
    input is 2012 code units long. *)
Lemma tool_input_not_truncated :
  spans (traceMCPToolCall ∅ (JStr "search") oversized_input (mret JNull)
           no_metadata empty_world).2 !! 1%N
    ≫= attribute_length "mcp.tool.input"
  = Some 2012%nat.
Proof. vm_compute. reflexivity. Qed.

(** ** Usage and cost of a model call (C5) *)

(** The success path of [traceLLMCall]: [executeFn] returned [result] and
    left the span of the call open. *)
Lemma traceLLMCall_returns env provider model request executeFn metadata w
    result w2 s cost :
  let span := fresh_context w in
  let usage := default (mkUsage None None None) (usage result) in
  let promptTokens := num_or (prompt_tokens usage) 0 in
  let completionTokens := num_or (completion_tokens usage) 0 in
  let totalTokens := num_or (total_tokens usage) (promptTokens + completionTokens) in
  executeFn (llm_entry env provider model request metadata w) = (Returned result, w2) →
  spans w2 !! span_id span = Some s → end_calls s = 0%nat →
  calculateLLMCost provider model promptTokens completionTokens = Returned cost →
  ∃ w' s',
    traceLLMCall env provider model request executeFn metadata w = (Returned result, w')
    ∧ spans w' !! span_id span = Some s'
    ∧ status s' = OK
    ∧ attributes s' !! "llm.response.prompt_tokens" = Some (JNum promptTokens)
    ∧ attributes s' !! "llm.response.completion_tokens" = Some (JNum completionTokens)
    ∧ attributes s' !! "llm.response.total_tokens" = Some (JNum totalTokens)
    ∧ attributes s' !! "llm.response.estimated_cost" = Some (JNum cost)
    ∧ end_time s' = Some (clock w2)
    ∧ end_calls s' = 1%nat.
Proof.
  intros span usage0 promptTokens completionTokens totalTokens Hexec Hs Hopen Hcost.
  subst span usage0 promptTokens completionTokens totalTokens.
  destruct s as [sc sp sn st se sa ss sm sx n]; simpl in Hopen; subst n.
  unfold traceLLMCall, llm_entry in *. run_monad.
  destruct (DEBUG_LOGGING env); simpl in *; rewrite Hexec; simpl; rewrite Hcost; simpl;
    (eexists _, _; split; [reflexivity|]);
    (split; [simpl; rewrite !lookup_alter_eq, Hs; reflexivity|]);
    simpl; repeat split; attr_lookup.
Qed.

(** The cost of 150 prompt tokens and 75 completion tokens of
    openai/gpt-4, in binary64 arithmetic. *)
Lemma gpt4_cost_150_75 :
  calculateLLMCost "openai" "gpt-4" 150%float 75%float
  = Returned (150 / 1000000 * 30 + 75 / 1000000 * 60)%float.
Proof. vm_compute. reflexivity. Qed.

(** C5.  For [traceLLMCall("openai", "gpt-4", request, executeFn)] where
    [executeFn] resolves with the usage
    [{ prompt_tokens: 150, completion_tokens: 75 }] and no [total_tokens],
    the span of the call is closed and records
    [llm.response.total_tokens = 225] and
    [llm.response.estimated_cost = (150/1e6)*30 + (75/1e6)*60]; the prices
    30 and 60 are the entry of openai/gpt-4 in the price table. *)
Theorem gpt4_usage_scenario env request executeFn metadata w choices w2 :
  let result := mkResponse (Some (mkUsage (Some 150%float) (Some 75%float) None)) choices in
  let span := fresh_context w in
  executeFn (llm_entry env "openai" "gpt-4" request metadata w) = (Returned result, w2) →
  span_open span w2 →
  ∃ w' s',
    traceLLMCall env "openai" "gpt-4" request executeFn metadata w = (Returned result, w')
    ∧ spans w' !! span_id span = Some s'
    ∧ is_ended s' = true
    ∧ attributes s' !! "llm.response.total_tokens" = Some (JNum 225)
    ∧ attributes s' !! "llm.response.estimated_cost"
      = Some (JNum (150 / 1000000 * 30 + 75 / 1000000 * 60))
    ∧ lookup_pricing "openai" "gpt-4" = mkPricing 30 60.
Proof.
  intros result span Hexec (s & Hs & Hopen).
  destruct (traceLLMCall_returns env "openai" "gpt-4" request executeFn metadata w
              result w2 s _ Hexec Hs Hopen gpt4_cost_150_75)
    as (w' & s' & Hrun & Hs' & _ & _ & _ & Htotal & Hcost & _ & Hend).
  exists w', s'.
  split; [exact Hrun|]. split; [exact Hs'|].
  split; [unfold is_ended; now rewrite Hend|].
  split; [exact Htotal|]. split; [exact Hcost|reflexivity].
Qed.

(** The model call resolves with the usage of the scenario. *)
Lemma gpt4_usage_witness :
  let result := mkResponse (Some (mkUsage (Some 150%float) (Some 75%float) None)) None in
  ∃ w' s',
    traceLLMCall ∅ "openai" "gpt-4" (mkRequest None JUndefined JUndefined JUndefined)
      (mret result) no_metadata empty_world = (Returned result, w')
    ∧ spans w' !! 1%N = Some s'
    ∧ is_ended s' = true
    ∧ attributes s' !! "llm.response.total_tokens" = Some (JNum 225)
    ∧ attributes s' !! "llm.response.estimated_cost"
      = Some (JNum (150 / 1000000 * 30 + 75 / 1000000 * 60))
    ∧ lookup_pricing "openai" "gpt-4" = mkPricing 30 60.
Proof.
  apply (gpt4_usage_scenario ∅ (mkRequest None JUndefined JUndefined JUndefined)
           (mret (mkResponse (Some (mkUsage (Some 150%float) (Some 75%float) None)) None))
           no_metadata empty_world None
           (llm_entry ∅ "openai" "gpt-4" (mkRequest None JUndefined JUndefined JUndefined)
              no_metadata empty_world)).
  - reflexivity.
  - eexists. split; [vm_compute; reflexivity | reflexivity].
Defined.

(** ** The cost function (C6) *)

(** NaN is absorbing for [*] and [+], and is below nothing. *)
Lemma Prim2SF_mul_nan x : Prim2SF (x * nan) = S754_nan.
Proof.
  rewrite FloatAxioms.mul_spec. change (Prim2SF nan) with S754_nan.
  unfold SF64mul, SFmul.
  now destruct (Prim2SF x) as [| | |? ? ?].
Qed.

Lemma Prim2SF_add_nan x y : Prim2SF x = S754_nan → Prim2SF (x + y) = S754_nan.
Proof. intros Hnan. now rewrite FloatAxioms.add_spec, Hnan. Qed.

Lemma nan_below_nothing x :
  Prim2SF x = S754_nan → is_nan x = true ∧ (x <=? x)%float = false.
Proof.
  intros Hnan. unfold is_nan.
  now rewrite FloatAxioms.eqb_spec, FloatAxioms.leb_spec, Hnan.
Qed.

(** The cost computed from a [modelPricing] that is not a price. *)
Lemma cost_of_NotAPrice provider model promptTokens completionTokens :
  lookup_pricing provider model = NotAPrice →
  ∃ cost,
    calculateLLMCost provider model promptTokens completionTokens = Returned cost
    ∧ Prim2SF cost = S754_nan.
Proof.
  intros Hlookup. unfold calculateLLMCost. rewrite Hlookup. simpl.
  eexists. split; [reflexivity|].
  apply Prim2SF_add_nan, Prim2SF_mul_nan.
Qed.

(** A model that names a function of [Object.prototype] is found in the
    table of every provider. *)
Lemma lookup_pricing_inherited provider models model :
  pricing !! provider = Some models → models !! model = None →
  inherited_from_Object model = true →
  lookup_pricing provider model = NotAPrice.
Proof.
  intros Hprovider Hmodel Hinherited.
  unfold lookup_pricing, lookup_provider.
  now rewrite Hprovider, Hmodel, Hinherited, orb_true_r.
Qed.

(** A provider that names nothing gets the default pair, whatever the
    model. *)
Lemma lookup_pricing_default provider model :
  lookup_provider provider = NoProvider →
  lookup_pricing provider model = default_pricing.
Proof. unfold lookup_pricing. now intros ->. Qed.

(** C6, as the code has it.  For a provider of the price table and a model
    that is absent from the provider's entries but names a function that
    every object inherits ([toString], [valueOf], [constructor], ...), the
    lookup finds that function instead of falling back to the default pair
    (1, 2); its [prompt] and [completion] are undefined, and the cost is
    NaN for all token counts: not the default-priced cost, and not
    non-decreasing, since NaN is not below or equal to itself. *)
Theorem calculateLLMCost_inherited_member_is_NaN provider models model
    promptTokens completionTokens :
  pricing !! provider = Some models →
  models !! model = None →
  inherited_from_Object model = true →
  ∃ cost,
    calculateLLMCost provider model promptTokens completionTokens = Returned cost
    ∧ is_nan cost = true
    ∧ (cost <=? cost)%float = false
    ∧ lookup_pricing provider model = NotAPrice
    ∧ lookup_pricing provider model ≠ default_pricing.
Proof.
  intros Hprovider Hmodel Hinherited.
  pose proof (lookup_pricing_inherited provider models model Hprovider Hmodel Hinherited)
    as Hlookup.
  destruct (cost_of_NotAPrice provider model promptTokens completionTokens Hlookup)
    as (cost & Hcost & Hnan).
  destruct (nan_below_nothing cost Hnan) as [His_nan Hle].
  exists cost. split; [exact Hcost|]. split; [exact His_nan|].
  split; [exact Hle|]. split; [exact Hlookup|].
  rewrite Hlookup. discriminate.
Qed.

(** [calculateLLMCost('openai', 'toString', 1000, 1000)]. *)
Lemma calculateLLMCost_witness :
  ∃ cost,
    calculateLLMCost "openai" "toString" 1000 1000 = Returned cost
    ∧ is_nan cost = true
    ∧ (cost <=? cost)%float = false
    ∧ lookup_pricing "openai" "toString" = NotAPrice
    ∧ lookup_pricing "openai" "toString" ≠ default_pricing.
Proof.
  apply (calculateLLMCost_inherited_member_is_NaN "openai"
           {[ "gpt-4" := mkPricing 30 60;
              "gpt-4-turbo" := mkPricing 10 30;
              "gpt-3.5-turbo" := mkPricing 0.5 1.5 ]}
           "toString" 1000 1000).
  - vm_compute. reflexivity.
  - vm_compute. reflexivity.
  - vm_compute. reflexivity.
Defined.

(** ** The disabled module (C2) *)

(** C2, as the code has it.  When [ENABLE_OTEL] is not ['true'], loading
    the module creates no span and exports the stubs; the stub
    [traceMCPToolCall] is [() => {}]: it returns undefined without running
    [executeFn], whose effects and result (or exception) are lost. *)
Theorem disabled_traceMCPToolCall_skips_executeFn env w :
  ENABLE_OTEL env = false →
  ∃ exports w',
    otel_module env w = (Returned exports, w')
    ∧ spans w' = spans w
    ∧ ∀ toolName toolInput executeFn metadata w0,
        exported_traceMCPToolCall exports toolName toolInput executeFn metadata w0
        = (Returned JUndefined, w0).
Proof.
  intros Hoff. unfold otel_module. rewrite Hoff. simpl.
  eexists _, _. split; [reflexivity|]. split; reflexivity.
Qed.

(** The environment sets no [ENABLE_OTEL]; the tool would return 42. *)
Lemma disabled_traceMCPToolCall_witness :
  ∃ exports w',
    otel_module ∅ empty_world = (Returned exports, w')
    ∧ spans w' = spans empty_world
    ∧ exported_traceMCPToolCall exports (JStr "search") (JObj [])
        (mret (JNum 42)) no_metadata w'
      = (Returned JUndefined, w').
Proof.
  assert (Hoff : ENABLE_OTEL ∅ = false) by (vm_compute; reflexivity).
  destruct (disabled_traceMCPToolCall_skips_executeFn ∅ empty_world Hoff)
    as (exports & w' & Hload & Hspans & Hstub).
  exists exports, w'. split; [exact Hload|]. split; [exact Hspans|]. apply Hstub.
Defined.

(** ** The span buffer (C7) *)

Section ExporterProperties.

Context {SpanT : Type}.
Variable max_queue_size : nat.
Hypothesis max_queue_size_pos : (0 < max_queue_size)%nat.

Implicit Types (buffer new : list SpanT) (span : SpanT).

(** One [enqueue] keeps the newest [max_queue_size] entries. *)
Lemma enqueue_keeps_newest buffer span :
  (length buffer ≤ max_queue_size)%nat →
  enqueue max_queue_size buffer span
  = drop (length (buffer ++ [span]) - max_queue_size) (buffer ++ [span]).
Proof using max_queue_size_pos.
  intros Hbound. unfold enqueue. rewrite length_app. simpl.
  destruct (Nat.leb_spec max_queue_size (length buffer)) as [Hfull|Hroom].
  - assert (Heq : length buffer = max_queue_size) by lia.
    replace (length buffer + 1 - max_queue_size)%nat with 1%nat by lia.
    destruct buffer as [|oldest rest]; [simpl in Heq; lia|]. reflexivity.
  - replace (length buffer + 1 - max_queue_size)%nat with 0%nat by lia.
    reflexivity.
Qed.

Lemma enqueue_bounded buffer span :
  (length buffer ≤ max_queue_size)%nat →
  (length (enqueue max_queue_size buffer span) ≤ max_queue_size)%nat.
Proof using max_queue_size_pos.
  intros Hbound. rewrite enqueue_keeps_newest by assumption.
  rewrite length_drop, length_app. simpl. lia.
Qed.

(** The invariant of a run of enqueues. *)
Lemma enqueue_all_keeps_newest new : ∀ buffer,
  (length buffer ≤ max_queue_size)%nat →
  enqueue_all max_queue_size buffer new
  = drop (length (buffer ++ new) - max_queue_size) (buffer ++ new).
Proof using max_queue_size_pos.
  unfold enqueue_all.
  induction new as [|span new IH]; intros buffer Hbound.
  - simpl. rewrite app_nil_r.
    replace (length buffer - max_queue_size)%nat with 0%nat by lia. reflexivity.
  - simpl. rewrite IH by (now apply enqueue_bounded).
    rewrite enqueue_keeps_newest by assumption.
    set (k := (length (buffer ++ [span]) - max_queue_size)%nat).
    assert (Hk : (k ≤ length (buffer ++ [span]))%nat) by (unfold k; lia).
    rewrite <- (drop_app_le (buffer ++ [span]) new k Hk).
    rewrite drop_drop, length_drop, <- app_assoc. simpl.
    f_equal. unfold k. rewrite !length_app. simpl. lia.
Qed.

(** C7.  After more than [max_queue_size] enqueues the buffer holds exactly
    [max_queue_size] spans, the most recently enqueued ones in their order:
    each enqueue onto a full buffer dropped the oldest entry. *)
Theorem enqueue_all_queue_bound buffer new :
  (length buffer ≤ max_queue_size)%nat →
  (max_queue_size < length new)%nat →
  length (enqueue_all max_queue_size buffer new) = max_queue_size
  ∧ enqueue_all max_queue_size buffer new = drop (length new - max_queue_size) new.
Proof using max_queue_size_pos.
  intros Hbound Hmany.
  rewrite enqueue_all_keeps_newest by assumption.
  rewrite length_app, drop_app_ge by lia.
  replace (length buffer + length new - max_queue_size - length buffer)%nat
    with (length new - max_queue_size)%nat by lia.
  split; [|reflexivity]. rewrite length_drop. lia.
Qed.

End ExporterProperties.

(** A buffer of two: enqueuing A, B, C in order leaves [B, C]. *)
Lemma enqueue_all_witness :
  length (enqueue_all 2 [] ["A"; "B"; "C"]) = 2%nat
  ∧ enqueue_all 2 [] ["A"; "B"; "C"] = ["B"; "C"].
Proof.
  apply (enqueue_all_queue_bound 2 (le_S 1 1 (le_n 1)) [] ["A"; "B"; "C"]); simpl; lia.
Defined.

(** The buffer of the backend holds 2048 spans. *)
Lemma enqueue_all_backend (A : Type) (new : list A) :
  (maxQueueSize < length new)%nat →
  length (enqueue_all maxQueueSize [] new) = maxQueueSize.
Proof.
  intros Hmany.
  apply (enqueue_all_queue_bound maxQueueSize); [unfold maxQueueSize|simpl|assumption]; lia.
Qed.

(** ** Parent linkage (C8) *)

Lemma fresh_context_id w : span_id (fresh_context w) = next_id w.
Proof. unfold fresh_context. now destruct (active w). Qed.

(** The span of a wrapper call, in the state in which [executeFn] starts. *)
Lemma mcp_entry_span env toolName toolInput metadata w :
  spans (mcp_entry env toolName toolInput metadata w) !! span_id (fresh_context w)
  = Some (new_span ("MCP Tool: " +:+ ToString toolName)
            (mcp_attributes toolName toolInput metadata) w)
  ∧ active (mcp_entry env toolName toolInput metadata w) = Some (fresh_context w).
Proof.
  unfold mcp_entry. run_monad. rewrite fresh_context_id.
  destruct (DEBUG_LOGGING env); simpl; (split; [apply lookup_insert_eq|reflexivity]).
Qed.

Lemma llm_entry_span env provider model request metadata w :
  spans (llm_entry env provider model request metadata w) !! span_id (fresh_context w)
  = Some (new_span ("LLM Call: " +:+ provider +:+ "/" +:+ model)
            (llm_attributes provider model request metadata) w)
  ∧ active (llm_entry env provider model request metadata w) = Some (fresh_context w).
Proof.
  unfold llm_entry. run_monad. rewrite fresh_context_id.
  destruct (DEBUG_LOGGING env); simpl; (split; [apply lookup_insert_eq|reflexivity]).
Qed.

(** A wrapper consults [executeFn] in the entry state only. *)
Lemma traceMCPToolCall_runs_executeFn_at_entry env toolName toolInput f g metadata w :
  f (mcp_entry env toolName toolInput metadata w)
  = g (mcp_entry env toolName toolInput metadata w) →
  traceMCPToolCall env toolName toolInput f metadata w
  = traceMCPToolCall env toolName toolInput g metadata w.
Proof.
  unfold traceMCPToolCall, mcp_entry. run_monad.
  destruct (DEBUG_LOGGING env); simpl; intros ->; reflexivity.
Qed.

Lemma traceLLMCall_runs_executeFn_at_entry env provider model request f g metadata w :
  f (llm_entry env provider model request metadata w)
  = g (llm_entry env provider model request metadata w) →
  traceLLMCall env provider model request f metadata w
  = traceLLMCall env provider model request g metadata w.
Proof.
  unfold traceLLMCall, llm_entry. run_monad.
  destruct (DEBUG_LOGGING env); simpl; intros ->; reflexivity.
Qed.


(** The steps a wrapper takes on its span change neither the context, nor
    the parent, nor the name of a span. *)
Ltac identity_kept id span :=
  unfold identity_of; simpl;
  destruct (decide (span_id span = id)) as [<-|?];
  [ rewrite ?lookup_alter_eq;
    destruct (spans _ !! _) as [[? ? ? ? ? ? ? ? ? [|?]]|]; reflexivity
  | rewrite ?lookup_alter_ne by assumption; reflexivity ].

Lemma traceMCPToolCall_keeps_identity env toolName toolInput executeFn metadata w id :
  identity_of id (traceMCPToolCall env toolName toolInput executeFn metadata w).2
  = identity_of id (executeFn (mcp_entry env toolName toolInput metadata w)).2.
Proof.
  unfold traceMCPToolCall, mcp_entry, substring_method, get_prop. run_monad.
  destruct (DEBUG_LOGGING env); simpl;
    (destruct (executeFn _) as [[result|error] w2]; simpl;
     [destruct (JSON_stringify_value result); simpl|]);
    split_conditions; identity_kept id (fresh_context w).
Qed.

Lemma traceLLMCall_keeps_identity env provider model request executeFn metadata w id :
  identity_of id (traceLLMCall env provider model request executeFn metadata w).2
  = identity_of id (executeFn (llm_entry env provider model request metadata w)).2.
Proof.
  unfold traceLLMCall, llm_entry, constructor_name, get_prop. run_monad.
  destruct (DEBUG_LOGGING env); simpl;
    (destruct (executeFn _) as [[result|error] w2]; simpl;
     [destruct (calculateLLMCost _ _ _ _) as [cost|error]; simpl|];
     try (destruct error as [| | | | | |fields|]; simpl;
          try (destruct (assoc "constructor" fields) as [c|]; simpl)));
    split_conditions; identity_kept id (fresh_context w).
Qed.

(** The wrapper's span, in the state in which [executeFn] starts. *)
Lemma mcp_entry_identity env toolName toolInput metadata w :
  identity_of (span_id (fresh_context w)) (mcp_entry env toolName toolInput metadata w)
  = Some (fresh_context w, span_id <$> active w, "MCP Tool: " +:+ ToString toolName).
Proof.
  unfold identity_of.
  now rewrite (proj1 (mcp_entry_span env toolName toolInput metadata w)).
Qed.

Lemma llm_entry_identity env provider model request metadata w :
  identity_of (span_id (fresh_context w)) (llm_entry env provider model request metadata w)
  = Some (fresh_context w, span_id <$> active w,
          "LLM Call: " +:+ provider +:+ "/" +:+ model).
Proof.
  unfold identity_of.
  now rewrite (proj1 (llm_entry_span env provider model request metadata w)).
Qed.

(** A span with a known identity is the child of its parent. *)
Lemma identity_child_of id w A B name :
  identity_of id w = Some (B, Some (span_id A), name) → trace_id B = trace_id A →
  ∃ s, spans w !! id = Some s ∧ span_context s = B ∧ child_of A s.
Proof.
  unfold identity_of. intros Hid Htrace.
  destruct (spans w !! id) as [s|]; [|discriminate].
  simpl in Hid. injection Hid as Hctx Hparent _.
  exists s. split; [reflexivity|]. split; [exact Hctx|].
  split; [exact Hparent|]. now rewrite Hctx.
Qed.

(** The context of a span started while [A] is active continues the trace
    of [A]. *)
Lemma fresh_context_trace w A : active w = Some A → trace_id (fresh_context w) = trace_id A.
Proof. unfold fresh_context. now intros ->. Qed.

(** C8.  A span B that a wrapper starts while span A is active has
    [parent_span_id = A.span_id] and [trace_id = A.trace_id]: this is the
    span the wrapper leaves behind, whatever [executeFn] returned or threw,
    as long as [executeFn] did not replace it.  The wrapper runs
    [executeFn] with B as the active span: the span C of a wrapper call
    made inside [executeFn] is the child of B. *)
Theorem parent_linkage env w A :
  active w = Some A →
  let B := fresh_context w in
  (∀ toolName toolInput executeFn metadata,
     let w1 := mcp_entry env toolName toolInput metadata w in
     identity_of (span_id B) (executeFn w1).2 = identity_of (span_id B) w1 →
     ∃ sB,
       spans (traceMCPToolCall env toolName toolInput executeFn metadata w).2 !! span_id B
       = Some sB
       ∧ span_context sB = B ∧ child_of A sB)
  ∧
  (∀ provider model request executeFn metadata,
     let w1 := llm_entry env provider model request metadata w in
     identity_of (span_id B) (executeFn w1).2 = identity_of (span_id B) w1 →
     ∃ sB,
       spans (traceLLMCall env provider model request executeFn metadata w).2 !! span_id B
       = Some sB
       ∧ span_context sB = B ∧ child_of A sB)
  ∧
  (∀ toolName toolInput metadata toolName' toolInput' executeFn metadata',
     let w1 := mcp_entry env toolName toolInput metadata w in
     let C := fresh_context w1 in
     let w2 := mcp_entry env toolName' toolInput' metadata' w1 in
     identity_of (span_id C) (executeFn w2).2 = identity_of (span_id C) w2 →
     ∃ sC,
       spans (traceMCPToolCall env toolName toolInput
                (traceMCPToolCall env toolName' toolInput' executeFn metadata')
                metadata w).2 !! span_id C
       = Some sC
       ∧ span_context sC = C ∧ child_of B sC)
  ∧
  (∀ provider model request metadata provider' model' request' executeFn metadata',
     let w1 := llm_entry env provider model request metadata w in
     let C := fresh_context w1 in
     let w2 := llm_entry env provider' model' request' metadata' w1 in
     identity_of (span_id C) (executeFn w2).2 = identity_of (span_id C) w2 →
     ∃ sC,
       spans (traceLLMCall env provider model request
                (traceLLMCall env provider' model' request' executeFn metadata')
                metadata w).2 !! span_id C
       = Some sC
       ∧ span_context sC = C ∧ child_of B sC).
Proof.
  intros Hactive B. subst B. split; [|split; [|split]].
  - intros toolName toolInput executeFn metadata w1 Hkept. subst w1.
    eapply identity_child_of; [|now apply fresh_context_trace].
    rewrite traceMCPToolCall_keeps_identity, Hkept, mcp_entry_identity.
    now rewrite Hactive.
  - intros provider model request executeFn metadata w1 Hkept. subst w1.
    eapply identity_child_of; [|now apply fresh_context_trace].
    rewrite traceLLMCall_keeps_identity, Hkept, llm_entry_identity.
    now rewrite Hactive.
  - intros toolName toolInput metadata toolName' toolInput' executeFn metadata'
      w1 C w2 Hkept. subst w1 C w2.
    destruct (mcp_entry_span env toolName toolInput metadata w) as [_ Hactive1].
    eapply identity_child_of; [|now apply fresh_context_trace].
    rewrite !traceMCPToolCall_keeps_identity, Hkept, mcp_entry_identity.
    now rewrite Hactive1.
  - intros provider model request metadata provider' model' request' executeFn metadata'
      w1 C w2 Hkept. subst w1 C w2.
    destruct (llm_entry_span env provider model request metadata w) as [_ Hactive1].
    eapply identity_child_of; [|now apply fresh_context_trace].
    rewrite !traceLLMCall_keeps_identity, Hkept, llm_entry_identity.
    now rewrite Hactive1.
Qed.

(** The tool [search], called inside the tool [plan], calls the tool
    [lookup]. *)
Lemma parent_linkage_witness :
  let w := mcp_entry ∅ (JStr "plan") (JObj []) no_metadata empty_world in
  let A := fresh_context empty_world in
  let B := fresh_context w in
  let C := fresh_context (mcp_entry ∅ (JStr "search") (JObj []) no_metadata w) in
  let w' :=
    (traceMCPToolCall ∅ (JStr "search") (JObj [])
       (traceMCPToolCall ∅ (JStr "lookup") (JObj []) (mret (JNum 1)) no_metadata)
       no_metadata w).2 in
  active w = Some A
  ∧ (∃ sB,
       spans (traceMCPToolCall ∅ (JStr "search") (JObj []) (mret (JNum 1)) no_metadata w).2
         !! span_id B = Some sB
       ∧ span_context sB = B ∧ child_of A sB)
  ∧ (∃ sC, spans w' !! span_id C = Some sC ∧ span_context sC = C ∧ child_of B sC).
Proof.
  intros w A B C w'.
  assert (Hactive : active w = Some A) by (vm_compute; reflexivity).
  split; [exact Hactive|].
  destruct (parent_linkage ∅ w A Hactive) as (Htool & _ & Hnested & _).
  split.
  - apply (Htool (JStr "search") (JObj []) (mret (JNum 1)) no_metadata). reflexivity.
  - apply (Hnested (JStr "search") (JObj []) no_metadata (JStr "lookup") (JObj [])
             (mret (JNum 1)) no_metadata).
    reflexivity.
Defined.

(** ** The console interception (C9) *)

Lemma intercepted_cases method :
  method ∈ intercepted_methods →
  method = "log" ∨ method = "info" ∨ method = "warn" ∨ method = "error" ∨ method = "debug".
Proof. unfold intercepted_methods. rewrite !elem_of_cons, elem_of_nil. tauto. Qed.


(** C9.  Each of the five intercepted console methods first calls the
    original method with the same arguments.  For [log], [info] and [debug]
    that is all: no span is created.  For [warn] and [error], once the
    original returned, one span named [console.<method>] is started and
    ended at once, with [log.message] cut to 500 code units.  The console
    [instrumentConsole] returns has these five methods and leaves the
    others as they were. *)
Theorem console_interception location_href console method args w :
  method ∈ intercepted_methods →
  (∀ console' w',
     instrumentConsole location_href console w = (Returned console', w') →
     console' method = instrumented_method location_href console method)
  ∧
  (method = "log" ∨ method = "info" ∨ method = "debug" →
   instrumented_method location_href console method args w = console method args w)
  ∧
  (method = "warn" ∨ method = "error" →
   match console method args w with
   | (Thrown e, w1) =>
       instrumented_method location_href console method args w = (Thrown e, w1)
   | (Returned _, w1) =>
       let s := console_span location_href method args w1 in
       instrumented_method location_href console method args w
       = (Returned (), set_next_id (next_id w1 + 1)%N
                         (set_spans (insert (next_id w1) s) w1))
       ∧ span_name s = "console." +:+ method
       ∧ attributes s !! "log.level" = Some (JStr method)
       ∧ attributes s !! "log.message"
         = Some (JStr (String_substring (console_message args) 500))
       ∧ attribute_length "log.message" s
         = Some (Nat.min 500 (String.length (console_message args)))
       ∧ end_calls s = 1%nat
   end).
Proof.
  intros Hin. split; [|split].
  - intros console' w'. unfold instrumentConsole. run_monad.
    match goal with |- context [?m ?msg w] => destruct (m msg w) as [[u|e] w1] end;
      [|discriminate].
    intros [= <- _]. now rewrite bool_decide_eq_true_2.
  - intros Hplain. unfold instrumented_method. run_monad.
    destruct (console method args w) as [[[]|e] w1]; [|reflexivity].
    destruct Hplain as [-> | [-> | ->]]; reflexivity.
  - intros Hnoisy. unfold instrumented_method. run_monad.
    destruct (console method args w) as [[[]|e] w1]; [|reflexivity].
    assert (Hid : span_id (fresh_context w1) = next_id w1) by apply fresh_context_id.
    destruct Hnoisy as [-> | ->]; simpl; rewrite Hid;
      (split; [f_equal; unfold set_spans; simpl; f_equal;
               rewrite alter_insert_eq; reflexivity|]);
      (split; [reflexivity|]); (split; [attr_lookup|]); (split; [attr_lookup|]);
      (split; [|reflexivity]);
      unfold attribute_length; simpl;
      rewrite lookup_insert_ne by discriminate; rewrite lookup_insert_eq;
      unfold String_substring; now rewrite substring_prefix_length.
Qed.

(** [console.warn("slow", { ms: 1200 })] and [console.log("ready")]
    through the interception of the browser's own console. *)
Lemma console_interception_witness :
  let console := instrumented_method "https://chat.example/c/1" console_call in
  (∃ w' s,
     console "warn" [JStr "slow"; JObj [("ms", JNum 1200)]] empty_world = (Returned (), w')
     ∧ console_out w'
       = [mkConsoleCall "warn" [JStr "slow"; JObj [("ms", JNum 1200)]]]
     ∧ spans w' !! 1%N = Some s
     ∧ span_name s = "console.warn"
     ∧ end_calls s = 1%nat)
  ∧ console "log" [JStr "ready"] empty_world
    = console_call "log" [JStr "ready"] empty_world.
Proof.
  intros console. split.
  - pose proof (proj2 (proj2
      (console_interception "https://chat.example/c/1" console_call "warn"
         [JStr "slow"; JObj [("ms", JNum 1200)]] empty_world
         ltac:(unfold intercepted_methods; set_solver))) (or_introl eq_refl))
      as Hwarn.
    simpl in Hwarn.
    destruct Hwarn as (Hrun & Hname & _ & _ & _ & Hend).
    eexists _, _. split; [exact Hrun|].
    split; [reflexivity|]. split; [apply lookup_insert_eq|].
    split; [exact Hname | exact Hend].
  - apply (proj1 (proj2
      (console_interception "https://chat.example/c/1" console_call "log"
         [JStr "ready"] empty_world
         ltac:(unfold intercepted_methods; set_solver)))).
    left. reflexivity.
Defined.

(** ** The MCP client proxy (C10) *)

Lemma isToolCall_spec prop :
  isToolCall prop = true
  ↔ prop = "callTool" ∨ prop = "call_tool" ∨ String.prefix "tool_" prop = true.
Proof.
  unfold isToolCall. rewrite !orb_true_iff, !String.eqb_eq. tauto.
Qed.

Lemma tool_prefix_not_callTool prop :
  String.prefix "tool_" prop = true →
  String.eqb prop "callTool" || String.eqb prop "call_tool" = false.
Proof.
  intros Hprefix. apply orb_false_iff.
  split; apply String.eqb_neq; intros ->; discriminate Hprefix.
Qed.


(** C10, as the code has it.  The proxy answers a property that is not a
    function with the property itself.  Every function-valued property is
    replaced by an [async function]: a call through the proxy returns a
    promise and never throws.  A method is traced exactly when its name is
    [callTool] or [call_tool] or starts with [tool_]: for [callTool] and
    [call_tool] under the first argument as tool name and with the second
    as input, for [tool_...] under the method name and with the first
    argument as input.  Any other method with a string name is called on
    the same arguments, and the promise settles as that call completes:
    for a method that returns a promise the result is the same, but a
    value that a synchronous method returns, or an exception it throws,
    reaches the caller as a promise.  A method under a symbol key is never
    called: the promise is rejected with a TypeError. *)
Theorem instrumentMCPClient_proxy trace mcpClient options w :
  ∃ proxy w',
    instrumentMCPClient trace mcpClient options w = (Returned proxy, w')
    ∧ (∀ prop v, mcpClient prop = Value v → proxy prop = Value v)
    ∧ (∀ name : string,
         isToolCall name = true
         ↔ name = "callTool" ∨ name = "call_tool" ∨ String.prefix "tool_" name = true)
    ∧ (∀ (name : string) f,
         mcpClient name = Method f →
         ∃ g, proxy name = Method g
           ∧ ∀ args,
               (isToolCall name = false → g args = async_function (f args))
               ∧ (name = "callTool" ∨ name = "call_tool" →
                  g args = async_function
                             (traced_call trace options (arg args 0)
                                (js_or (arg args 1) (JObj [])) (f args)))
               ∧ (String.prefix "tool_" name = true →
                  g args = async_function
                             (traced_call trace options (JStr name)
                                (js_or (arg args 0) (JObj [])) (f args)))
               ∧ (∀ w1 v w2,
                    isToolCall name = false → f args w1 = (Returned (Immediate v), w2) →
                    g args w1 = (Returned (Promise (Returned v)), w2)
                    ∧ g args w1 ≠ f args w1)
               ∧ (∀ w1 e w2,
                    isToolCall name = false → f args w1 = (Thrown e, w2) →
                    g args w1 = (Returned (Promise (Thrown e)), w2)
                    ∧ g args w1 ≠ f args w1)
               ∧ (∀ w1 settlement w2,
                    isToolCall name = false →
                    f args w1 = (Returned (Promise settlement), w2) →
                    g args w1 = f args w1))
    ∧ (∀ description f,
         mcpClient (SymbolKey description) = Method f →
         ∃ g message,
           proxy (SymbolKey description) = Method g
           ∧ ∀ args w1, g args w1 = (Returned (Promise (Thrown (TypeError message))), w1)).
Proof.
  eexists _, _. split; [reflexivity|].
  split; [|split; [|split]].
  - intros prop v Hv. unfold proxy_get. now rewrite Hv.
  - intros name. apply isToolCall_spec.
  - intros name f Hf. unfold proxy_get. rewrite Hf.
    eexists. split; [reflexivity|].
    intros args. split; [|split; [|split; [|split; [|split]]]].
    + intros ->. reflexivity.
    + intros Hcall.
      assert (Htool : isToolCall name = true) by (apply isToolCall_spec; tauto).
      rewrite Htool. simpl.
      assert (Heq : String.eqb name "callTool" || String.eqb name "call_tool" = true)
        by (apply orb_true_iff; rewrite !String.eqb_eq; exact Hcall).
      rewrite Heq. reflexivity.
    + intros Hprefix.
      assert (Htool : isToolCall name = true) by (apply isToolCall_spec; tauto).
      rewrite Htool. simpl.
      rewrite (tool_prefix_not_callTool name Hprefix). reflexivity.
    + intros w1 v w2 -> Hcall. simpl. unfold async_function. rewrite Hcall.
      split; [reflexivity|discriminate].
    + intros w1 e w2 -> Hcall. simpl. unfold async_function. rewrite Hcall.
      split; [reflexivity|discriminate].
    + intros w1 settlement w2 -> Hcall. simpl. unfold async_function.
      now rewrite Hcall.
  - intros description f Hf. unfold proxy_get. rewrite Hf.
    eexists _, _. split; [reflexivity|].
    intros args w1. reflexivity.
Qed.

(** Through the proxy, the synchronous [ping()] returns a promise of
    ["pong"] and creates no span;
    [callTool("search_af_elements", { q: "pump" })] is traced under the
    name of the tool. *)
Lemma instrumentMCPClient_example :
  ∃ proxy w1,
    instrumentMCPClient (traceMCPToolCall ∅) example_client default_options empty_world
    = (Returned proxy, w1)
    ∧ proxy "name" = Value (JStr "pi-server")
    ∧ (∃ ping, example_client "ping" = Method ping
               ∧ ping [] w1 = (Returned (Immediate (JStr "pong")), w1))
    ∧ (∃ ping, proxy "ping" = Method ping
               ∧ ping [] w1 = (Returned (Promise (Returned (JStr "pong"))), w1))
    ∧ ∃ w2 s,
        call_method proxy "callTool"
          [JStr "search_af_elements"; JObj [("q", JStr "pump")]] w1
        = (Returned (JObj [("count", JNum 3)]), w2)
        ∧ spans w2 !! 1%N = Some s
        ∧ span_name s = "MCP Tool: search_af_elements"
        ∧ attributes s !! "mcp.server.name" = Some (JStr "MCP Server")
        ∧ attributes s !! "mcp.tool.results_count" = Some (JNum 3).
Proof.
  eexists _, _. split; [reflexivity|]. split; [reflexivity|].
  split; [eexists; split; reflexivity|].
  split; [eexists; split; reflexivity|].
  eexists _, _. split; [vm_compute; reflexivity|]. vm_compute. repeat split.
Qed.

(** The clauses of the proxy theorem at the example client: the property
    [name], the synchronous method [ping], the tool call. *)
Lemma instrumentMCPClient_witness :
  ∃ proxy w1,
    instrumentMCPClient (traceMCPToolCall ∅) example_client default_options empty_world
    = (Returned proxy, w1)
    ∧ proxy "name" = Value (JStr "pi-server")
    ∧ (∃ g, proxy "ping" = Method g
          ∧ g [] w1 = (Returned (Promise (Returned (JStr "pong"))), w1)
          ∧ g [] w1 ≠ (Returned (Immediate (JStr "pong")), w1))
    ∧ (∃ g, proxy "callTool" = Method g
          ∧ g [JStr "search_af_elements"; JObj [("q", JStr "pump")]]
            = async_function
                (traced_call (traceMCPToolCall ∅) default_options
                   (JStr "search_af_elements") (JObj [("q", JStr "pump")])
                   (mret (Promise (Returned (JObj [("count", JNum 3)])))))).
Proof.
  destruct (instrumentMCPClient_proxy (traceMCPToolCall ∅) example_client
              default_options empty_world)
    as (proxy & w1 & Hrun & Hvalue & _ & Hmethod & _).
  exists proxy, w1. split; [exact Hrun|]. split; [|split].
  - apply Hvalue. reflexivity.
  - destruct (Hmethod "ping" _ eq_refl) as (g & Hg & Hcalls).
    exists g. split; [exact Hg|].
    destruct (Hcalls []) as (_ & _ & _ & Hsync & _).
    exact (Hsync w1 (JStr "pong") w1 eq_refl eq_refl).
  - destruct (Hmethod "callTool" _ eq_refl) as (g & Hg & Hcalls).
    exists g. split; [exact Hg|].
    destruct (Hcalls [JStr "search_af_elements"; JObj [("q", JStr "pump")]])
      as (_ & Htool & _).
    apply Htool. left. reflexivity.
Defined.

(* ===================================================================== *)
(** * 9. Further properties of the backend wrappers                      *)
(* ===================================================================== *)

(** ** The active context *)

Section KeepsActive.

Context {A B : Type}.

Lemma keeps_active_ret (a : A) : keeps_active (mret a).
Proof. intros w. reflexivity. Qed.

Lemma keeps_active_throw (e : JsValue) : keeps_active (throw e : M A).
Proof. intros w. reflexivity. Qed.

Lemma keeps_active_lift (o : Outcome A) : keeps_active (lift o).
Proof. intros w. reflexivity. Qed.

Lemma keeps_active_bind (m : M A) (k : A → M B) :
  keeps_active m → (∀ a, keeps_active (k a)) → keeps_active (m ≫= k).
Proof.
  intros Hm Hk w. unfold mbind, M_bind. specialize (Hm w).
  destruct (m w) as [[a|e] w1]; simpl in *.
  - now rewrite Hk.
  - assumption.
Qed.

Lemma keeps_active_try_catch (body : M A) (handler : JsValue → M A) :
  keeps_active body → (∀ e, keeps_active (handler e)) →
  keeps_active (try_catch body handler).
Proof.
  intros Hb Hh w. unfold try_catch. specialize (Hb w).
  destruct (body w) as [[a|e] w1]; simpl in *.
  - assumption.
  - now rewrite Hh.
Qed.

Lemma keeps_active_try_finally (body : M A) (final : M unit) :
  keeps_active body → keeps_active final → keeps_active (try_finally body final).
Proof.
  intros Hb Hf w. unfold try_finally. specialize (Hb w).
  destruct (body w) as [o w1]. specialize (Hf w1).
  destruct (final w1) as [[u|e] w2]; simpl in *; congruence.
Qed.

(** Whatever [fn] does to the context, [context.with] undoes it. *)
Lemma keeps_active_context_with (ctx : option SpanContext) (fn : M A) :
  keeps_active (context_with ctx fn).
Proof. intros w. unfold context_with. now destruct (fn (set_active ctx w)). Qed.

End KeepsActive.

Lemma keeps_active_when c body : keeps_active body → keeps_active (when c body).
Proof. intros Hb. destruct c; [exact Hb|]. apply keeps_active_ret. Qed.

Lemma keeps_active_update_span span f : keeps_active (update_span span f).
Proof. intros w. reflexivity. Qed.

Lemma keeps_active_span_end span : keeps_active (span_end span).
Proof. intros w. reflexivity. Qed.

Lemma keeps_active_startSpan name attrs : keeps_active (tracer_startSpan name attrs).
Proof. intros w. reflexivity. Qed.

Lemma keeps_active_console method args : keeps_active (console_call method args).
Proof. intros w. reflexivity. Qed.

Lemma keeps_active_Date_now : keeps_active Date_now.
Proof. intros w. reflexivity. Qed.

Lemma keeps_active_context_active : keeps_active context_active.
Proof. intros w. reflexivity. Qed.

Create HintDb keeps_active.
#[local] Hint Resolve keeps_active_ret keeps_active_throw keeps_active_lift
  keeps_active_bind keeps_active_try_catch keeps_active_try_finally
  keeps_active_context_with keeps_active_when keeps_active_update_span
  keeps_active_span_end keeps_active_startSpan keeps_active_console
  keeps_active_Date_now keeps_active_context_active : keeps_active.

(** Proves that a body built from the steps above keeps the context. *)
Ltac keeps_active :=
  unfold span_setAttributes, span_setAttribute, span_setStatus,
    span_recordException, console_log, console_error;
  repeat first
    [ apply keeps_active_context_with
    | apply keeps_active_bind; [|intros ?]
    | apply keeps_active_try_finally
    | apply keeps_active_try_catch; [|intros ?]
    | apply keeps_active_when
    | solve [auto with keeps_active] ].

Lemma traceMCPToolCall_keeps_active env toolName toolInput executeFn metadata :
  keeps_active (traceMCPToolCall env toolName toolInput executeFn metadata).
Proof. unfold traceMCPToolCall. keeps_active. Qed.

Lemma traceLLMCall_keeps_active env provider model request executeFn metadata :
  keeps_active (traceLLMCall env provider model request executeFn metadata).
Proof. unfold traceLLMCall. keeps_active. Qed.

(** X1.  Both wrappers give the active context back: on every path, a
    return or a throw of [executeFn], of the wrapper's own code or of its
    catch block, the span that is active after the call is the one that
    was active before it. *)
Theorem wrappers_restore_active_context env w :
  (∀ toolName toolInput executeFn metadata,
     active (traceMCPToolCall env toolName toolInput executeFn metadata w).2 = active w)
  ∧
  (∀ provider model request executeFn metadata,
     active (traceLLMCall env provider model request executeFn metadata w).2 = active w).
Proof.
  split.
  - intros toolName toolInput executeFn metadata.
    apply traceMCPToolCall_keeps_active.
  - intros provider model request executeFn metadata.
    apply traceLLMCall_keeps_active.
Qed.

(** ** The finally block *)

(** Closes a goal on the count of [end()] after the steps of a wrapper:
    the span is open or closed, and each case computes. *)
Ltac count_end_calls Hs :=
  unfold end_calls_of in *; simpl;
  rewrite ?lookup_alter_eq;
  destruct (spans _ !! _) as [[? ? ? ? ? ? ? ? ? [|?]]|]; [| |discriminate Hs];
  simpl in *; injection Hs as <-; reflexivity.

(** X2.  On every path through a wrapper, whatever [executeFn] returned or
    threw and whatever the wrapper's own code then did, the finally block
    calls [end()] on the span of the call exactly once: the count of
    [end()] calls is one more than [executeFn] left it. *)
Theorem wrappers_always_end_span env w :
  let id := span_id (fresh_context w) in
  (∀ toolName toolInput executeFn metadata n,
     end_calls_of id
       (executeFn (mcp_entry env toolName toolInput metadata w)).2 = Some n →
     end_calls_of id
       (traceMCPToolCall env toolName toolInput executeFn metadata w).2 = Some (S n))
  ∧
  (∀ provider model request executeFn metadata n,
     end_calls_of id
       (executeFn (llm_entry env provider model request metadata w)).2 = Some n →
     end_calls_of id
       (traceLLMCall env provider model request executeFn metadata w).2 = Some (S n)).
Proof.
  intros id. subst id. split.
  - intros toolName toolInput executeFn metadata n.
    unfold traceMCPToolCall, mcp_entry, substring_method, get_prop. run_monad.
    destruct (DEBUG_LOGGING env); simpl;
      (destruct (executeFn _) as [[result|error] w2]; simpl; intros Hs;
       [destruct (JSON_stringify_value result); simpl|]);
      split_conditions; count_end_calls Hs.
  - intros provider model request executeFn metadata n.
    unfold traceLLMCall, llm_entry, constructor_name, get_prop. run_monad.
    destruct (DEBUG_LOGGING env); simpl;
      (destruct (executeFn _) as [[result|error] w2]; simpl; intros Hs;
       [destruct (calculateLLMCost _ _ _ _) as [cost|error]; simpl|];
       try (destruct error as [| | | | | |fields|]; simpl;
            try (destruct (assoc "constructor" fields) as [c|]; simpl)));
      split_conditions; count_end_calls Hs.
Qed.

Lemma wrappers_always_end_span_witness :
  end_calls_of 1
    (traceMCPToolCall ∅ (JStr "search") (JObj []) (throw JNull) no_metadata
       empty_world).2
  = Some 1%nat.
Proof.
  apply (proj1 (wrappers_always_end_span ∅ empty_world)
           (JStr "search") (JObj []) (throw JNull) no_metadata 0%nat).
  vm_compute. reflexivity.
Defined.

(** ** Results and exceptions the wrappers do not pass on *)

(** X3.  A tool that resolves with undefined makes [traceMCPToolCall]
    fail: [JSON.stringify(undefined)] is undefined, reading [substring] of
    it throws a TypeError inside the try block, and the wrapper rejects
    with that TypeError although the tool succeeded.  The span is recorded
    as a failure: status ERROR, [mcp.tool.success = false], the TypeError
    as exception. *)
Theorem undefined_result_becomes_TypeError env toolName toolInput executeFn metadata
    w w2 :
  let span := fresh_context w in
  executeFn (mcp_entry env toolName toolInput metadata w) = (Returned JUndefined, w2) →
  span_open span w2 →
  ∃ w' s' message,
    traceMCPToolCall env toolName toolInput executeFn metadata w
    = (Thrown (TypeError message), w')
    ∧ spans w' !! span_id span = Some s'
    ∧ status s' = ERROR
    ∧ attributes s' !! "mcp.tool.success" = Some (JBool false)
    ∧ last (exceptions s') = Some (TypeError message)
    ∧ end_calls s' = 1%nat.
Proof.
  intros span Hexec (s & Hs & Hopen). subst span.
  destruct s as [sc sp sn st se sa ss sm sx n]; simpl in Hopen; subst n.
  unfold traceMCPToolCall, mcp_entry in *. run_monad.
  destruct (DEBUG_LOGGING env); simpl in *; rewrite Hexec; simpl;
    (eexists _, _, _; split; [reflexivity|]);
    (split; [simpl; rewrite !lookup_alter_eq, Hs; reflexivity|]);
    simpl; repeat split; try attr_lookup; apply last_snoc.
Qed.

Lemma undefined_result_witness :
  ∃ w' s' message,
    traceMCPToolCall ∅ (JStr "restart_pump") (JObj []) (mret JUndefined) no_metadata
      empty_world
    = (Thrown (TypeError message), w')
    ∧ spans w' !! 1%N = Some s'
    ∧ status s' = ERROR
    ∧ attributes s' !! "mcp.tool.success" = Some (JBool false)
    ∧ last (exceptions s') = Some (TypeError message)
    ∧ end_calls s' = 1%nat.
Proof.
  apply (undefined_result_becomes_TypeError ∅ (JStr "restart_pump") (JObj [])
           (mret JUndefined) no_metadata empty_world
           (mcp_entry ∅ (JStr "restart_pump") (JObj []) no_metadata empty_world)).
  - reflexivity.
  - eexists. split; [vm_compute; reflexivity | reflexivity].
Defined.

(** X4.  When [executeFn] throws null or undefined, the wrappers do not
    throw it again: reading [error.message] in the catch block throws a
    TypeError, which replaces the thrown value.  Nothing is recorded on the
    span, whose status and exceptions stay as [executeFn] left them; the
    finally block still ends it. *)
Theorem nullish_throw_is_replaced env w thrown w2 s :
  let span := fresh_context w in
  is_nullish thrown = true →
  spans w2 !! span_id span = Some s →
  (∀ toolName toolInput executeFn metadata,
     executeFn (mcp_entry env toolName toolInput metadata w) = (Thrown thrown, w2) →
     ∃ w' s' message,
       traceMCPToolCall env toolName toolInput executeFn metadata w
       = (Thrown (TypeError message), w')
       ∧ spans w' !! span_id span = Some s'
       ∧ status s' = status s ∧ exceptions s' = exceptions s
       ∧ attributes s' = attributes s
       ∧ end_calls s' = S (end_calls s))
  ∧
  (∀ provider model request executeFn metadata,
     executeFn (llm_entry env provider model request metadata w) = (Thrown thrown, w2) →
     ∃ w' s' message,
       traceLLMCall env provider model request executeFn metadata w
       = (Thrown (TypeError message), w')
       ∧ spans w' !! span_id span = Some s'
       ∧ status s' = status s ∧ exceptions s' = exceptions s
       ∧ attributes s' = attributes s
       ∧ end_calls s' = S (end_calls s)).
Proof.
  intros span Hnull Hs. subst span. split.
  - intros toolName toolInput executeFn metadata Hexec.
    unfold traceMCPToolCall, mcp_entry, get_prop in *. run_monad.
    destruct (DEBUG_LOGGING env); simpl in *; rewrite Hexec; simpl; rewrite Hnull; simpl;
      (eexists _, _, _; split; [reflexivity|]);
      (split; [simpl; rewrite !lookup_alter_eq, Hs; reflexivity|]);
      repeat split.
  - intros provider model request executeFn metadata Hexec.
    unfold traceLLMCall, llm_entry, get_prop in *. run_monad.
    destruct (DEBUG_LOGGING env); simpl in *; rewrite Hexec; simpl; rewrite Hnull; simpl;
      (eexists _, _, _; split; [reflexivity|]);
      (split; [simpl; rewrite !lookup_alter_eq, Hs; reflexivity|]);
      repeat split.
Qed.

Lemma nullish_throw_witness :
  ∃ w' s' message,
    traceMCPToolCall ∅ (JStr "search") (JObj []) (throw JNull) no_metadata empty_world
    = (Thrown (TypeError message), w')
    ∧ spans w' !! 1%N = Some s'
    ∧ status s' = UNSET ∧ exceptions s' = []
    ∧ attributes s' = set_all (mcp_attributes (JStr "search") (JObj []) no_metadata) ∅
    ∧ end_calls s' = 1%nat.
Proof.
  assert (Hs : spans (mcp_entry ∅ (JStr "search") (JObj []) no_metadata empty_world)
                 !! span_id (fresh_context empty_world)
               = Some (new_span "MCP Tool: search"
                         (mcp_attributes (JStr "search") (JObj []) no_metadata)
                         empty_world))
    by apply mcp_entry_span.
  apply (proj1 (nullish_throw_is_replaced ∅ empty_world JNull
                  (mcp_entry ∅ (JStr "search") (JObj []) no_metadata empty_world)
                  _ eq_refl Hs)
           (JStr "search") (JObj []) (throw JNull) no_metadata).
  reflexivity.
Defined.

(** ** Usage, cost and finish reason of a model call *)

Lemma pricing_eqb_eq a b : pricing_eqb a b = true → a = b.
Proof.
  destruct a as [[pn pd] [cn cd]], b as [[pn' pd'] [cn' cd']]. unfold pricing_eqb. simpl.
  rewrite !andb_true_iff, !Z.eqb_eq, !Pos.eqb_eq. intros [[[-> ->] ->] ->]. reflexivity.
Qed.

Lemma pricing_table_known :
  map_Forall (λ _ models,
    map_Forall (λ _ mp, existsb (pricing_eqb mp) known_pricings = true) models)
    pricing.
Proof. apply (bool_decide_unpack _). vm_compute. exact I. Qed.

(** A price the lookup finds is an entry of the table or the default
    pair. *)
Lemma lookup_pricing_known provider model mp :
  lookup_pricing provider model = PriceObject mp → In mp known_pricings.
Proof.
  assert (Hin : ∀ mp, existsb (pricing_eqb mp) known_pricings = true →
                      In mp known_pricings).
  { intros mp0 H. apply existsb_exists in H as (mp' & Hin & Heq).
    now rewrite (pricing_eqb_eq mp0 mp' Heq). }
  assert (Hdefault : In default_pricing known_pricings) by (apply Hin; reflexivity).
  unfold lookup_pricing, lookup_provider.
  destruct (pricing !! provider) as [models|] eqn:Hprovider.
  - destruct (models !! model) as [mp0|] eqn:Hmodel.
    + intros [= <-]. apply Hin.
      exact (pricing_table_known provider models Hprovider model mp0 Hmodel).
    + destruct (_ || _); [discriminate|]. now intros [= <-].
  - repeat match goal with
           | |- context [if ?b then _ else _] => destruct b
           | |- context [match ?o with Some _ => _ | None => _ end] => destruct o
           end;
      first [discriminate | now intros [= <-]].
Qed.

(** No tokens cost nothing at every price. *)
Lemma calculateLLMCost_zero provider model mp :
  lookup_pricing provider model = PriceObject mp →
  calculateLLMCost provider model 0%float 0%float = Returned 0%float.
Proof.
  intros Hlookup. pose proof (lookup_pricing_known provider model mp Hlookup) as Hknown.
  unfold calculateLLMCost. rewrite Hlookup.
  destruct Hknown as [<-|[<-|[<-|[<-|[<-|[<-|[<-|[]]]]]]]]; vm_compute; reflexivity.
Qed.

(** The cost function returns unless the lookup throws. *)
Lemma calculateLLMCost_returns provider model promptTokens completionTokens :
  lookup_pricing provider model ≠ Restricted →
  ∃ cost, calculateLLMCost provider model promptTokens completionTokens = Returned cost.
Proof.
  unfold calculateLLMCost. destruct (lookup_pricing provider model); intros Hlookup.
  - eexists. reflexivity.
  - eexists. reflexivity.
  - now destruct Hlookup.
Qed.

(** All the attributes of the success path of [traceLLMCall]. *)
Lemma traceLLMCall_records env provider model request executeFn metadata w
    result w2 s cost :
  let span := fresh_context w in
  let usage := default (mkUsage None None None) (usage result) in
  let promptTokens := num_or (prompt_tokens usage) 0 in
  let completionTokens := num_or (completion_tokens usage) 0 in
  let totalTokens := num_or (total_tokens usage) (promptTokens + completionTokens) in
  executeFn (llm_entry env provider model request metadata w) = (Returned result, w2) →
  spans w2 !! span_id span = Some s → end_calls s = 0%nat →
  calculateLLMCost provider model promptTokens completionTokens = Returned cost →
  ∃ w' s',
    traceLLMCall env provider model request executeFn metadata w = (Returned result, w')
    ∧ spans w' !! span_id span = Some s'
    ∧ status s' = OK
    ∧ attributes s' !! "llm.response.prompt_tokens" = Some (JNum promptTokens)
    ∧ attributes s' !! "llm.response.completion_tokens" = Some (JNum completionTokens)
    ∧ attributes s' !! "llm.response.total_tokens" = Some (JNum totalTokens)
    ∧ attributes s' !! "llm.response.finish_reason"
      = Some (js_or (first_finish_reason result) (JStr "unknown"))
    ∧ attributes s' !! "llm.response.latency_ms" = Some (JNum (clock w2 - clock w))
    ∧ attributes s' !! "llm.response.estimated_cost" = Some (JNum cost)
    ∧ end_calls s' = 1%nat.
Proof.
  intros span usage0 promptTokens completionTokens totalTokens Hexec Hs Hopen Hcost.
  subst span usage0 promptTokens completionTokens totalTokens.
  destruct s as [sc sp sn st se sa ss sm sx n]; simpl in Hopen; subst n.
  unfold traceLLMCall, llm_entry in *. run_monad.
  destruct (DEBUG_LOGGING env); simpl in *; rewrite Hexec; simpl; rewrite Hcost; simpl;
    (eexists _, _; split; [reflexivity|]);
    (split; [simpl; rewrite !lookup_alter_eq, Hs; reflexivity|]);
    simpl; repeat split; attr_lookup.
Qed.

(** X5.  A response without [usage] and without [choices] is returned as
    it is and recorded with 0 prompt, completion and total tokens and the
    finish reason ['unknown'].  The estimated cost is 0 when the price
    lookup finds a price, an entry of the table or the default pair; it is
    NaN when the lookup finds an inherited member instead, as for the
    model [toString] of a provider of the table. *)
Theorem missing_usage_defaults env provider model request executeFn metadata w w2 :
  let result := mkResponse None None in
  let span := fresh_context w in
  executeFn (llm_entry env provider model request metadata w) = (Returned result, w2) →
  span_open span w2 →
  lookup_pricing provider model ≠ Restricted →
  ∃ w' s' cost,
    traceLLMCall env provider model request executeFn metadata w = (Returned result, w')
    ∧ spans w' !! span_id span = Some s'
    ∧ attributes s' !! "llm.response.prompt_tokens" = Some (JNum 0)
    ∧ attributes s' !! "llm.response.completion_tokens" = Some (JNum 0)
    ∧ attributes s' !! "llm.response.total_tokens" = Some (JNum 0)
    ∧ attributes s' !! "llm.response.finish_reason" = Some (JStr "unknown")
    ∧ attributes s' !! "llm.response.estimated_cost" = Some (JNum cost)
    ∧ (∀ mp, lookup_pricing provider model = PriceObject mp → cost = 0%float)
    ∧ (lookup_pricing provider model = NotAPrice → is_nan cost = true).
Proof.
  intros result span Hexec (s & Hs & Hopen) Hlookup.
  destruct (calculateLLMCost_returns provider model 0 0 Hlookup) as [cost Hcost].
  destruct (traceLLMCall_records env provider model request executeFn metadata w
              result w2 s cost Hexec Hs Hopen Hcost)
    as (w' & s' & Hrun & Hs' & _ & Hp & Hc & Ht & Hf & _ & Hcost' & _).
  exists w', s', cost.
  split; [exact Hrun|]. split; [exact Hs'|].
  split; [exact Hp|]. split; [exact Hc|]. split; [exact Ht|].
  split; [exact Hf|]. split; [exact Hcost'|]. split.
  - intros mp Hprice.
    pose proof (calculateLLMCost_zero provider model mp Hprice) as Hzero.
    rewrite Hcost in Hzero. now injection Hzero.
  - intros Hmember.
    destruct (cost_of_NotAPrice provider model 0 0 Hmember) as (cost' & Hcost'' & Hnan).
    rewrite Hcost in Hcost''. injection Hcost'' as <-.
    exact (proj1 (nan_below_nothing cost Hnan)).
Qed.

(** A provider that the table does not have, and the model [toString] of
    a provider that it has. *)
Lemma missing_usage_witness :
  (∃ w' s',
     traceLLMCall ∅ "mistral" "large" (mkRequest None JUndefined JUndefined JUndefined)
       (mret (mkResponse None None)) no_metadata empty_world
     = (Returned (mkResponse None None), w')
     ∧ spans w' !! 1%N = Some s'
     ∧ attributes s' !! "llm.response.total_tokens" = Some (JNum 0)
     ∧ attributes s' !! "llm.response.estimated_cost" = Some (JNum 0)
     ∧ attributes s' !! "llm.response.finish_reason" = Some (JStr "unknown"))
  ∧
  (∃ w' s' cost,
     traceLLMCall ∅ "openai" "toString" (mkRequest None JUndefined JUndefined JUndefined)
       (mret (mkResponse None None)) no_metadata empty_world
     = (Returned (mkResponse None None), w')
     ∧ spans w' !! 1%N = Some s'
     ∧ attributes s' !! "llm.response.estimated_cost" = Some (JNum cost)
     ∧ is_nan cost = true).
Proof.
  split.
  - destruct (missing_usage_defaults ∅ "mistral" "large"
                (mkRequest None JUndefined JUndefined JUndefined)
                (mret (mkResponse None None) : M LLMResponse) no_metadata empty_world
                (llm_entry ∅ "mistral" "large"
                   (mkRequest None JUndefined JUndefined JUndefined)
                   no_metadata empty_world))
      as (w' & s' & cost & Hrun & Hs' & _ & _ & Ht & Hf & Hcost & Hzero & _).
    + reflexivity.
    + eexists. split; [vm_compute; reflexivity | reflexivity].
    + vm_compute. discriminate.
    + exists w', s'. split; [exact Hrun|]. split; [exact Hs'|]. split; [exact Ht|].
      split; [|exact Hf].
      rewrite Hcost, (Hzero default_pricing); [reflexivity|].
      vm_compute. reflexivity.
  - destruct (missing_usage_defaults ∅ "openai" "toString"
                (mkRequest None JUndefined JUndefined JUndefined)
                (mret (mkResponse None None) : M LLMResponse) no_metadata empty_world
                (llm_entry ∅ "openai" "toString"
                   (mkRequest None JUndefined JUndefined JUndefined)
                   no_metadata empty_world))
      as (w' & s' & cost & Hrun & Hs' & _ & _ & _ & _ & Hcost & _ & Hnan).
    + reflexivity.
    + eexists. split; [vm_compute; reflexivity | reflexivity].
    + vm_compute. discriminate.
    + exists w', s', cost. split; [exact Hrun|]. split; [exact Hs'|].
      split; [exact Hcost|]. apply Hnan. vm_compute. reflexivity.
Defined.

(** X6.  The total the provider reports wins over the sum: a
    [usage.total_tokens] that is a Number other than 0 and NaN is recorded
    as it is, even when it differs from prompt plus completion tokens; a
    missing, zero or NaN total is replaced by the sum of the two counts
    (each 0 when missing).  This is so whenever the price lookup does not
    throw; it throws only for the inherited properties [arguments] and
    [caller] of a provider that names a function of [Object.prototype]. *)
Theorem total_tokens_reported_or_summed env provider model request executeFn metadata
    w w2 prompt_count completion_count total choices :
  let result := mkResponse (Some (mkUsage prompt_count completion_count total)) choices in
  let span := fresh_context w in
  let sum := (num_or prompt_count 0 + num_or completion_count 0)%float in
  executeFn (llm_entry env provider model request metadata w) = (Returned result, w2) →
  span_open span w2 →
  lookup_pricing provider model ≠ Restricted →
  ∃ w' s' recorded,
    traceLLMCall env provider model request executeFn metadata w = (Returned result, w')
    ∧ spans w' !! span_id span = Some s'
    ∧ attributes s' !! "llm.response.total_tokens" = Some (JNum recorded)
    ∧ (∀ reported, total = Some reported → ToBoolean (JNum reported) = true →
       recorded = reported)
    ∧ (∀ reported, total = Some reported → ToBoolean (JNum reported) = false →
       recorded = sum)
    ∧ (total = None → recorded = sum).
Proof.
  intros result span sum Hexec (s & Hs & Hopen) Hlookup.
  destruct (calculateLLMCost_returns provider model
              (num_or prompt_count 0) (num_or completion_count 0) Hlookup)
    as [cost Hcost].
  destruct (traceLLMCall_records env provider model request executeFn metadata w
              result w2 s cost Hexec Hs Hopen Hcost)
    as (w' & s' & Hrun & Hs' & _ & _ & _ & Ht & _).
  exists w', s'. eexists.
  split; [exact Hrun|]. split; [exact Hs'|]. split; [exact Ht|].
  split; [|split].
  - intros reported -> Htruthy. change (num_or (Some reported) sum = reported).
    unfold num_or. now rewrite Htruthy.
  - intros reported -> Hfalsy. change (num_or (Some reported) sum = sum).
    unfold num_or. now rewrite Hfalsy.
  - intros ->. reflexivity.
Qed.

(** The provider reports 300 tokens for 150 + 75. *)
Lemma total_tokens_witness :
  let result := mkResponse (Some (mkUsage (Some 150%float) (Some 75%float)
                                          (Some 300%float))) None in
  ∃ w' s',
    traceLLMCall ∅ "openai" "gpt-4" (mkRequest None JUndefined JUndefined JUndefined)
      (mret result) no_metadata empty_world = (Returned result, w')
    ∧ spans w' !! 1%N = Some s'
    ∧ attributes s' !! "llm.response.total_tokens" = Some (JNum 300).
Proof.
  intros result.
  destruct (total_tokens_reported_or_summed ∅ "openai" "gpt-4"
              (mkRequest None JUndefined JUndefined JUndefined)
              (mret result : M LLMResponse) no_metadata empty_world
              (llm_entry ∅ "openai" "gpt-4"
                 (mkRequest None JUndefined JUndefined JUndefined) no_metadata empty_world)
              (Some 150%float) (Some 75%float) (Some 300%float) None)
    as (w' & s' & recorded & Hrun & Hs' & Ht & Hreported & _).
  - reflexivity.
  - eexists. split; [vm_compute; reflexivity | reflexivity].
  - vm_compute. discriminate.
  - exists w', s'. split; [exact Hrun|]. split; [exact Hs'|].
    rewrite Ht. now rewrite (Hreported 300%float eq_refl eq_refl).
Defined.

(** With the provider [toString] and the model [caller] the price lookup
    throws: the wrapper rejects with a TypeError although the model call
    returned. *)
Lemma restricted_lookup_fails_the_call :
  ∃ message w',
    traceLLMCall ∅ "toString" "caller" (mkRequest None JUndefined JUndefined JUndefined)
      (mret (mkResponse None None)) no_metadata empty_world
    = (Thrown (TypeError message), w').
Proof. eexists _, _. vm_compute. reflexivity. Qed.

(** ** Correlation attributes *)

(** Reads an attribute, present or not, from a chain of insertions. *)
Ltac attr_lookup_opt :=
  repeat first [ apply lookup_insert_eq | rewrite lookup_insert_ne by discriminate ];
  try apply lookup_empty.

(** The steps a wrapper takes on its span after [executeFn] write under
    the keys of [result_attribute] only. *)
Ltac attribute_kept id key Hkey span :=
  unfold attribute_of; simpl;
  destruct (decide (span_id span = id)) as [<-|?];
  [ rewrite ?lookup_alter_eq;
    destruct (spans _ !! _) as [[? ? ? ? ? ? ? ? ? [|?]]|]; simpl;
    rewrite ?lookup_insert_ne by (intros <-; discriminate Hkey); reflexivity
  | rewrite ?lookup_alter_ne by assumption; reflexivity ].

Lemma traceMCPToolCall_keeps_attribute env toolName toolInput executeFn metadata w id key :
  result_attribute key = false →
  attribute_of id key (traceMCPToolCall env toolName toolInput executeFn metadata w).2
  = attribute_of id key (executeFn (mcp_entry env toolName toolInput metadata w)).2.
Proof.
  intros Hkey.
  unfold traceMCPToolCall, mcp_entry, substring_method, get_prop. run_monad.
  destruct (DEBUG_LOGGING env); simpl;
    (destruct (executeFn _) as [[result|error] w2]; simpl;
     [destruct (JSON_stringify_value result); simpl|]);
    split_conditions; attribute_kept id key Hkey (fresh_context w).
Qed.

Lemma traceLLMCall_keeps_attribute env provider model request executeFn metadata w id key :
  result_attribute key = false →
  attribute_of id key (traceLLMCall env provider model request executeFn metadata w).2
  = attribute_of id key (executeFn (llm_entry env provider model request metadata w)).2.
Proof.
  intros Hkey.
  unfold traceLLMCall, llm_entry, constructor_name, get_prop. run_monad.
  destruct (DEBUG_LOGGING env); simpl;
    (destruct (executeFn _) as [[result|error] w2]; simpl;
     [destruct (calculateLLMCost _ _ _ _) as [cost|error]; simpl|];
     try (destruct error as [| | | | | |fields|]; simpl;
          try (destruct (assoc "constructor" fields) as [c|]; simpl)));
    split_conditions; attribute_kept id key Hkey (fresh_context w).
Qed.

(** The attributes a wrapper's span starts with. *)
Lemma mcp_entry_attribute env toolName toolInput metadata w key :
  attribute_of (span_id (fresh_context w)) key
    (mcp_entry env toolName toolInput metadata w)
  = Some (set_all (mcp_attributes toolName toolInput metadata) ∅ !! key).
Proof.
  unfold attribute_of.
  now rewrite (proj1 (mcp_entry_span env toolName toolInput metadata w)).
Qed.

Lemma llm_entry_attribute env provider model request metadata w key :
  attribute_of (span_id (fresh_context w)) key
    (llm_entry env provider model request metadata w)
  = Some (set_all (llm_attributes provider model request metadata) ∅ !! key).
Proof.
  unfold attribute_of.
  now rewrite (proj1 (llm_entry_span env provider model request metadata w)).
Qed.

(** X7.  The span a wrapper leaves behind carries a correlation attribute
    exactly when the corresponding field of [metadata] is truthy:
    [conversation.id], [user.id] and [mcp.server.name] (tool calls) or
    [llm.endpoint] (model calls) hold the field's value, a string, a
    number or a boolean, and are absent for a field that is missing, null,
    empty, 0 or false.  [executeFn] is taken not to set attributes on the
    wrapper's span. *)
Theorem correlation_attributes_iff_truthy env w metadata :
  let id := span_id (fresh_context w) in
  let optional v := if ToBoolean v then Some v else None in
  forallb correlation_value
    [conversationId metadata; userId metadata; mcpServerName metadata; endpoint metadata]
  = true →
  (∀ toolName toolInput executeFn,
     let w1 := mcp_entry env toolName toolInput metadata w in
     (∀ key, attribute_of id key (executeFn w1).2 = attribute_of id key w1) →
     ∃ s',
       spans (traceMCPToolCall env toolName toolInput executeFn metadata w).2 !! id
       = Some s'
       ∧ attributes s' !! "conversation.id" = optional (conversationId metadata)
       ∧ attributes s' !! "user.id" = optional (userId metadata)
       ∧ attributes s' !! "mcp.server.name" = optional (mcpServerName metadata))
  ∧
  (∀ provider model request executeFn,
     let w1 := llm_entry env provider model request metadata w in
     (∀ key, attribute_of id key (executeFn w1).2 = attribute_of id key w1) →
     ∃ s',
       spans (traceLLMCall env provider model request executeFn metadata w).2 !! id
       = Some s'
       ∧ attributes s' !! "conversation.id" = optional (conversationId metadata)
       ∧ attributes s' !! "user.id" = optional (userId metadata)
       ∧ attributes s' !! "llm.endpoint" = optional (endpoint metadata)).
Proof.
  intros id optional _. subst id optional. split.
  - intros toolName toolInput executeFn w1 Hkept. subst w1.
    pose proof (λ key Hkey,
                  eq_trans
                    (traceMCPToolCall_keeps_attribute env toolName toolInput executeFn
                       metadata w (span_id (fresh_context w)) key Hkey)
                    (eq_trans (Hkept key)
                       (mcp_entry_attribute env toolName toolInput metadata w key)))
      as Hfinal.
    pose proof (Hfinal "conversation.id" eq_refl) as Hconversation.
    pose proof (Hfinal "user.id" eq_refl) as Huser.
    pose proof (Hfinal "mcp.server.name" eq_refl) as Hserver.
    unfold attribute_of in Hconversation, Huser, Hserver.
    destruct (spans _ !! _) as [s'|]; [|discriminate].
    simpl in *. injection Hconversation as Hconversation. injection Huser as Huser.
    injection Hserver as Hserver.
    exists s'. split; [reflexivity|]. rewrite Hconversation, Huser, Hserver.
    unfold mcp_attributes, spread_if. simpl.
    destruct (ToBoolean (conversationId metadata)),
             (ToBoolean (userId metadata)),
             (ToBoolean (mcpServerName metadata)); simpl;
      (split; [|split]); attr_lookup_opt.
  - intros provider model request executeFn w1 Hkept. subst w1.
    pose proof (λ key Hkey,
                  eq_trans
                    (traceLLMCall_keeps_attribute env provider model request executeFn
                       metadata w (span_id (fresh_context w)) key Hkey)
                    (eq_trans (Hkept key)
                       (llm_entry_attribute env provider model request metadata w key)))
      as Hfinal.
    pose proof (Hfinal "conversation.id" eq_refl) as Hconversation.
    pose proof (Hfinal "user.id" eq_refl) as Huser.
    pose proof (Hfinal "llm.endpoint" eq_refl) as Hendpoint.
    unfold attribute_of in Hconversation, Huser, Hendpoint.
    destruct (spans _ !! _) as [s'|]; [|discriminate].
    simpl in *. injection Hconversation as Hconversation. injection Huser as Huser.
    injection Hendpoint as Hendpoint.
    exists s'. split; [reflexivity|]. rewrite Hconversation, Huser, Hendpoint.
    unfold llm_attributes, spread_if. simpl.
    destruct (ToBoolean (conversationId metadata)),
             (ToBoolean (userId metadata)),
             (ToBoolean (endpoint metadata)); simpl;
      (split; [|split]); attr_lookup_opt.
Qed.

(** A tool call with a conversation id and an empty user id. *)
Lemma correlation_attributes_witness :
  ∃ s',
    spans (traceMCPToolCall ∅ (JStr "search") (JObj []) (mret (JNum 1))
             (mkMetadata (JStr "conv-1") (JStr "") JUndefined JUndefined)
             empty_world).2 !! 1%N = Some s'
    ∧ attributes s' !! "conversation.id" = Some (JStr "conv-1")
    ∧ attributes s' !! "user.id" = None
    ∧ attributes s' !! "mcp.server.name" = None.
Proof.
  apply (proj1 (correlation_attributes_iff_truthy ∅ empty_world
                  (mkMetadata (JStr "conv-1") (JStr "") JUndefined JUndefined) eq_refl)
           (JStr "search") (JObj []) (mret (JNum 1))).
  intros key. reflexivity.
Defined.

(* ===================================================================== *)
(** * 10. Properties of the mcp-tracing helpers                          *)
(* ===================================================================== *)

(** ** traceMCPConnection *)

(** X8.  With tracing enabled, [traceMCPConnection] is transparent: it
    returns what [connectFn] returned, with the span ended once, status OK
    and [mcp.connection.success = true]; and when [connectFn] throws an
    error it throws the same error, with status ERROR, the error's message
    and the error recorded on the span. *)
Theorem traceMCPConnection_transparent env serverName serverUrl connectFn w :
  let span := fresh_context w in
  let w1 := connection_entry serverName serverUrl w in
  (∀ result w2,
     connectFn w1 = (Returned result, w2) → span_open span w2 →
     ∃ w' s',
       traceMCPConnection (enabled_exports env) serverName serverUrl connectFn w
       = (Returned result, w')
       ∧ spans w' !! span_id span = Some s'
       ∧ status s' = OK
       ∧ attributes s' !! "mcp.connection.success" = Some (JBool true)
       ∧ end_calls s' = 1%nat)
  ∧
  (∀ ctor message w2,
     connectFn w1 = (Thrown (JErr ctor message), w2) → span_open span w2 →
     ∃ w' s',
       traceMCPConnection (enabled_exports env) serverName serverUrl connectFn w
       = (Thrown (JErr ctor message), w')
       ∧ spans w' !! span_id span = Some s'
       ∧ status s' = ERROR
       ∧ status_message s' = JStr message
       ∧ last (exceptions s') = Some (JErr ctor message)
       ∧ attributes s' !! "mcp.connection.success" = Some (JBool false)
       ∧ end_calls s' = 1%nat).
Proof.
  intros span w1. subst span w1. split.
  - intros result w2 Hexec (s & Hs & Hopen).
    destruct s as [sc sp sn st se sa ss sm sx n]; simpl in Hopen; subst n.
    unfold traceMCPConnection, connection_entry, startSpan in *. simpl. run_monad.
    simpl in *. rewrite Hexec. simpl.
    eexists _, _. split; [reflexivity|].
    split; [simpl; rewrite !lookup_alter_eq, Hs; reflexivity|].
    simpl. repeat split; attr_lookup.
  - intros ctor message w2 Hexec (s & Hs & Hopen).
    destruct s as [sc sp sn st se sa ss sm sx n]; simpl in Hopen; subst n.
    unfold traceMCPConnection, connection_entry, startSpan in *. simpl. run_monad.
    simpl in *. rewrite Hexec. simpl.
    eexists _, _. split; [reflexivity|].
    split; [simpl; rewrite !lookup_alter_eq, Hs; reflexivity|].
    simpl. repeat split; try attr_lookup. apply last_snoc.
Qed.

(** A connection that succeeds with [{ ok: true }]. *)
Lemma traceMCPConnection_witness :
  ∃ w' s',
    traceMCPConnection (enabled_exports ∅) (JStr "PI System")
      (JStr "https://pi.example/mcp") (mret (JObj [("ok", JBool true)])) empty_world
    = (Returned (JObj [("ok", JBool true)]), w')
    ∧ spans w' !! 1%N = Some s'
    ∧ status s' = OK
    ∧ attributes s' !! "mcp.connection.success" = Some (JBool true)
    ∧ end_calls s' = 1%nat.
Proof.
  apply (proj1 (traceMCPConnection_transparent ∅ (JStr "PI System")
                  (JStr "https://pi.example/mcp")
                  (mret (JObj [("ok", JBool true)])) empty_world)
           (JObj [("ok", JBool true)])
           (connection_entry (JStr "PI System") (JStr "https://pi.example/mcp")
              empty_world)).
  - reflexivity.
  - eexists. split; [vm_compute; reflexivity | reflexivity].
Defined.

(** [traceMCPConnection] consults [connectFn] in the entry state only. *)
Lemma traceMCPConnection_runs_connectFn_at_entry env serverName serverUrl f g w :
  f (connection_entry serverName serverUrl w) = g (connection_entry serverName serverUrl w) →
  traceMCPConnection (enabled_exports env) serverName serverUrl f w
  = traceMCPConnection (enabled_exports env) serverName serverUrl g w.
Proof.
  unfold traceMCPConnection, connection_entry, startSpan. simpl. run_monad. simpl.
  intros ->. reflexivity.
Qed.

(** What [traceMCPConnection] does after [connectFn] changes neither the
    context nor the parent of a span. *)
Lemma traceMCPConnection_keeps_identity env serverName serverUrl connectFn w id :
  identity_of id
    (traceMCPConnection (enabled_exports env) serverName serverUrl connectFn w).2
  = identity_of id (connectFn (connection_entry serverName serverUrl w)).2.
Proof.
  unfold traceMCPConnection, connection_entry, startSpan, get_prop. simpl. run_monad.
  simpl. destruct (connectFn _) as [[result|error] w2]; simpl;
    split_conditions; identity_kept id (fresh_context w).
Qed.

(** X9.  [traceMCPConnection] does not make its span active: [connectFn]
    runs with the active context of the caller.  The span of a tool call
    made inside [connectFn] is therefore, when the connection returns, a
    child of the caller's active span (a root span when there is none),
    never of the connection span. *)
Theorem connection_span_is_not_parent env serverName serverUrl w
    toolName toolInput executeFn metadata :
  let connection := fresh_context w in
  let w1 := connection_entry serverName serverUrl w in
  let tool := fresh_context w1 in
  let w2 := mcp_entry env toolName toolInput metadata w1 in
  span_id <$> active w ≠ Some (span_id connection) →
  identity_of (span_id tool) (executeFn w2).2 = identity_of (span_id tool) w2 →
  ∃ s,
    spans (traceMCPConnection (enabled_exports env) serverName serverUrl
             (traceMCPToolCall env toolName toolInput executeFn metadata) w).2
      !! span_id tool = Some s
    ∧ span_context s = tool
    ∧ parent_span_id s = span_id <$> active w
    ∧ parent_span_id s ≠ Some (span_id connection).
Proof.
  intros connection w1 tool w2 Hfresh Hkept. subst connection w1 tool w2.
  assert (Hid : identity_of (span_id (fresh_context (connection_entry serverName serverUrl w)))
                  (traceMCPConnection (enabled_exports env) serverName serverUrl
                     (traceMCPToolCall env toolName toolInput executeFn metadata) w).2
                = Some (fresh_context (connection_entry serverName serverUrl w),
                        span_id <$> active w, "MCP Tool: " +:+ ToString toolName)).
  { rewrite traceMCPConnection_keeps_identity, traceMCPToolCall_keeps_identity, Hkept.
    rewrite mcp_entry_identity. reflexivity. }
  unfold identity_of in Hid.
  destruct (spans _ !! _) as [s|]; [|discriminate].
  simpl in Hid. injection Hid as Hctx Hparent _.
  exists s. split; [reflexivity|]. split; [exact Hctx|].
  split; [exact Hparent|]. now rewrite Hparent.
Qed.

(** A connection that calls the tool [search] while it connects. *)
Lemma connection_span_witness :
  ∃ s,
    spans (traceMCPConnection (enabled_exports ∅) (JStr "PI System")
             (JStr "https://pi.example/mcp")
             (traceMCPToolCall ∅ (JStr "search") (JObj []) (mret (JNum 1)) no_metadata)
             empty_world).2 !! 2%N = Some s
    ∧ span_context s = mkSpanContext 2 2
    ∧ parent_span_id s = None
    ∧ parent_span_id s ≠ Some 1%N.
Proof.
  apply (connection_span_is_not_parent ∅ (JStr "PI System")
           (JStr "https://pi.example/mcp") empty_world (JStr "search") (JObj [])
           (mret (JNum 1)) no_metadata).
  - discriminate.
  - reflexivity.
Defined.

(** ** The helpers on top of the disabled module *)

(** X10.  With tracing disabled, [traceMCPConnection] runs [connectFn] and
    then always fails: the stub span has no [setAttributes], so the call of
    it throws a TypeError, in the try block after a successful connection
    and in the catch block after a failed one.  The caller gets a TypeError
    whatever [connectFn] did, in the state [connectFn] left. *)
Theorem traceMCPConnection_disabled_always_throws env w0 :
  ENABLE_OTEL env = false →
  ∃ exports w0',
    otel_module env w0 = (Returned exports, w0')
    ∧ ∀ serverName serverUrl connectFn w,
      ∃ message,
        traceMCPConnection exports serverName serverUrl connectFn w
        = (Thrown (TypeError message), (connectFn w).2).
Proof.
  intros Hoff. unfold otel_module. rewrite Hoff. simpl.
  eexists _, _. split; [reflexivity|].
  intros serverName serverUrl connectFn w.
  unfold traceMCPConnection, get_prop. simpl. run_monad. simpl.
  destruct (connectFn w) as [[result|error] w1]; simpl.
  - eexists. reflexivity.
  - destruct (is_nullish error); simpl; eexists; reflexivity.
Qed.

(** The connection succeeds, and the caller still gets a TypeError. *)
Lemma traceMCPConnection_disabled_witness :
  ∃ exports w0',
    otel_module ∅ empty_world = (Returned exports, w0')
    ∧ ∃ message,
        traceMCPConnection exports (JStr "PI System") (JStr "https://pi.example/mcp")
          (console_log [JStr "connected"];; mret (JObj [("ok", JBool true)])) w0'
        = (Thrown (TypeError message),
           set_console_out
             (console_out w0' ++ [mkConsoleCall "log" [JStr "connected"]]) w0').
Proof.
  assert (Hoff : ENABLE_OTEL ∅ = false) by (vm_compute; reflexivity).
  destruct (traceMCPConnection_disabled_always_throws ∅ empty_world Hoff)
    as (exports & w0' & Hload & Hfails).
  exists exports, w0'. split; [exact Hload|].
  destruct (Hfails (JStr "PI System") (JStr "https://pi.example/mcp")
              (console_log [JStr "connected"];; mret (JObj [("ok", JBool true)])) w0')
    as [message Hthrows].
  exists message. exact Hthrows.
Defined.

(** The stub [traceMCPToolCall] runs no tool: every call of a batch
    resolves with undefined in an unchanged state. *)
Lemma Promise_all_disabled toolCalls context w :
  Promise_all (batch_calls disabled_exports toolCalls context) w
  = (Returned (map (λ _, JUndefined) toolCalls), w).
Proof.
  unfold batch_calls.
  induction toolCalls as [|tc rest IH]; simpl in *; [reflexivity|].
  now rewrite IH.
Qed.

(** X11.  With tracing disabled, [traceBatchMCPCalls] runs none of the
    tools of the batch (the stub wrapper ignores every [executeFn]) and
    always throws a TypeError, raised by [setAttributes] on the stub span;
    the state is left as it was. *)
Theorem traceBatchMCPCalls_disabled_runs_nothing env w0 :
  ENABLE_OTEL env = false →
  ∃ exports w0',
    otel_module env w0 = (Returned exports, w0')
    ∧ ∀ operationName toolCalls context w,
      ∃ message,
        traceBatchMCPCalls exports operationName toolCalls context w
        = (Thrown (TypeError message), w).
Proof.
  intros Hoff. unfold otel_module. rewrite Hoff. simpl.
  eexists _, _. split; [reflexivity|].
  intros operationName toolCalls context w.
  unfold traceBatchMCPCalls, get_prop. simpl. run_monad. simpl.
  rewrite Promise_all_disabled. simpl. eexists. reflexivity.
Qed.

(** A batch of one tool that would log and return 42. *)
Lemma traceBatchMCPCalls_disabled_witness :
  ∃ exports w0',
    otel_module ∅ empty_world = (Returned exports, w0')
    ∧ ∃ message,
        traceBatchMCPCalls exports (JStr "lookup")
          [mkToolCall (JStr "PI System") (JStr "search") (JObj [])
             (console_log [JStr "searching"];; mret (JNum 42))]
          no_metadata w0'
        = (Thrown (TypeError message), w0').
Proof.
  assert (Hoff : ENABLE_OTEL ∅ = false) by (vm_compute; reflexivity).
  destruct (traceBatchMCPCalls_disabled_runs_nothing ∅ empty_world Hoff)
    as (exports & w0' & Hload & Hfails).
  exists exports, w0'. split; [exact Hload|].
  apply (Hfails (JStr "lookup")
           [mkToolCall (JStr "PI System") (JStr "search") (JObj [])
              (console_log [JStr "searching"];; mret (JNum 42))]
           no_metadata w0').
Defined.

(** ** traceBatchMCPCalls *)

Lemma Promise_all_length {A : Type} (calls : list (M A)) : ∀ w results w',
  Promise_all calls w = (Returned results, w') → length results = length calls.
Proof.
  induction calls as [|call rest IH]; intros w results w'; simpl.
  - intros [= <- _]. reflexivity.
  - destruct (call w) as [[a|e] w1]; [|discriminate].
    destruct (Promise_all rest w1) as [[rs|e] w2] eqn:Hrest; [|discriminate].
    intros [= <- _]. simpl. f_equal. exact (IH w1 rs w2 Hrest).
Qed.

Lemma length_batch_calls otel toolCalls context :
  length (batch_calls otel toolCalls context) = length toolCalls.
Proof. unfold batch_calls. apply length_map. Qed.

(** X12.  With tracing enabled, a batch whose tool calls all return
    resolves with the array of their results, one per entry of [toolCalls]
    and in their order; the batch span gets status OK and
    [mcp.batch.completed_count] equal to the number of tools.  A batch in
    which a tool call throws an error throws that error, with status ERROR
    and the error recorded on the batch span.  The span is ended once. *)
Theorem traceBatchMCPCalls_transparent env operationName toolCalls context w :
  let span := fresh_context w in
  let w1 := batch_entry operationName toolCalls context w in
  let calls := batch_calls (enabled_exports env) toolCalls context in
  (∀ results w2,
     Promise_all calls w1 = (Returned results, w2) → span_open span w2 →
     ∃ w' s',
       traceBatchMCPCalls (enabled_exports env) operationName toolCalls context w
       = (Returned (JArr results), w')
       ∧ length results = length toolCalls
       ∧ spans w' !! span_id span = Some s'
       ∧ status s' = OK
       ∧ attributes s' !! "mcp.batch.completed_count"
         = Some (JNum (Number_of_nat (length toolCalls)))
       ∧ end_calls s' = 1%nat)
  ∧
  (∀ ctor message w2,
     Promise_all calls w1 = (Thrown (JErr ctor message), w2) → span_open span w2 →
     ∃ w' s',
       traceBatchMCPCalls (enabled_exports env) operationName toolCalls context w
       = (Thrown (JErr ctor message), w')
       ∧ spans w' !! span_id span = Some s'
       ∧ status s' = ERROR
       ∧ last (exceptions s') = Some (JErr ctor message)
       ∧ attributes s' !! "mcp.batch.success" = Some (JBool false)
       ∧ end_calls s' = 1%nat).
Proof.
  intros span w1 calls. subst span w1 calls. split.
  - intros results w2 Hall (s & Hs & Hopen).
    pose proof (Promise_all_length _ _ _ _ Hall) as Hlen.
    rewrite length_batch_calls in Hlen.
    destruct s as [sc sp sn st se sa ss sm sx n]; simpl in Hopen; subst n.
    unfold traceBatchMCPCalls, batch_entry, startSpan in *. simpl. run_monad.
    simpl in *. rewrite Hall. simpl.
    eexists _, _. split; [reflexivity|]. split; [exact Hlen|].
    split; [simpl; rewrite !lookup_alter_eq, Hs; reflexivity|].
    simpl. repeat split. rewrite <- Hlen. attr_lookup.
  - intros ctor message w2 Hall (s & Hs & Hopen).
    destruct s as [sc sp sn st se sa ss sm sx n]; simpl in Hopen; subst n.
    unfold traceBatchMCPCalls, batch_entry, startSpan in *. simpl. run_monad.
    simpl in *. rewrite Hall. simpl.
    eexists _, _. split; [reflexivity|].
    split; [simpl; rewrite !lookup_alter_eq, Hs; reflexivity|].
    simpl. repeat split; try attr_lookup. apply last_snoc.
Qed.

(** A batch of two tools that return 1 and 2. *)
Lemma traceBatchMCPCalls_witness :
  let toolCalls :=
    [mkToolCall (JStr "PI System") (JStr "first") (JObj []) (mret (JNum 1));
     mkToolCall (JStr "PI System") (JStr "second") (JObj []) (mret (JNum 2))] in
  ∃ w' s',
    traceBatchMCPCalls (enabled_exports ∅) (JStr "lookup") toolCalls no_metadata
      empty_world
    = (Returned (JArr [JNum 1; JNum 2]), w')
    ∧ length [JNum 1; JNum 2] = length toolCalls
    ∧ spans w' !! 1%N = Some s'
    ∧ status s' = OK
    ∧ attributes s' !! "mcp.batch.completed_count"
      = Some (JNum (Number_of_nat (length toolCalls)))
    ∧ end_calls s' = 1%nat.
Proof.
  intros toolCalls.
  apply (proj1 (traceBatchMCPCalls_transparent ∅ (JStr "lookup") toolCalls no_metadata
                  empty_world)
           [JNum 1; JNum 2]
           (Promise_all (batch_calls (enabled_exports ∅) toolCalls no_metadata)
              (batch_entry (JStr "lookup") toolCalls no_metadata empty_world)).2).
  - vm_compute. reflexivity.
  - eexists. split; vm_compute; reflexivity.
Defined.

Lemma traceMCPToolCall_next_id env toolName toolInput executeFn metadata w :
  next_id (traceMCPToolCall env toolName toolInput executeFn metadata w).2
  = next_id (executeFn (mcp_entry env toolName toolInput metadata w)).2.
Proof.
  unfold traceMCPToolCall, mcp_entry, substring_method, get_prop. run_monad.
  destruct (DEBUG_LOGGING env); simpl;
    (destruct (executeFn _) as [[result|error] w2]; simpl;
     [destruct (JSON_stringify_value result); simpl|]);
    split_conditions; reflexivity.
Qed.

Lemma mcp_entry_next_id env toolName toolInput metadata w :
  next_id (mcp_entry env toolName toolInput metadata w) = (next_id w + 1)%N.
Proof. unfold mcp_entry. run_monad. now destruct (DEBUG_LOGGING env). Qed.

Lemma mcp_entry_frame env toolName toolInput metadata w id :
  id ≠ next_id w →
  identity_of id (mcp_entry env toolName toolInput metadata w) = identity_of id w.
Proof.
  intros Hne. unfold identity_of, mcp_entry. run_monad.
  destruct (DEBUG_LOGGING env); simpl; now rewrite lookup_insert_ne.
Qed.

(** A tool call that starts no span of its own leaves one new span: the
    span of the wrapper, a child of the active span. *)
Lemma tool_call_step env toolName toolInput executeFn metadata w :
  starts_no_span executeFn →
  let w' := (traceMCPToolCall env toolName toolInput executeFn metadata w).2 in
  next_id w' = (next_id w + 1)%N
  ∧ active w' = active w
  ∧ identity_of (next_id w) w'
    = Some (fresh_context w, span_id <$> active w, "MCP Tool: " +:+ ToString toolName)
  ∧ ∀ id, id ≠ next_id w → identity_of id w' = identity_of id w.
Proof.
  intros Hinert w'. subst w'.
  destruct (Hinert (mcp_entry env toolName toolInput metadata w)) as [Hnext Hid].
  split; [|split; [|split]].
  - now rewrite traceMCPToolCall_next_id, Hnext, mcp_entry_next_id.
  - apply traceMCPToolCall_keeps_active.
  - rewrite traceMCPToolCall_keeps_identity, Hid, <- fresh_context_id.
    apply mcp_entry_identity.
  - intros id Hne.
    rewrite traceMCPToolCall_keeps_identity, Hid. now apply mcp_entry_frame.
Qed.

Lemma Promise_all_cons {A : Type} (call : M A) rest w :
  (Promise_all (call :: rest) w).2 = (Promise_all rest (call w).2).2.
Proof.
  simpl. destruct (call w) as [[a|e] w1]; simpl; [|reflexivity].
  now destruct (Promise_all rest w1) as [[results|e] w2].
Qed.

(** The spans a batch of tool calls leaves, when the tools start no span
    of their own: one per tool, in order, each a child of the span that is
    active when the batch starts. *)
Lemma batch_calls_spans env context toolCalls :
  Forall (λ tc, starts_no_span (tc_executeFn tc)) toolCalls →
  ∀ w,
    let w' := (Promise_all (batch_calls (enabled_exports env) toolCalls context) w).2 in
    next_id w' = (next_id w + N.of_nat (length toolCalls))%N
    ∧ active w' = active w
    ∧ (∀ id, (id < next_id w)%N → identity_of id w' = identity_of id w)
    ∧ (∀ i tc, toolCalls !! i = Some tc →
         ∃ ctx,
           identity_of (next_id w + N.of_nat i) w'
           = Some (ctx, span_id <$> active w, "MCP Tool: " +:+ ToString (tc_toolName tc))).
Proof.
  induction 1 as [|tc rest Htc _ IH]; intros w w'; subst w'.
  - simpl. split; [lia|]. split; [reflexivity|]. split; [reflexivity|].
    intros i tc Hi. now rewrite lookup_nil in Hi.
  - change (batch_calls (enabled_exports env) (tc :: rest) context)
      with (traceMCPToolCall env (tc_toolName tc) (tc_input tc) (tc_executeFn tc)
              (mkMetadata (conversationId context) (userId context) (tc_serverName tc)
                 JUndefined)
            :: batch_calls (enabled_exports env) rest context).
    rewrite Promise_all_cons.
    destruct (tool_call_step env (tc_toolName tc) (tc_input tc) (tc_executeFn tc)
                (mkMetadata (conversationId context) (userId context) (tc_serverName tc)
                   JUndefined) w Htc) as (Hnext1 & Hactive1 & Hown & Hframe).
    set (w1 := (traceMCPToolCall env (tc_toolName tc) (tc_input tc) (tc_executeFn tc)
                  (mkMetadata (conversationId context) (userId context)
                     (tc_serverName tc) JUndefined) w).2) in *.
    destruct (IH w1) as (Hnext & Hactive & Hbelow & Hspans).
    split; [|split; [|split]].
    + rewrite Hnext, Hnext1. simpl length. lia.
    + now rewrite Hactive.
    + intros id Hid. rewrite Hbelow by lia. apply Hframe. lia.
    + intros [|i] tc' Hi; simpl in Hi.
      * injection Hi as <-. exists (fresh_context w).
        rewrite N.add_0_r, Hbelow by lia. exact Hown.
      * destruct (Hspans i tc' Hi) as [ctx Hctx]. exists ctx.
        rewrite Hnext1, Hactive1 in Hctx.
        replace (next_id w + N.of_nat (S i))%N with (next_id w + 1 + N.of_nat i)%N by lia.
        exact Hctx.
Qed.

Lemma traceBatchMCPCalls_keeps_identity env operationName toolCalls context w id :
  identity_of id
    (traceBatchMCPCalls (enabled_exports env) operationName toolCalls context w).2
  = identity_of id
      (Promise_all (batch_calls (enabled_exports env) toolCalls context)
         (batch_entry operationName toolCalls context w)).2.
Proof.
  unfold traceBatchMCPCalls, batch_entry, startSpan, get_prop. simpl. run_monad.
  simpl. destruct (Promise_all _ _) as [[results|error] w2]; simpl;
    split_conditions; identity_kept id (fresh_context w).
Qed.

(** X13.  The batch span is never made active.  When the tools of a batch
    start no span of their own, the batch leaves one span per tool, in
    order, right after the batch span; each has the name of its tool and
    is a child of the span that was active when [traceBatchMCPCalls] was
    called (a root span when there was none): the tool spans are siblings
    of the batch span, not its children. *)
Theorem batch_tool_spans_are_siblings env operationName toolCalls context w :
  Forall (λ tc, starts_no_span (tc_executeFn tc)) toolCalls →
  span_id <$> active w ≠ Some (span_id (fresh_context w)) →
  ∀ i tc,
    toolCalls !! i = Some tc →
    ∃ s,
      spans (traceBatchMCPCalls (enabled_exports env) operationName toolCalls
               context w).2 !! (span_id (fresh_context w) + 1 + N.of_nat i)%N
      = Some s
      ∧ span_name s = "MCP Tool: " +:+ ToString (tc_toolName tc)
      ∧ parent_span_id s = span_id <$> active w
      ∧ parent_span_id s ≠ Some (span_id (fresh_context w)).
Proof.
  intros Htools Hfresh i tc Hi.
  destruct (batch_calls_spans env context toolCalls Htools
              (batch_entry operationName toolCalls context w))
    as (_ & _ & _ & Hspans).
  destruct (Hspans i tc Hi) as [ctx Hctx].
  rewrite <- traceBatchMCPCalls_keeps_identity in Hctx.
  change (next_id (batch_entry operationName toolCalls context w))
    with (next_id w + 1)%N in Hctx.
  change (active (batch_entry operationName toolCalls context w))
    with (active w) in Hctx.
  rewrite fresh_context_id. unfold identity_of in Hctx.
  destruct (spans _ !! _) as [s|]; [|discriminate].
  simpl in Hctx. injection Hctx as _ Hparent Hname.
  exists s. split; [reflexivity|]. split; [exact Hname|].
  split; [exact Hparent|]. rewrite Hparent, <- fresh_context_id. exact Hfresh.
Qed.

(** A batch of two tools that return at once. *)
Lemma batch_tool_spans_witness :
  let second := mkToolCall (JStr "PI System") (JStr "read_tag") (JObj []) (mret (JNum 2)) in
  ∃ s,
    spans (traceBatchMCPCalls (enabled_exports ∅) (JStr "lookup")
             [mkToolCall (JStr "PI System") (JStr "search") (JObj []) (mret (JNum 1));
              second]
             no_metadata empty_world).2 !! 3%N
    = Some s
    ∧ span_name s = "MCP Tool: read_tag"
    ∧ parent_span_id s = None
    ∧ parent_span_id s ≠ Some 1%N.
Proof.
  intros second.
  apply (batch_tool_spans_are_siblings ∅ (JStr "lookup")
           [mkToolCall (JStr "PI System") (JStr "search") (JObj []) (mret (JNum 1));
            second]
           no_metadata empty_world) with (i := 1%nat) (tc := second).
  - repeat constructor; intros id; reflexivity.
  - discriminate.
  - reflexivity.
Defined.

(** ** Request handlers *)

(** X14.  [mcpTracingMiddleware] never fails on a request without body,
    user or headers: it stores a conversation id and a user id on the
    request and calls [next()] once, without error argument.  A truthy
    [conversationId] of the body wins over the header
    [x-conversation-id]; whenever the body has no truthy [conversationId]
    (no body, no such property, or an empty one) the header is taken, and
    without either the id is undefined.  The same holds for [req.user.id]
    and [x-user-id]. *)
Theorem mcpTracingMiddleware_context req next w :
  ∃ req' conversation user,
    mcpTracingMiddleware req next w = (next req' JUndefined;; mret req') w
    ∧ req_mcpContext req' = Some (conversation, user)
    ∧ req_body req' = req_body req ∧ req_headers req' = req_headers req
    ∧ req_user req' = req_user req
    ∧ (∀ id, optional_chain (req_body req) "conversationId" = id →
             ToBoolean id = true → conversation = id)
    ∧ (ToBoolean (optional_chain (req_body req) "conversationId") = false →
       conversation = header req "x-conversation-id")
    ∧ (is_nullish (req_body req) = true →
       conversation = header req "x-conversation-id")
    ∧ (∀ id, optional_chain (req_user req) "id" = id →
             ToBoolean id = true → user = id)
    ∧ (ToBoolean (optional_chain (req_user req) "id") = false →
       user = header req "x-user-id")
    ∧ (is_nullish (req_user req) = true → user = header req "x-user-id")
    ∧ (ToBoolean (optional_chain (req_body req) "conversationId") = false →
       req_headers req !! "x-conversation-id" = None → conversation = JUndefined)
    ∧ (ToBoolean (optional_chain (req_user req) "id") = false →
       req_headers req !! "x-user-id" = None → user = JUndefined).
Proof.
  eexists _, _, _. split; [reflexivity|]. simpl.
  do 4 (split; [reflexivity|]).
  split; [intros id <- Htruthy; unfold js_or; now rewrite Htruthy|].
  split; [intros Hfalsy; unfold js_or; now rewrite Hfalsy|].
  split; [intros Hnull; unfold optional_chain, js_or; now rewrite Hnull|].
  split; [intros id <- Htruthy; unfold js_or; now rewrite Htruthy|].
  split; [intros Hfalsy; unfold js_or; now rewrite Hfalsy|].
  split; [intros Hnull; unfold optional_chain, js_or; now rewrite Hnull|].
  split.
  - intros Hfalsy Hnone. unfold js_or, header. now rewrite Hfalsy, Hnone.
  - intros Hfalsy Hnone. unfold js_or, header. now rewrite Hfalsy, Hnone.
Qed.

(** A request whose body has a message but no conversation id, and whose
    header carries one; and the same request with an id in the body. *)
Lemma mcpTracingMiddleware_witness :
  let headers : gmap string string := {[ "x-conversation-id" := "conv-2" ]} in
  let req := mkRequest' (JObj [("message", JStr "hi")]) headers JUndefined None None in
  let req1 :=
    mkRequest' (JObj [("conversationId", JStr "conv-1")]) headers JUndefined None None in
  (∃ req' user,
     mcpTracingMiddleware req (λ _ _, mret ()) empty_world = (Returned req', empty_world)
     ∧ req_mcpContext req' = Some (JStr "conv-2", user))
  ∧ (∃ req' user,
       mcpTracingMiddleware req1 (λ _ _, mret ()) empty_world
       = (Returned req', empty_world)
       ∧ req_mcpContext req' = Some (JStr "conv-1", user)).
Proof.
  intros headers req req1. split.
  - destruct (mcpTracingMiddleware_context req (λ _ _, mret ()) empty_world)
      as (req' & conversation & user & Hrun & Hctx & _ & _ & _ & _ & Hheader & _).
    exists req', user. split; [exact Hrun|].
    rewrite Hctx, (Hheader eq_refl). vm_compute. reflexivity.
  - destruct (mcpTracingMiddleware_context req1 (λ _ _, mret ()) empty_world)
      as (req' & conversation & user & Hrun & Hctx & _ & _ & _ & Hbody & _).
    exists req', user. split; [exact Hrun|].
    now rewrite Hctx, (Hbody (JStr "conv-1") eq_refl eq_refl).
Defined.

(** X15.  The handler of [createLibreChatMCPHandler] traces nothing:
    [extractToolCalls] returns no tool call for any message, so for every
    request with a body the handler only calls [next()], without error
    argument and with the request unchanged; no span is started and no MCP
    client is called.  For a request without body the destructuring of
    [req.body] throws a TypeError and [next] is not called. *)
Theorem handleMCPTools_is_inert otel mcpClients req next w :
  (is_nullish (req_body req) = false →
   handleMCPTools otel mcpClients req next w = (next req JUndefined;; mret req) w)
  ∧
  (is_nullish (req_body req) = true →
   ∃ message, handleMCPTools otel mcpClients req next w = (Thrown (TypeError message), w)).
Proof.
  unfold handleMCPTools, get_prop. split; intros Hbody; rewrite Hbody.
  - reflexivity.
  - eexists. reflexivity.
Qed.

(** A message that asks for a tool, sent to a handler with a client. *)
Lemma handleMCPTools_witness :
  let req :=
    mkRequest' (JObj [("message", JStr "call search_af_elements on PI System")])
      ∅ JUndefined None None in
  handleMCPTools (enabled_exports ∅) (λ _, Some example_client) req
    (λ _ _, console_log [JStr "next"]) empty_world
  = (Returned req,
     set_console_out [mkConsoleCall "log" [JStr "next"]] empty_world).
Proof.
  intros req.
  rewrite (proj1 (handleMCPTools_is_inert (enabled_exports ∅) (λ _, Some example_client)
                    req (λ _ _, console_log [JStr "next"]) empty_world) eq_refl).
  reflexivity.
Defined.

(** ** The proxy with its defaults, and on the disabled module *)

(** The state a call through the proxy leaves is the state the traced call
    leaves. *)
Lemma async_function_state (call : M JsValue) w :
  (async_function (result ← call; mret (Immediate result)) w).2 = (call w).2.
Proof.
  unfold async_function. run_monad. now destruct (call w) as [[result|error] w'].
Qed.

(** X16.  A client instrumented without options: the span that
    [callTool(name, ...)] leaves through the proxy has
    [mcp.server.name = "MCP Server"] and the first argument, a string, as
    [mcp.tool.name]; the default id getters return null, so the span
    carries no [conversation.id] and no [user.id].  The client's method is
    taken not to set attributes on the span. *)
Theorem proxy_default_options env (mcpClient : Client) f toolName rest w :
  mcpClient "callTool" = Method f →
  let args := JStr toolName :: rest in
  let toolInput := js_or (arg args 1) (JObj []) in
  let metadata := mkMetadata JNull JNull (JStr "MCP Server") JUndefined in
  let id := span_id (fresh_context w) in
  let w1 := mcp_entry env (JStr toolName) toolInput metadata w in
  (∀ key, attribute_of id key (awaited (f args) w1).2 = attribute_of id key w1) →
  ∃ g s',
    proxy_get (traceMCPToolCall env) default_options mcpClient "callTool" = Method g
    ∧ spans (g args w).2 !! id = Some s'
    ∧ attributes s' !! "mcp.tool.name" = Some (JStr toolName)
    ∧ attributes s' !! "mcp.server.name" = Some (JStr "MCP Server")
    ∧ attributes s' !! "conversation.id" = None
    ∧ attributes s' !! "user.id" = None.
Proof.
  intros Hf args toolInput metadata id w1 Hkept. subst args toolInput metadata id w1.
  unfold proxy_get. rewrite Hf.
  eexists. simpl.
  pose proof (λ key Hkey,
                eq_trans
                  (traceMCPToolCall_keeps_attribute env (JStr toolName)
                     (js_or (arg (JStr toolName :: rest) 1) (JObj []))
                     (awaited (f (JStr toolName :: rest)))
                     (mkMetadata JNull JNull (JStr "MCP Server") JUndefined)
                     w (span_id (fresh_context w)) key Hkey)
                  (eq_trans (Hkept key)
                     (mcp_entry_attribute env (JStr toolName)
                        (js_or (arg (JStr toolName :: rest) 1) (JObj []))
                        (mkMetadata JNull JNull (JStr "MCP Server") JUndefined) w key)))
    as Hfinal.
  pose proof (Hfinal "mcp.tool.name" eq_refl) as Hname.
  pose proof (Hfinal "mcp.server.name" eq_refl) as Hserver.
  pose proof (Hfinal "conversation.id" eq_refl) as Hconversation.
  pose proof (Hfinal "user.id" eq_refl) as Huser.
  unfold attribute_of in Hname, Hserver, Hconversation, Huser.
  destruct (spans _ !! _) as [s'|] eqn:Hspan; [|discriminate].
  simpl in Hname, Hserver, Hconversation, Huser.
  injection Hname as Hname. injection Hserver as Hserver.
  injection Hconversation as Hconversation. injection Huser as Huser.
  exists s'. split; [reflexivity|].
  split.
  { change (spans
              (async_function
                 (result ← traceMCPToolCall env (JStr toolName)
                             (js_or (arg (JStr toolName :: rest) 1) (JObj []))
                             (awaited (f (JStr toolName :: rest)))
                             (mkMetadata JNull JNull (JStr "MCP Server") JUndefined);
                  mret (Immediate result)) w).2
              !! span_id (fresh_context w) = Some s').
    rewrite async_function_state. exact Hspan. }
  rewrite Hname, Hserver, Hconversation, Huser.
  unfold mcp_attributes, spread_if. simpl.
  repeat split; attr_lookup_opt.
Qed.

Lemma proxy_default_options_witness :
  ∃ g s',
    proxy_get (traceMCPToolCall ∅) default_options example_client "callTool" = Method g
    ∧ spans (g [JStr "search"] empty_world).2 !! 1%N = Some s'
    ∧ attributes s' !! "mcp.tool.name" = Some (JStr "search")
    ∧ attributes s' !! "mcp.server.name" = Some (JStr "MCP Server")
    ∧ attributes s' !! "conversation.id" = None
    ∧ attributes s' !! "user.id" = None.
Proof.
  apply (proxy_default_options ∅ example_client
           (λ args, mret (Promise (Returned (JObj [("count", JNum 3)]))))
           "search" [] empty_world).
  - reflexivity.
  - intros key. reflexivity.
Defined.

(** X17.  A client instrumented on top of the disabled module loses its
    tool calls: for [callTool], [call_tool] and every [tool_...] method the
    proxy reads the two ids and hands the call to the stub wrapper, which
    never calls the client's method; the caller gets a promise of
    undefined.  With the default options the state is not touched at
    all. *)
Theorem proxy_on_disabled_module_drops_tool_calls options (mcpClient : Client)
    (prop : string) f :
  mcpClient prop = Method f → isToolCall prop = true →
  ∃ g,
    proxy_get (exported_traceMCPToolCall disabled_exports) options mcpClient prop
    = Method g
    ∧ (∀ args, g args = async_function
                          (getConversationId options;; getUserId options;;
                           mret (Immediate JUndefined)))
    ∧ (∀ g0 args w,
         proxy_get (exported_traceMCPToolCall disabled_exports) default_options
           mcpClient prop = Method g0 →
         g0 args w = (Returned (Promise (Returned JUndefined)), w)).
Proof.
  intros Hf Htool. unfold proxy_get. rewrite Hf.
  eexists. split; [reflexivity|]. split.
  - intros args. rewrite Htool. simpl.
    destruct (String.eqb prop "callTool" || String.eqb prop "call_tool"); reflexivity.
  - intros g0 args w [= <-]. rewrite Htool. simpl.
    destruct (String.eqb prop "callTool" || String.eqb prop "call_tool"); reflexivity.
Qed.

Lemma proxy_on_disabled_module_witness :
  ∃ g,
    proxy_get (exported_traceMCPToolCall disabled_exports) default_options
      example_client "callTool" = Method g
    ∧ g [JStr "search"] empty_world
      = (Returned (Promise (Returned JUndefined)), empty_world).
Proof.
  destruct (proxy_on_disabled_module_drops_tool_calls default_options example_client
              "callTool" (λ args, mret (Promise (Returned (JObj [("count", JNum 3)]))))
              eq_refl eq_refl)
    as (g & Hg & _ & Hstate).
  exists g. split; [exact Hg|]. exact (Hstate g [JStr "search"] empty_world Hg).
Defined.

(* ===================================================================== *)
(** * 11. Properties of the frontend helpers                             *)
(* ===================================================================== *)

(** ** User actions *)

(** X18.  [traceUserAction] is transparent.  Before initialization it is
    [fn] itself: no span is started.  After initialization it returns what
    [fn] returned, with the span ended once and status OK; and when [fn]
    throws an error it throws the same error, with status ERROR, the
    error's message, and the error as the last recorded exception.  The
    span is never made active: [fn] starts in the active context of the
    caller. *)
Theorem traceUserAction_transparent location_href name fn attributes w :
  let span := fresh_context w in
  let w1 := action_entry location_href name attributes w in
  traceUserAction location_href false name fn attributes = fn
  ∧ active w1 = active w
  ∧ (∀ result w2,
       fn w1 = (Returned result, w2) → span_open span w2 →
       ∃ w' s',
         traceUserAction location_href true name fn attributes w = (Returned result, w')
         ∧ spans w' !! span_id span = Some s'
         ∧ status s' = OK
         ∧ end_calls s' = 1%nat)
  ∧ (∀ ctor message w2,
       fn w1 = (Thrown (JErr ctor message), w2) → span_open span w2 →
       ∃ w' s',
         traceUserAction location_href true name fn attributes w
         = (Thrown (JErr ctor message), w')
         ∧ spans w' !! span_id span = Some s'
         ∧ status s' = ERROR
         ∧ status_message s' = JStr message
         ∧ last (exceptions s') = Some (JErr ctor message)
         ∧ end_calls s' = 1%nat).
Proof.
  intros span w1. subst span w1.
  split; [reflexivity|]. split; [reflexivity|]. split.
  - intros result w2 Hexec (s & Hs & Hopen).
    destruct s as [sc sp sn st se sa ss sm sx n]; simpl in Hopen; subst n.
    unfold traceUserAction, action_entry in *. simpl. run_monad.
    simpl in *. rewrite Hexec. simpl.
    eexists _, _. split; [reflexivity|].
    split; [simpl; rewrite !lookup_alter_eq, Hs; reflexivity|].
    simpl. repeat split.
  - intros ctor message w2 Hexec (s & Hs & Hopen).
    destruct s as [sc sp sn st se sa ss sm sx n]; simpl in Hopen; subst n.
    unfold traceUserAction, action_entry in *. simpl. run_monad.
    simpl in *. rewrite Hexec. simpl.
    eexists _, _. split; [reflexivity|].
    split; [simpl; rewrite !lookup_alter_eq, Hs; reflexivity|].
    simpl. repeat split. apply last_snoc.
Qed.

(** A user action that returns 7, traced on an empty state. *)
Lemma traceUserAction_witness :
  ∃ w' s',
    traceUserAction "https://chat.example/c/1" true "send_message" (mret (JNum 7)) []
      empty_world
    = (Returned (JNum 7), w')
    ∧ spans w' !! 1%N = Some s'
    ∧ status s' = OK
    ∧ end_calls s' = 1%nat.
Proof.
  apply (proj1 (proj2 (proj2 (traceUserAction_transparent "https://chat.example/c/1"
                                "send_message" (mret (JNum 7)) [] empty_world)))
           (JNum 7)
           (action_entry "https://chat.example/c/1" "send_message" [] empty_world)).
  - reflexivity.
  - eexists. split; [vm_compute; reflexivity | reflexivity].
Defined.

(** Setting a list of attributes one after the other. *)
Lemma set_all_app kvs1 kvs2 m : set_all (kvs1 ++ kvs2) m = set_all kvs2 (set_all kvs1 m).
Proof. unfold set_all. apply foldl_app. Qed.

(** An attribute after [set_all]: the last entry of the list for the key,
    or else what was there before. *)
Lemma lookup_set_all kvs m k :
  set_all kvs m !! k
  = match set_all kvs ∅ !! k with
    | Some v => Some v
    | None => m !! k
    end.
Proof.
  revert m. induction kvs as [|[k' v'] kvs IH]; intros m.
  - simpl. now rewrite lookup_empty.
  - change (set_all ((k', v') :: kvs) m) with (set_all kvs (<[k' := v']> m)).
    change (set_all ((k', v') :: kvs) ∅) with (set_all kvs (<[k' := v']> ∅)).
    rewrite (IH (<[k' := v']> m)), (IH (<[k' := v']> ∅)).
    destruct (set_all kvs ∅ !! k); [reflexivity|].
    destruct (decide (k' = k)) as [->|Hne].
    + now rewrite !lookup_insert_eq.
    + now rewrite !lookup_insert_ne, lookup_empty by exact Hne.
Qed.

(** What [traceUserAction] does after [fn] writes no attribute. *)
Lemma traceUserAction_keeps_attribute location_href name fn attrs w id key :
  attribute_of id key (traceUserAction location_href true name fn attrs w).2
  = attribute_of id key (fn (action_entry location_href name attrs w)).2.
Proof.
  unfold traceUserAction, action_entry, get_prop. simpl. run_monad. simpl.
  destruct (fn _) as [[result|error] w2]; simpl; split_conditions;
    unfold attribute_of; simpl;
    (destruct (decide (span_id (fresh_context w) = id)) as [<-|?];
     [ rewrite ?lookup_alter_eq;
       destruct (spans _ !! _) as [[? ? ? ? ? ? ? ? ? [|?]]|]; reflexivity
     | rewrite ?lookup_alter_ne by assumption; reflexivity ]).
Qed.

Lemma action_entry_attribute location_href name attrs w key :
  attribute_of (span_id (fresh_context w)) key (action_entry location_href name attrs w)
  = Some (set_all (user_action_attributes location_href name attrs) ∅ !! key).
Proof.
  unfold attribute_of, action_entry. run_monad. simpl.
  now rewrite fresh_context_id, lookup_insert_eq.
Qed.

(** X19.  The attributes of the caller of [traceUserAction] are spread
    after the two defaults: on the span the call leaves behind, an
    attribute the caller passes (a string, a number or a boolean) has the
    caller's value, also under the keys [user.action] and [browser.url]; a
    default stands when the caller does not pass its key.  [fn] is taken
    not to set attributes on the span. *)
Theorem user_action_attributes_override location_href name attrs fn w :
  let caller := set_all attrs ∅ in
  let id := span_id (fresh_context w) in
  let w1 := action_entry location_href name attrs w in
  (∀ key, attribute_of id key (fn w1).2 = attribute_of id key w1) →
  ∃ s',
    spans (traceUserAction location_href true name fn attrs w).2 !! id = Some s'
    ∧ (∀ k v, caller !! k = Some v → is_attribute_value v = true →
              attributes s' !! k = Some v)
    ∧ (caller !! "user.action" = None →
       attributes s' !! "user.action" = Some (JStr name))
    ∧ (caller !! "browser.url" = None →
       attributes s' !! "browser.url" = Some (JStr location_href)).
Proof.
  intros caller id w1 Hkept. subst caller id w1.
  pose proof (λ key,
                eq_trans
                  (traceUserAction_keeps_attribute location_href name fn attrs w
                     (span_id (fresh_context w)) key)
                  (eq_trans (Hkept key)
                     (action_entry_attribute location_href name attrs w key)))
    as Hfinal.
  unfold attribute_of in Hfinal.
  destruct (spans _ !! _) as [s'|]; [|discriminate (Hfinal "user.action")].
  simpl in Hfinal.
  assert (Hattr : ∀ key, attributes s' !! key
                         = set_all (user_action_attributes location_href name attrs) ∅
                             !! key).
  { intros key. now injection (Hfinal key). }
  exists s'. split; [reflexivity|].
  unfold user_action_attributes in Hattr.
  split; [|split].
  - intros k v Hcaller _. now rewrite Hattr, set_all_app, lookup_set_all, Hcaller.
  - intros Hnone. rewrite Hattr, set_all_app, lookup_set_all, Hnone. simpl. attr_lookup.
  - intros Hnone. rewrite Hattr, set_all_app, lookup_set_all, Hnone. simpl. attr_lookup.
Qed.

(** A caller that passes its own [user.action]. *)
Lemma user_action_attributes_witness :
  ∃ s',
    spans (traceUserAction "https://chat.example/c/1" true "send_message"
             (mret (JNum 7)) [("user.action", JStr "custom")] empty_world).2 !! 1%N
    = Some s'
    ∧ attributes s' !! "user.action" = Some (JStr "custom")
    ∧ attributes s' !! "browser.url" = Some (JStr "https://chat.example/c/1").
Proof.
  destruct (user_action_attributes_override "https://chat.example/c/1" "send_message"
              [("user.action", JStr "custom")] (mret (JNum 7) : M JsValue) empty_world)
    as (s' & Hspan & Hcaller & _ & Hurl).
  - intros key. reflexivity.
  - exists s'. split; [exact Hspan|]. split.
    + apply Hcaller; [vm_compute; reflexivity | reflexivity].
    + apply Hurl. vm_compute. reflexivity.
Defined.

(** ** Error listeners *)

(** X20.  The [error] listener of [instrumentErrors] never throws: for
    every event it starts one span [unhandled_error] with the event's
    message and the page URL, records [event.error] on it exactly when it
    is truthy, and ends the span; the active context is left as it was. *)
Theorem error_listener_one_closed_span location_href event w :
  ∃ w' s,
    error_listener location_href event w = (Returned (), w')
    ∧ spans w' !! next_id w = Some s
    ∧ span_name s = "unhandled_error"
    ∧ attributes s !! "error.message" = Some (ev_message event)
    ∧ attributes s !! "browser.url" = Some (JStr location_href)
    ∧ exceptions s = (if ToBoolean (ev_error event) then [ev_error event] else [])
    ∧ status s = UNSET
    ∧ end_calls s = 1%nat
    ∧ active w' = active w
    ∧ next_id w' = (next_id w + 1)%N.
Proof.
  unfold error_listener. run_monad. simpl. rewrite fresh_context_id.
  destruct (ToBoolean (ev_error event)); simpl.
  - eexists _, _. split; [reflexivity|].
    split; [simpl; rewrite !lookup_alter_eq, lookup_insert_eq; reflexivity|].
    simpl. repeat split; attr_lookup.
  - eexists _, _. split; [reflexivity|].
    split; [simpl; rewrite !lookup_alter_eq, lookup_insert_eq; reflexivity|].
    simpl. repeat split; attr_lookup.
Qed.

(** X21.  The [unhandledrejection] listener starts and ends one span
    [unhandled_promise_rejection] and never throws.  For a rejection with
    an Error that has a message, the span carries the message and the
    Error is recorded; a rejection with anything else is described by
    [String(reason)] (or its truthy [message] property) and nothing is
    recorded: a rejection with a string leaves a span without
    exception. *)
Theorem unhandledrejection_listener_one_closed_span location_href reason w :
  ∃ w' s,
    unhandledrejection_listener location_href (mkPromiseRejectionEvent reason) w
    = (Returned (), w')
    ∧ spans w' !! next_id w = Some s
    ∧ span_name s = "unhandled_promise_rejection"
    ∧ end_calls s = 1%nat
    ∧ active w' = active w
    ∧ exceptions s = (if instanceof_Error reason then [reason] else [])
    ∧ (∀ ctor message, reason = JErr ctor message → message ≠ "" →
       attributes s !! "error.message" = Some (JStr message))
    ∧ (∀ text, reason = JStr text →
       attributes s !! "error.message" = Some (JStr text) ∧ exceptions s = [])
    ∧ (is_nullish reason = true →
       attributes s !! "error.message" = Some (JStr (ToString reason))).
Proof.
  unfold unhandledrejection_listener. run_monad. simpl. rewrite fresh_context_id.
  destruct (instanceof_Error reason) eqn:Herror; simpl.
  - eexists _, _. split; [reflexivity|].
    split; [simpl; rewrite !lookup_alter_eq, lookup_insert_eq; reflexivity|].
    simpl. do 4 (split; [reflexivity|]). split; [|split].
    + intros ctor message -> Hmessage. attr_lookup.
      unfold js_or, optional_chain. simpl.
      apply String.eqb_neq in Hmessage. now rewrite Hmessage.
    + intros text ->. discriminate.
    + intros Hnull. destruct reason; discriminate.
  - eexists _, _. split; [reflexivity|].
    split; [simpl; rewrite !lookup_alter_eq, lookup_insert_eq; reflexivity|].
    simpl. do 4 (split; [reflexivity|]). split; [|split].
    + intros ctor message ->. discriminate.
    + intros text ->. split; [|reflexivity]. attr_lookup.
    + intros Hnull. attr_lookup. unfold js_or, optional_chain. now rewrite Hnull.
Qed.

(** A promise rejected with the string [timeout]. *)
Lemma unhandledrejection_listener_witness :
  ∃ w' s,
    unhandledrejection_listener "https://chat.example/c/1"
      (mkPromiseRejectionEvent (JStr "timeout")) empty_world
    = (Returned (), w')
    ∧ spans w' !! 1%N = Some s
    ∧ attributes s !! "error.message" = Some (JStr "timeout")
    ∧ exceptions s = [].
Proof.
  destruct (unhandledrejection_listener_one_closed_span "https://chat.example/c/1"
              (JStr "timeout") empty_world)
    as (w' & s & Hrun & Hspan & _ & _ & _ & _ & _ & Htext & _).
  exists w', s. split; [exact Hrun|]. split; [exact Hspan|].
  exact (Htext "timeout" eq_refl).
Defined.

(** ** Console messages *)




(* ===================================================================== *)
(** * 12. Properties of the configuration route                          *)
(* ===================================================================== *)

(** X23.  The configuration [GET /otel] sends to the frontend agrees with
    the settings of the backend module for every environment: [enabled] is
    the backend's ENABLE_OTEL, [opikUrl], [projectName] and
    [workspaceName] are the backend's values with the same defaults, and
    [debugLogging] is DEBUG_LOGGING; [serviceName] does not depend on the
    environment; an unset or empty OPIK_API_KEY gives an empty [apiKey];
    and the object always serializes. *)
Theorem otel_config_agrees_with_backend env :
  property (otel_config env) "enabled" = JBool (ENABLE_OTEL env)
  ∧ property (otel_config env) "opikUrl" = JStr (OPIK_URL env)
  ∧ property (otel_config env) "projectName" = JStr (OPIK_PROJECT_NAME env)
  ∧ property (otel_config env) "workspaceName" = JStr (OPIK_WORKSPACE_NAME env)
  ∧ property (otel_config env) "debugLogging" = JBool (DEBUG_LOGGING env)
  ∧ property (otel_config env) "serviceName" = JStr "librechat-frontend"
  ∧ (∀ key, env !! "OPIK_API_KEY" = Some key →
            property (otel_config env) "apiKey" = JStr key)
  ∧ (env !! "OPIK_API_KEY" = None → property (otel_config env) "apiKey" = JStr "")
  ∧ ∃ text, JSON_stringify (otel_config env) = Some text.
Proof.
  repeat split.
  - intros key Hkey. unfold otel_config, env_or. simpl. rewrite Hkey.
    destruct (String.eqb key "") eqn:Hempty; [|reflexivity].
    apply String.eqb_eq in Hempty. now subst key.
  - intros Hkey. unfold otel_config, env_or. simpl. now rewrite Hkey.
  - eexists. reflexivity.
Qed.

(** An environment that enables tracing and sets the key. *)
Lemma otel_config_witness :
  let env : gmap string string :=
    {[ "ENABLE_OTEL" := "true"; "OPIK_API_KEY" := "secret" ]} in
  property (otel_config env) "apiKey" = JStr "secret".
Proof.
  intros env.
  apply (proj1 (proj2 (proj2 (proj2 (proj2 (proj2 (proj2
           (otel_config_agrees_with_backend env)))))))).
  vm_compute. reflexivity.
Defined.
